(** * ResQ AI: the agent workflow and its orchestrator

    A shallow embedding of [backend/src/graph/state.py],
    [backend/src/graph/workflow.py] and [backend/src/graph/orchestrator.py],
    with the properties of the workflow state machine, of the idempotency
    cache and of context retrieval proved over it.

    Conventions of the embedding.
    - A Python call that may raise returns an [outcome]: [Return v] or
      [Raise msg], [msg] being [str(e)] of the exception.
    - [IncidentState] is a [TypedDict] with [total=False]: every key may be
      absent, so every field of the record is an [option]; [state.get(k, d)] is
      [default d (k state)].  For the keys whose Python type is
      [Optional[_]], an absent key and a key holding [None] read the same
      through [state.get(k)] and are both [None] here.
    - [Dict[str, Any]] values are [pydict]s, finite maps from strings to
      [json] values.
    - Python floats that the code only stores, compares and subtracts are
      rationals ([Q]); a decimal literal is read as the rational it writes.
    - The services injected into the orchestrator (embedding, vector search,
      completion, the agents, the clock) are the fields of [Services]; their
      results are arbitrary.  An agent is a function of its [AgentInput];
      within a run no two calls of an agent have the same input, because the
      input carries [agent_history], which grows with every node, so any
      sequence of answers is an instance.  Two calls of the orchestrator
      may be given two [Services], the world having moved on in between.
    - The graph library is not part of the repository.  [invoke] gives a
      compiled graph the library's semantics for a graph like this one:
      nodes run one at a time, each on the record the node before it
      returned, from the entry point until the edge to [END].  The function
      of a conditional edge is called on a copy of the record and only the
      key it returns is used, so the one write a router makes, to
      [iteration_count], is lost.  The library stops a run that has used
      up its limit of node executions with [GraphRecursionError]; the
      limit is the field [recursion_limit] of [Services].
    - An agent's [result] dict is read key by key with
      [result.get(key, default)]; a key is either absent or holds a value
      of its type, a key holding [None] is not modelled. *)

From stdpp Require Import base option list strings gmap.
From Stdlib Require Import QArith.

Set Warnings "-register-all".
Close Scope Q_scope.
Open Scope string_scope.
Open Scope list_scope.

(** ** Exceptions *)

Inductive outcome (A : Type) : Type :=
| Return (a : A)
| Raise (msg : string).
Arguments Return {A} a.
Arguments Raise {A} msg.

#[global] Instance outcome_ret : MRet outcome := fun A a => Return a.
#[global] Instance outcome_bind : MBind outcome := fun A B f m =>
  match m with
  | Return a => f a
  | Raise e => Raise e
  end.

(** [try: m except Exception: h] *)
Definition try_except {A} (m : outcome A) (h : string → A) : A :=
  match m with
  | Return a => a
  | Raise e => h e
  end.

(** Whether the call returned. *)
Definition returns {A} (m : outcome A) : bool :=
  match m with
  | Return _ => true
  | Raise _ => false
  end.

(** ** Python values *)

Inductive json : Type :=
| JNull
| JBool (b : bool)
| JNum (q : Q)
| JStr (s : string)
| JArr (l : list json)
| JObj (o : gmap string json).

Abbreviation pydict := (gmap string json).

(** A dict literal [{k1: v1, ...}] (the keys of every literal below are
    distinct). *)
Definition dict (items : list (string * json)) : pydict := list_to_map items.

Class ToJson (A : Type) := to_json : A → json.
#[global] Instance json_to_json : ToJson json := fun j => j.
#[global] Instance bool_to_json : ToJson bool := JBool.
#[global] Instance Q_to_json : ToJson Q := JNum.
#[global] Instance Z_to_json : ToJson Z := fun z => JNum (inject_Z z).
#[global] Instance nat_to_json : ToJson nat :=
  fun n => JNum (inject_Z (Z.of_nat n)).
#[global] Instance string_to_json : ToJson string := JStr.
#[global] Instance pydict_to_json : ToJson pydict := JObj.
#[global] Instance list_to_json `{ToJson A} : ToJson (list A) :=
  fun l => JArr (to_json <$> l).
#[global] Instance option_to_json `{ToJson A} : ToJson (option A) :=
  fun o => match o with Some a => to_json a | None => JNull end.

(** Python truthiness, for [if x:] and [x or y]. *)
Class Truthy (A : Type) := truthy : A → bool.
#[global] Instance string_truthy : Truthy string :=
  fun s => match s with EmptyString => false | _ => true end.
#[global] Instance list_truthy {A} : Truthy (list A) :=
  fun l => match l with [] => false | _ => true end.
#[global] Instance pydict_truthy : Truthy pydict :=
  fun d => negb (bool_decide (d = ∅)).
#[global] Instance bool_truthy : Truthy bool := fun b => b.
#[global] Instance option_truthy `{Truthy A} : Truthy (option A) :=
  fun o => match o with Some a => truthy a | None => false end.

(** ** The data model ([state.py] and the agent contract) *)

(** A hit of the similarity search, [{id, score, payload}]; the two places
    where [_format_context_for_prompt] looks for its text are kept apart. *)
Record Doc : Type := {
  doc_id : string;
  doc_score : Q;
  doc_content : option string;
  doc_payload_content : option string;
}.

(** Modelled from the spec: [GroundedClaim] of [src/agents/schemas.py], "a
    claim string plus the evidence id(s) supporting it". *)
Record GroundedClaim : Type := {
  gc_claim : string;
  gc_evidence_ids : list string;
}.

(** Modelled from the spec: [AmbiguityFlag] of [src/agents/schemas.py], "a
    field name, a description, and candidate resolutions". *)
Record AmbiguityFlag : Type := {
  af_field : string;
  af_description : string;
  af_candidates : list string;
}.

(** [c.model_dump()] *)
Class ModelDump (A : Type) := model_dump : A → pydict.
#[global] Instance GroundedClaim_dump : ModelDump GroundedClaim := fun c =>
  dict [("claim", to_json (gc_claim c));
        ("evidence_ids", to_json (gc_evidence_ids c))].
#[global] Instance AmbiguityFlag_dump : ModelDump AmbiguityFlag := fun a =>
  dict [("field", to_json (af_field a));
        ("description", to_json (af_description a));
        ("candidates", to_json (af_candidates a))].

(** [class IncidentState(TypedDict, total=False)] *)
Record IncidentState : Type := {
  (* input *)
  incident_id : option string;
  query : option string;
  channel : option string;
  user_role : option string;
  text_input : option string;
  audio_transcript : option string;
  image_embeddings : option (list (list Q));
  location : option (gmap string Q);
  (* retrieved context *)
  retrieved_docs : option (list Doc);
  retrieved_images : option (list Doc);
  retrieved_sops : option (list Doc);
  retrieved_landmarks : option (list Doc);
  (* workflow state *)
  current_agent : option string;
  agent_history : option (list string);
  iteration_count : option Z;
  max_iterations : option Z;
  (* agent outputs *)
  intent : option string;
  initial_assessment : option string;
  priority : option string;
  incident_type : option string;
  recommended_assets : option (list pydict);
  resolved_location : option pydict;
  address : option string;
  nearby_landmarks : option (list string);
  recommended_sops : option (list pydict);
  critical_instructions : option string;
  contraindications : option string;
  visual_analysis : option pydict;
  visual_confirmation : option bool;
  quality_score : option Q;
  gaps_detected : option (list string);
  grounding_issues : option (list string);
  reflection_complete : option bool;
  (* grounding and confidence *)
  grounded_claims : option (list pydict);
  confidence : option (gmap string Q);
  ambiguities : option (list pydict);
  (* workflow control *)
  next_agent : option string;
  requires_human_approval : option bool;
  requires_more_info : option bool;
  loop_back_to : option string;
  (* final output *)
  final_recommendation : option pydict;
  processing_complete : option bool;
  (* audit *)
  total_processing_time_ms : option Z;
  total_tokens_consumed : option Z;
  errors : option (list string);
}.

Definition create_initial_state
    (incident_id_ query_ text_input_ channel_ user_role_ : string)
    (location_ : option (gmap string Q))
    (audio_transcript_ : option string)
    (image_embeddings_ : option (list (list Q))) : IncidentState :=
  {| incident_id := Some incident_id_;
     query := Some query_;
     channel := Some channel_;
     user_role := Some user_role_;
     text_input := Some text_input_;
     audio_transcript := audio_transcript_;
     image_embeddings := image_embeddings_;
     location := location_;
     retrieved_docs := Some [];
     retrieved_images := Some [];
     retrieved_sops := Some [];
     retrieved_landmarks := Some [];
     current_agent := Some "supervisor";
     agent_history := Some [];
     iteration_count := Some 0%Z;
     max_iterations := Some 5%Z;
     intent := None;
     initial_assessment := None;
     priority := Some "P3";
     incident_type := Some "Unknown";
     recommended_assets := Some [];
     resolved_location := None;
     address := None;
     nearby_landmarks := Some [];
     recommended_sops := Some [];
     critical_instructions := None;
     contraindications := None;
     visual_analysis := None;
     visual_confirmation := None;
     quality_score := None;
     gaps_detected := Some [];
     grounding_issues := Some [];
     reflection_complete := Some false;
     grounded_claims := Some [];
     confidence := None;
     ambiguities := Some [];
     next_agent := None;
     requires_human_approval := Some false;
     requires_more_info := Some false;
     loop_back_to := None;
     final_recommendation := None;
     processing_complete := Some false;
     total_processing_time_ms := Some 0%Z;
     total_tokens_consumed := Some 0%Z;
     errors := Some [] |}.

(** Modelled from the spec: [AgentInput] of [src/agents/schemas.py], the
    read-only projection of the record handed to an agent; its fields are
    the keyword arguments of [build_agent_input]. *)
Record AgentInput : Type := {
  in_incident_id : string;
  in_query : string;
  in_channel : string;
  in_user_role : string;
  in_text_input : string;
  in_audio_transcript : option string;
  in_image_embeddings : option (list (list Q));
  in_location : option (gmap string Q);
  in_retrieved_docs : list Doc;
  in_retrieved_images : list Doc;
  in_retrieved_sops : list Doc;
  in_retrieved_landmarks : list Doc;
  in_agent_history : list string;
  in_previous_outputs : pydict;
}.

(** [output.result], the step-specific payload, read with
    [result.get(key, default)]: [None] is an absent key. *)
Record AgentResult : Type := {
  res_intent : option string;
  res_initial_assessment : option string;
  res_priority : option string;
  res_incident_type : option string;
  res_recommended_assets : option (list pydict);
  res_resolved_location : option pydict;
  res_address : option string;
  res_nearby_landmarks : option (list string);
  res_recommended_sops : option (list pydict);
  res_critical_instructions : option string;
  res_contraindications : option string;
  res_image_analysis : option pydict;
  res_visual_confirmation : option bool;
  res_quality_score : option Q;
  res_gaps_detected : option (list string);
  res_grounding_issues : option (list string);
}.

(** Modelled from the spec: [AgentOutput] of [src/agents/schemas.py]; the
    fields are the attributes the workflow nodes read. *)
Record AgentOutput : Type := {
  out_result : AgentResult;
  out_next_agent : option string;
  out_requires_human_approval : bool;
  out_requires_more_info : bool;
  out_processing_time_ms : Z;
  out_tokens_consumed : Z;
  out_grounded_claims : list GroundedClaim;
  out_ambiguities : list AmbiguityFlag;
}.

(** [{content, usage: {total_tokens}, model}] of the completion service. *)
Record LLMResponse : Type := {
  resp_content : string;
  resp_total_tokens : option Z;
  resp_model : option string;
}.

(** The injected collaborators and the environment.  [agent_process name]
    is [self._get_agent(name).process]: the agents are built from the
    other services, and how their answers depend on those is not
    modelled.  [recursion_limit] is the number of node executions the
    graph library allows a run.  [llm_generate user_prompt] is
    [self.llm.generate] under the constant system prompt and options of
    its one call.  [time_time k] is the value [time.time()] returns at its
    [k]-th occurrence in [orchestrator.py]: 0 at the start of
    [process_incident], 1 at its end, 2 for the argument in
    [_process_test_mode], 3 inside [_error_response]. *)
Record Services : Type := {
  embed_text : string → outcome (list (list Q));
  hybrid_search : string → list Q → Z → outcome (list Doc);
  llm_generate : string → outcome LLMResponse;
  json_loads : string → outcome json;
  agent_process : string → AgentInput → outcome AgentOutput;
  time_time : nat → Q;
  recursion_limit : nat;
}.

(** ** [workflow.py] *)

Definition _build_previous_outputs (state : IncidentState) : pydict :=
  let outputs : pydict := ∅ in
  let outputs :=
    if truthy (intent state) then
      <["supervisor" := to_json (dict [
          ("intent", to_json (intent state));
          ("initial_assessment", to_json (initial_assessment state))])]> outputs
    else outputs in
  let outputs :=
    if truthy (priority state) then
      <["triage" := to_json (dict [
          ("priority", to_json (priority state));
          ("incident_type", to_json (incident_type state));
          ("recommended_assets",
             to_json (default [] (recommended_assets state)))])]> outputs
    else outputs in
  let outputs :=
    if truthy (resolved_location state) then
      <["geo" := to_json (dict [
          ("resolved_location", to_json (resolved_location state));
          ("address", to_json (address state));
          ("nearby_landmarks",
             to_json (default [] (nearby_landmarks state)))])]> outputs
    else outputs in
  let outputs :=
    if truthy (recommended_sops state) then
      <["protocol" := to_json (dict [
          ("recommended_sops", to_json (recommended_sops state));
          ("critical_instructions",
             to_json (critical_instructions state))])]> outputs
    else outputs in
  let outputs :=
    if truthy (visual_analysis state) then
      <["vision" := to_json (dict [
          ("visual_analysis", to_json (visual_analysis state));
          ("visual_confirmation",
             to_json (visual_confirmation state))])]> outputs
    else outputs in
  outputs.

Definition build_agent_input (state : IncidentState) : AgentInput :=
  {| in_incident_id := default "" (incident_id state);
     in_query := default "" (query state);
     in_channel := default "web" (channel state);
     in_user_role := default "dispatcher" (user_role state);
     in_text_input := default "" (text_input state);
     in_audio_transcript := audio_transcript state;
     in_image_embeddings := image_embeddings state;
     in_location := location state;
     in_retrieved_docs := default [] (retrieved_docs state);
     in_retrieved_images := default [] (retrieved_images state);
     in_retrieved_sops := default [] (retrieved_sops state);
     in_retrieved_landmarks := default [] (retrieved_landmarks state);
     in_agent_history := default [] (agent_history state);
     in_previous_outputs := _build_previous_outputs state |}.

(** [self._get_agent(name)]: the six agents, [ValueError] otherwise. *)
Definition _get_agent (sv : Services) (name : string)
    : outcome (AgentInput → outcome AgentOutput) :=
  if bool_decide (name ∈ ["supervisor"; "triage"; "geo"; "protocol";
                          "vision"; "reflector"])
  then Return (agent_process sv name)
  else Raise ("Unknown agent: " +:+ name).

(** What [_run_supervisor] writes into the record from the agent's output. *)
Definition merge_supervisor (state : IncidentState) (output : AgentOutput)
    : IncidentState :=
  let result := out_result output in
  {| incident_id := incident_id state;
     query := query state;
     channel := channel state;
     user_role := user_role state;
     text_input := text_input state;
     audio_transcript := audio_transcript state;
     image_embeddings := image_embeddings state;
     location := location state;
     retrieved_docs := retrieved_docs state;
     retrieved_images := retrieved_images state;
     retrieved_sops := retrieved_sops state;
     retrieved_landmarks := retrieved_landmarks state;
     current_agent := current_agent state;
     agent_history :=
       Some (default [] (agent_history state) ++ ["supervisor"]);
     iteration_count := iteration_count state;
     max_iterations := max_iterations state;
     intent := Some (default "unclear" (res_intent result));
     initial_assessment := Some (default "" (res_initial_assessment result));
     priority := priority state;
     incident_type := incident_type state;
     recommended_assets := recommended_assets state;
     resolved_location := resolved_location state;
     address := address state;
     nearby_landmarks := nearby_landmarks state;
     recommended_sops := recommended_sops state;
     critical_instructions := critical_instructions state;
     contraindications := contraindications state;
     visual_analysis := visual_analysis state;
     visual_confirmation := visual_confirmation state;
     quality_score := quality_score state;
     gaps_detected := gaps_detected state;
     grounding_issues := grounding_issues state;
     reflection_complete := reflection_complete state;
     grounded_claims := grounded_claims state;
     confidence := confidence state;
     ambiguities :=
       if truthy (out_ambiguities output)
       then Some (model_dump <$> out_ambiguities output)
       else ambiguities state;
     next_agent := out_next_agent output;
     requires_human_approval := Some (out_requires_human_approval output);
     requires_more_info := Some (out_requires_more_info output);
     loop_back_to := loop_back_to state;
     final_recommendation := final_recommendation state;
     processing_complete := processing_complete state;
     total_processing_time_ms :=
       Some (default 0 (total_processing_time_ms state)
             + out_processing_time_ms output)%Z;
     total_tokens_consumed :=
       Some (default 0 (total_tokens_consumed state)
             + out_tokens_consumed output)%Z;
     errors := errors state |}.

(** The [supervisor] node. *)
Definition _run_supervisor (sv : Services) (state : IncidentState)
    : outcome IncidentState :=
  agent ← _get_agent sv "supervisor";
  output ← agent (build_agent_input state);
  Return (merge_supervisor state output).

(** What [_run_triage] writes into the record from the agent's output. *)
Definition merge_triage (state : IncidentState) (output : AgentOutput)
    : IncidentState :=
  let result := out_result output in
  {| incident_id := incident_id state;
     query := query state;
     channel := channel state;
     user_role := user_role state;
     text_input := text_input state;
     audio_transcript := audio_transcript state;
     image_embeddings := image_embeddings state;
     location := location state;
     retrieved_docs := retrieved_docs state;
     retrieved_images := retrieved_images state;
     retrieved_sops := retrieved_sops state;
     retrieved_landmarks := retrieved_landmarks state;
     current_agent := current_agent state;
     agent_history := Some (default [] (agent_history state) ++ ["triage"]);
     iteration_count := iteration_count state;
     max_iterations := max_iterations state;
     intent := intent state;
     initial_assessment := initial_assessment state;
     priority := Some (default "P3" (res_priority result));
     incident_type := Some (default "Unknown" (res_incident_type result));
     recommended_assets := Some (default [] (res_recommended_assets result));
     resolved_location := resolved_location state;
     address := address state;
     nearby_landmarks := nearby_landmarks state;
     recommended_sops := recommended_sops state;
     critical_instructions := critical_instructions state;
     contraindications := contraindications state;
     visual_analysis := visual_analysis state;
     visual_confirmation := visual_confirmation state;
     quality_score := quality_score state;
     gaps_detected := gaps_detected state;
     grounding_issues := grounding_issues state;
     reflection_complete := reflection_complete state;
     grounded_claims :=
       if truthy (out_grounded_claims output)
       then Some (default [] (grounded_claims state)
                  ++ (model_dump <$> out_grounded_claims output))
       else grounded_claims state;
     confidence := confidence state;
     ambiguities := ambiguities state;
     next_agent := out_next_agent output;
     requires_human_approval := Some (out_requires_human_approval output);
     requires_more_info := requires_more_info state;
     loop_back_to := loop_back_to state;
     final_recommendation := final_recommendation state;
     processing_complete := processing_complete state;
     total_processing_time_ms :=
       Some (default 0 (total_processing_time_ms state)
             + out_processing_time_ms output)%Z;
     total_tokens_consumed :=
       Some (default 0 (total_tokens_consumed state)
             + out_tokens_consumed output)%Z;
     errors := errors state |}.

(** The [triage] node. *)
Definition _run_triage (sv : Services) (state : IncidentState)
    : outcome IncidentState :=
  agent ← _get_agent sv "triage";
  output ← agent (build_agent_input state);
  Return (merge_triage state output).

(** What [_run_geo] writes into the record from the agent's output. *)
Definition merge_geo (state : IncidentState) (output : AgentOutput)
    : IncidentState :=
  let result := out_result output in
  {| incident_id := incident_id state;
     query := query state;
     channel := channel state;
     user_role := user_role state;
     text_input := text_input state;
     audio_transcript := audio_transcript state;
     image_embeddings := image_embeddings state;
     location := location state;
     retrieved_docs := retrieved_docs state;
     retrieved_images := retrieved_images state;
     retrieved_sops := retrieved_sops state;
     retrieved_landmarks := retrieved_landmarks state;
     current_agent := current_agent state;
     agent_history := Some (default [] (agent_history state) ++ ["geo"]);
     iteration_count := iteration_count state;
     max_iterations := max_iterations state;
     intent := intent state;
     initial_assessment := initial_assessment state;
     priority := priority state;
     incident_type := incident_type state;
     recommended_assets := recommended_assets state;
     resolved_location := res_resolved_location result;
     address := res_address result;
     nearby_landmarks := Some (default [] (res_nearby_landmarks result));
     recommended_sops := recommended_sops state;
     critical_instructions := critical_instructions state;
     contraindications := contraindications state;
     visual_analysis := visual_analysis state;
     visual_confirmation := visual_confirmation state;
     quality_score := quality_score state;
     gaps_detected := gaps_detected state;
     grounding_issues := grounding_issues state;
     reflection_complete := reflection_complete state;
     grounded_claims := grounded_claims state;
     confidence := confidence state;
     ambiguities :=
       if truthy (out_ambiguities output)
       then Some (default [] (ambiguities state)
                  ++ (model_dump <$> out_ambiguities output))
       else ambiguities state;
     next_agent := out_next_agent output;
     requires_human_approval := requires_human_approval state;
     requires_more_info := Some (out_requires_more_info output);
     loop_back_to := loop_back_to state;
     final_recommendation := final_recommendation state;
     processing_complete := processing_complete state;
     total_processing_time_ms :=
       Some (default 0 (total_processing_time_ms state)
             + out_processing_time_ms output)%Z;
     total_tokens_consumed :=
       Some (default 0 (total_tokens_consumed state)
             + out_tokens_consumed output)%Z;
     errors := errors state |}.

(** The [geo] node. *)
Definition _run_geo (sv : Services) (state : IncidentState)
    : outcome IncidentState :=
  agent ← _get_agent sv "geo";
  output ← agent (build_agent_input state);
  Return (merge_geo state output).

(** What [_run_protocol] writes into the record from the agent's output. *)
Definition merge_protocol (state : IncidentState) (output : AgentOutput)
    : IncidentState :=
  let result := out_result output in
  {| incident_id := incident_id state;
     query := query state;
     channel := channel state;
     user_role := user_role state;
     text_input := text_input state;
     audio_transcript := audio_transcript state;
     image_embeddings := image_embeddings state;
     location := location state;
     retrieved_docs := retrieved_docs state;
     retrieved_images := retrieved_images state;
     retrieved_sops := retrieved_sops state;
     retrieved_landmarks := retrieved_landmarks state;
     current_agent := current_agent state;
     agent_history := Some (default [] (agent_history state) ++ ["protocol"]);
     iteration_count := iteration_count state;
     max_iterations := max_iterations state;
     intent := intent state;
     initial_assessment := initial_assessment state;
     priority := priority state;
     incident_type := incident_type state;
     recommended_assets := recommended_assets state;
     resolved_location := resolved_location state;
     address := address state;
     nearby_landmarks := nearby_landmarks state;
     recommended_sops := Some (default [] (res_recommended_sops result));
     critical_instructions :=
       Some (default "" (res_critical_instructions result));
     contraindications := res_contraindications result;
     visual_analysis := visual_analysis state;
     visual_confirmation := visual_confirmation state;
     quality_score := quality_score state;
     gaps_detected := gaps_detected state;
     grounding_issues := grounding_issues state;
     reflection_complete := reflection_complete state;
     grounded_claims :=
       if truthy (out_grounded_claims output)
       then Some (default [] (grounded_claims state)
                  ++ (model_dump <$> out_grounded_claims output))
       else grounded_claims state;
     confidence := confidence state;
     ambiguities := ambiguities state;
     next_agent := out_next_agent output;
     requires_human_approval := requires_human_approval state;
     requires_more_info := requires_more_info state;
     loop_back_to := loop_back_to state;
     final_recommendation := final_recommendation state;
     processing_complete := processing_complete state;
     total_processing_time_ms :=
       Some (default 0 (total_processing_time_ms state)
             + out_processing_time_ms output)%Z;
     total_tokens_consumed :=
       Some (default 0 (total_tokens_consumed state)
             + out_tokens_consumed output)%Z;
     errors := errors state |}.

(** The [protocol] node. *)
Definition _run_protocol (sv : Services) (state : IncidentState)
    : outcome IncidentState :=
  agent ← _get_agent sv "protocol";
  output ← agent (build_agent_input state);
  Return (merge_protocol state output).

(** What [_run_vision] writes into the record from the agent's output. *)
Definition merge_vision (state : IncidentState) (output : AgentOutput)
    : IncidentState :=
  let result := out_result output in
  {| incident_id := incident_id state;
     query := query state;
     channel := channel state;
     user_role := user_role state;
     text_input := text_input state;
     audio_transcript := audio_transcript state;
     image_embeddings := image_embeddings state;
     location := location state;
     retrieved_docs := retrieved_docs state;
     retrieved_images := retrieved_images state;
     retrieved_sops := retrieved_sops state;
     retrieved_landmarks := retrieved_landmarks state;
     current_agent := current_agent state;
     agent_history := Some (default [] (agent_history state) ++ ["vision"]);
     iteration_count := iteration_count state;
     max_iterations := max_iterations state;
     intent := intent state;
     initial_assessment := initial_assessment state;
     priority := priority state;
     incident_type := incident_type state;
     recommended_assets := recommended_assets state;
     resolved_location := resolved_location state;
     address := address state;
     nearby_landmarks := nearby_landmarks state;
     recommended_sops := recommended_sops state;
     critical_instructions := critical_instructions state;
     contraindications := contraindications state;
     visual_analysis := res_image_analysis result;
     visual_confirmation :=
       Some (default false (res_visual_confirmation result));
     quality_score := quality_score state;
     gaps_detected := gaps_detected state;
     grounding_issues := grounding_issues state;
     reflection_complete := reflection_complete state;
     grounded_claims := grounded_claims state;
     confidence := confidence state;
     ambiguities := ambiguities state;
     next_agent := out_next_agent output;
     requires_human_approval := requires_human_approval state;
     requires_more_info := Some (out_requires_more_info output);
     loop_back_to := loop_back_to state;
     final_recommendation := final_recommendation state;
     processing_complete := processing_complete state;
     total_processing_time_ms :=
       Some (default 0 (total_processing_time_ms state)
             + out_processing_time_ms output)%Z;
     total_tokens_consumed :=
       Some (default 0 (total_tokens_consumed state)
             + out_tokens_consumed output)%Z;
     errors := errors state |}.

(** The [vision] node. *)
Definition _run_vision (sv : Services) (state : IncidentState)
    : outcome IncidentState :=
  agent ← _get_agent sv "vision";
  output ← agent (build_agent_input state);
  Return (merge_vision state output).

(** What [_run_reflector] writes into the record from the agent's output. *)
Definition merge_reflector (state : IncidentState) (output : AgentOutput)
    : IncidentState :=
  let result := out_result output in
  {| incident_id := incident_id state;
     query := query state;
     channel := channel state;
     user_role := user_role state;
     text_input := text_input state;
     audio_transcript := audio_transcript state;
     image_embeddings := image_embeddings state;
     location := location state;
     retrieved_docs := retrieved_docs state;
     retrieved_images := retrieved_images state;
     retrieved_sops := retrieved_sops state;
     retrieved_landmarks := retrieved_landmarks state;
     current_agent := current_agent state;
     agent_history := Some (default [] (agent_history state) ++ ["reflector"]);
     iteration_count := iteration_count state;
     max_iterations := max_iterations state;
     intent := intent state;
     initial_assessment := initial_assessment state;
     priority := priority state;
     incident_type := incident_type state;
     recommended_assets := recommended_assets state;
     resolved_location := resolved_location state;
     address := address state;
     nearby_landmarks := nearby_landmarks state;
     recommended_sops := recommended_sops state;
     critical_instructions := critical_instructions state;
     contraindications := contraindications state;
     visual_analysis := visual_analysis state;
     visual_confirmation := visual_confirmation state;
     quality_score := Some (default (7 # 10)%Q (res_quality_score result));
     gaps_detected := Some (default [] (res_gaps_detected result));
     grounding_issues := Some (default [] (res_grounding_issues result));
     reflection_complete := Some true;
     grounded_claims := grounded_claims state;
     confidence := confidence state;
     ambiguities := ambiguities state;
     next_agent := out_next_agent output;
     requires_human_approval := Some (out_requires_human_approval output);
     requires_more_info := Some (out_requires_more_info output);
     loop_back_to :=
       if out_requires_more_info output
       then out_next_agent output else None;
     final_recommendation := final_recommendation state;
     processing_complete := processing_complete state;
     total_processing_time_ms :=
       Some (default 0 (total_processing_time_ms state)
             + out_processing_time_ms output)%Z;
     total_tokens_consumed :=
       Some (default 0 (total_tokens_consumed state)
             + out_tokens_consumed output)%Z;
     errors := errors state |}.

(** The [reflector] node. *)
Definition _run_reflector (sv : Services) (state : IncidentState)
    : outcome IncidentState :=
  agent ← _get_agent sv "reflector";
  output ← agent (build_agent_input state);
  Return (merge_reflector state output).

Definition _route_after_supervisor (state : IncidentState) : string :=
  let intent := default "unclear" (intent state) in
  if bool_decide (intent = "unclear")
     || truthy (requires_human_approval state)
  then "hitl"
  else if bool_decide (intent = "location_unclear") then "geo"
  else if bool_decide (intent = "visual_needed") then "vision"
  else "triage".

Definition _route_after_geo (state : IncidentState) : string :=
  if truthy (requires_more_info state) then "hitl" else "triage".

Definition _route_after_vision (state : IncidentState) : string :=
  if truthy (requires_more_info state) then "hitl" else "triage".

Definition _route_after_triage (state : IncidentState) : string := "protocol".

Definition _route_after_protocol (state : IncidentState) : string :=
  "reflector".

(** [state["iteration_count"] = iteration_count + 1], the one write a
    router makes. *)
Definition set_iteration_count (v : Z) (state : IncidentState)
    : IncidentState :=
  {| incident_id := incident_id state;
     query := query state;
     channel := channel state;
     user_role := user_role state;
     text_input := text_input state;
     audio_transcript := audio_transcript state;
     image_embeddings := image_embeddings state;
     location := location state;
     retrieved_docs := retrieved_docs state;
     retrieved_images := retrieved_images state;
     retrieved_sops := retrieved_sops state;
     retrieved_landmarks := retrieved_landmarks state;
     current_agent := current_agent state;
     agent_history := agent_history state;
     iteration_count := Some v;
     max_iterations := max_iterations state;
     intent := intent state;
     initial_assessment := initial_assessment state;
     priority := priority state;
     incident_type := incident_type state;
     recommended_assets := recommended_assets state;
     resolved_location := resolved_location state;
     address := address state;
     nearby_landmarks := nearby_landmarks state;
     recommended_sops := recommended_sops state;
     critical_instructions := critical_instructions state;
     contraindications := contraindications state;
     visual_analysis := visual_analysis state;
     visual_confirmation := visual_confirmation state;
     quality_score := quality_score state;
     gaps_detected := gaps_detected state;
     grounding_issues := grounding_issues state;
     reflection_complete := reflection_complete state;
     grounded_claims := grounded_claims state;
     confidence := confidence state;
     ambiguities := ambiguities state;
     next_agent := next_agent state;
     requires_human_approval := requires_human_approval state;
     requires_more_info := requires_more_info state;
     loop_back_to := loop_back_to state;
     final_recommendation := final_recommendation state;
     processing_complete := processing_complete state;
     total_processing_time_ms := total_processing_time_ms state;
     total_tokens_consumed := total_tokens_consumed state;
     errors := errors state |}.

(** The router of [reflector].  It writes [iteration_count] into the record
    it is handed, so it returns the record with the branch taken; what the
    graph does with that record is [follow_edge]'s. *)
Definition _route_after_reflector (state : IncidentState)
    : string * IncidentState :=
  let quality_score := default (7 # 10)%Q (quality_score state) in
  let iteration_count := default 0%Z (iteration_count state) in
  let max_iterations := default 5%Z (max_iterations state) in
  if bool_decide (max_iterations ≤ iteration_count)%Z then ("hitl", state)
  else if Qle_bool (7 # 10)%Q quality_score then ("hitl", state)
  else
    let loop_back_to := loop_back_to state in
    match loop_back_to with
    | Some target =>
        if truthy target
           && bool_decide (target ∈ ["supervisor"; "triage"; "geo"])
        then (target, set_iteration_count (iteration_count + 1) state)
        else ("hitl", state)
    | None => ("hitl", state)
    end.

(** The dict [_hitl_node] stores under [final_recommendation]. *)
Definition hitl_recommendation (state : IncidentState) : pydict :=
  dict [
    ("incident_id", to_json (incident_id state));
    ("priority", to_json (default "P3" (priority state)));
    ("incident_type", to_json (default "Unknown" (incident_type state)));
    ("recommended_assets", to_json (default [] (recommended_assets state)));
    ("location", to_json (resolved_location state));
    ("address", to_json (address state));
    ("critical_instructions",
       to_json (default "" (critical_instructions state)));
    ("recommended_sops", to_json (default [] (recommended_sops state)));
    ("quality_score", to_json (default (7 # 10)%Q (quality_score state)));
    ("gaps_detected", to_json (default [] (gaps_detected state)));
    ("grounded_claims_count",
       to_json (length (default [] (grounded_claims state))))
  ].

(** The human-in-the-loop checkpoint. *)
Definition _hitl_node (state : IncidentState) : IncidentState :=
  {| incident_id := incident_id state;
     query := query state;
     channel := channel state;
     user_role := user_role state;
     text_input := text_input state;
     audio_transcript := audio_transcript state;
     image_embeddings := image_embeddings state;
     location := location state;
     retrieved_docs := retrieved_docs state;
     retrieved_images := retrieved_images state;
     retrieved_sops := retrieved_sops state;
     retrieved_landmarks := retrieved_landmarks state;
     current_agent := current_agent state;
     agent_history := agent_history state;
     iteration_count := iteration_count state;
     max_iterations := max_iterations state;
     intent := intent state;
     initial_assessment := initial_assessment state;
     priority := priority state;
     incident_type := incident_type state;
     recommended_assets := recommended_assets state;
     resolved_location := resolved_location state;
     address := address state;
     nearby_landmarks := nearby_landmarks state;
     recommended_sops := recommended_sops state;
     critical_instructions := critical_instructions state;
     contraindications := contraindications state;
     visual_analysis := visual_analysis state;
     visual_confirmation := visual_confirmation state;
     quality_score := quality_score state;
     gaps_detected := gaps_detected state;
     grounding_issues := grounding_issues state;
     reflection_complete := reflection_complete state;
     grounded_claims := grounded_claims state;
     confidence := confidence state;
     ambiguities := ambiguities state;
     next_agent := next_agent state;
     requires_human_approval := Some true;
     requires_more_info := requires_more_info state;
     loop_back_to := loop_back_to state;
     final_recommendation := Some (hitl_recommendation state);
     processing_complete := Some true;
     total_processing_time_ms := total_processing_time_ms state;
     total_tokens_consumed := total_tokens_consumed state;
     errors := errors state |}.

(** *** The graph [build_graph] assembles, and its execution *)

(** [END] of [langgraph.graph]. *)
Definition END : string := "__end__".

Inductive Edge : Type :=
| Direct (target : string)
| Conditional (router : IncidentState → string * IncidentState)
              (path_map : list (string * string)).

Record StateGraph : Type := {
  g_nodes : list (string * (IncidentState → outcome IncidentState));
  g_entry_point : string;
  g_edges : list (string * Edge);
}.

(** A router that only reads the record. *)
Definition reading (route : IncidentState → string)
    : IncidentState → string * IncidentState :=
  fun state => (route state, state).

Definition build_graph (sv : Services) : StateGraph :=
  {| g_nodes := [
       ("supervisor", _run_supervisor sv);
       ("triage", _run_triage sv);
       ("geo", _run_geo sv);
       ("protocol", _run_protocol sv);
       ("vision", _run_vision sv);
       ("reflector", _run_reflector sv);
       ("hitl", fun state => Return (_hitl_node state)) ];
     g_entry_point := "supervisor";
     g_edges := [
       ("supervisor", Conditional (reading _route_after_supervisor)
          [("triage", "triage"); ("geo", "geo"); ("vision", "vision");
           ("hitl", "hitl")]);
       ("geo", Conditional (reading _route_after_geo)
          [("triage", "triage"); ("hitl", "hitl")]);
       ("vision", Conditional (reading _route_after_vision)
          [("triage", "triage"); ("hitl", "hitl")]);
       ("triage", Direct "protocol");
       ("protocol", Direct "reflector");
       ("reflector", Conditional _route_after_reflector
          [("supervisor", "supervisor"); ("triage", "triage");
           ("geo", "geo"); ("hitl", "hitl")]);
       ("hitl", Direct END) ] |}.

(** [d.get(k)] on a dict written as its list of items. *)
Fixpoint assoc {A} (k : string) (items : list (string * A)) : option A :=
  match items with
  | [] => None
  | (k', v) :: items => if bool_decide (k = k') then Some v else assoc k items
  end.

(** One execution of a node: its name, the record it received and the
    record it returned. *)
Record Event : Type := {
  ev_node : string;
  ev_before : IncidentState;
  ev_after : IncidentState;
}.

(** The edge leaving [name]: the next node and the record passed to it,
    which is the record the node returned.  A router is called on a copy
    the library reads from its channels, and only the key it returns is
    used: what it writes into its argument is lost. *)
Definition follow_edge (g : StateGraph) (name : string) (state : IncidentState)
    : outcome (string * IncidentState) :=
  match assoc name (g_edges g) with
  | None => Raise ("no edge from " +:+ name)
  | Some (Direct target) => Return (target, state)
  | Some (Conditional router path_map) =>
      let '(key, _) := router state in
      match assoc key path_map with
      | Some target => Return (target, state)
      | None => Raise ("KeyError: " +:+ key)
      end
  end.

(** One node execution: the node's action, then the edge leaving it. *)
Definition step (g : StateGraph) (name : string) (state : IncidentState)
    : outcome (string * IncidentState) :=
  match assoc name (g_nodes g) with
  | None => Raise ("unknown node " +:+ name)
  | Some action => action state ≫= follow_edge g name
  end.

(** The library's [GraphRecursionError]; the text of its message is the
    library's and is not modelled. *)
Definition GraphRecursionError : string := "GraphRecursionError".

(** [graph.ainvoke]: run the node, follow its edge, until [END] or an
    exception.  The nodes run one at a time, each on the record the node
    before it returned.  The library allows [limit] node executions; when
    they are used up and [END] is not reached it raises
    [GraphRecursionError]. *)
Fixpoint invoke (g : StateGraph) (limit : nat) (name : string)
    (state : IncidentState) : list Event * outcome IncidentState :=
  match limit with
  | O => ([], Raise GraphRecursionError)
  | S limit =>
      match step g name state with
      | Raise e => ([], Raise e)
      | Return (next, state') =>
          let ev := {| ev_node := name; ev_before := state;
                       ev_after := state' |} in
          if bool_decide (next = END) then ([ev], Return state')
          else
            let '(evs, r) := invoke g limit next state' in
            (ev :: evs, r)
      end
  end.

(** [AgentWorkflow.run]: the trace of the run and its final record, or the
    exception that ended it.  [ainvoke] is called without a configuration,
    so the limit is the library's. *)
Definition run (sv : Services) (initial_state : IncidentState)
    : list Event * outcome IncidentState :=
  let graph := build_graph sv in
  invoke graph (recursion_limit sv) (g_entry_point graph) initial_state.

(** ** [orchestrator.py] *)

(** The fixed-shape map of named lists [_retrieve_context] returns. *)
Record Context : Type := {
  docs : list Doc;
  sops : list Doc;
  landmarks : list Doc;
  images : list Doc;
}.

(** The [Orchestrator] object: its mode and its idempotency cache. *)
Record Orchestrator : Type := {
  mode : string;
  _processed_incidents : gmap string pydict;
}.

(** The keyword arguments of [process_incident] besides [incident_id] and
    [force_reprocess] ([image_url] and [audio_url] are never read). *)
Record Request : Type := {
  req_query : string;
  req_text_input : option string;
  req_channel : string;
  req_user_role : string;
  req_location : option (gmap string Q);
  req_audio_transcript : option string;
  req_image_embeddings : option (list (list Q));
}.

(** [l[0]] *)
Definition index0 {A} (l : list A) : outcome A :=
  match l with
  | x :: _ => Return x
  | [] => Raise "list index out of range"
  end.

(** [int((now - start_time) * 1000)]; [int] truncates towards zero. *)
Definition elapsed_ms (now start_time : Q) : Z :=
  let d := ((now - start_time) * 1000)%Q in
  (Qnum d ÷ Zpos (Qden d))%Z.

Definition _retrieve_context (sv : Services) (query : string)
    (location : option (gmap string Q))
    (image_embeddings : option (list (list Q))) : Context :=
  let context := {| docs := []; sops := []; landmarks := []; images := [] |} in
  try_except
    (query_embedding ← embed_text sv query ≫= index0;
     let context :=
       try_except
         (found ← hybrid_search sv "incident_memory" query_embedding 5;
          Return {| docs := found; sops := sops context;
                    landmarks := landmarks context;
                    images := images context |})
         (fun _ => context) in
     let context :=
       try_except
         (found ← hybrid_search sv "protocols_sops" query_embedding 5;
          Return {| docs := docs context; sops := found;
                    landmarks := landmarks context;
                    images := images context |})
         (fun _ => context) in
     let context :=
       match location with
       | None =>
           try_except
             (found ← hybrid_search sv "landmark_index" query_embedding 5;
              Return {| docs := docs context; sops := sops context;
                        landmarks := found; images := images context |})
             (fun _ => context)
       | Some _ => context
       end in
     let context :=
       if truthy image_embeddings then
         try_except
           (image_embedding ← index0 (default [] image_embeddings);
            found ← hybrid_search sv "visual_evidence" image_embedding 5;
            Return {| docs := docs context; sops := sops context;
                      landmarks := landmarks context; images := found |})
           (fun _ => context)
       else context in
     Return context)
    (fun _ => context).

Definition newline : string := String (Ascii.ascii_of_nat 10) EmptyString.

(** [doc.get('content', doc.get('payload', {}).get('content', ''))[:200]]
    followed by the dots of the f-string. *)
Definition snippet (doc : Doc) : string :=
  "- " +:+ String.substring 0 200
             (default (default "" (doc_payload_content doc)) (doc_content doc))
       +:+ "...".

Definition _format_context_for_prompt (context : Context) : string :=
  let parts : list string := [] in
  let parts :=
    if truthy (sops context) then
      let sop_text :=
        String.concat newline (snippet <$> take 3 (sops context)) in
      parts ++ ["RELEVANT SOPs:" +:+ newline +:+ sop_text]
    else parts in
  let parts :=
    if truthy (docs context) then
      let docs_text :=
        String.concat newline (snippet <$> take 3 (docs context)) in
      parts ++ ["SIMILAR INCIDENTS:" +:+ newline +:+ docs_text]
    else parts in
  if truthy parts then String.concat (newline +:+ newline) parts
  else "No relevant context found.".

Definition _error_response (sv : Services) (incident_id : string)
    (error : string) (start_time : Q) : pydict :=
  dict [
    ("incident_id", to_json incident_id);
    ("status", to_json "error");
    ("error", to_json error);
    ("priority", to_json "P2");
    ("incident_type", to_json "Unknown_RequiresReview");
    ("recommended_assets",
       to_json [dict [("type", to_json "ALS_Ambulance");
                      ("quantity", to_json 1%Z)]]);
    ("critical_instructions",
       to_json "Escalate to human dispatcher immediately.");
    ("requires_human_approval", to_json true);
    ("processing_time_ms", to_json (elapsed_ms (time_time sv 3) start_time))
  ].

(** [result.get] on the parsed completion: an [AttributeError] unless it is
    a JSON object. *)
Definition as_dict (parsed : json) : outcome pydict :=
  match parsed with
  | JObj o => Return o
  | _ => Raise "object has no attribute 'get'"
  end.

(** [value in [s1, ...]] for a list of string literals. *)
Definition in_strings (value : option json) (l : list string) : bool :=
  match value with
  | Some (JStr s) => bool_decide (s ∈ l)
  | _ => false
  end.

(** The f-string [user_prompt] of [_process_test_mode]. *)
Definition test_mode_user_prompt (query context_str : string) : string :=
  "EMERGENCY REPORT:" +:+ newline +:+ query +:+ newline +:+ newline
  +:+ "RETRIEVED CONTEXT:" +:+ newline +:+ context_str +:+ newline
  +:+ newline
  +:+ "Provide a complete assessment with priority, assets, and instructions.".

(** Test mode: one completion. *)
Definition _process_test_mode (sv : Services) (incident_id query : string)
    (retrieval_context : Context) : pydict :=
  let context_str := _format_context_for_prompt retrieval_context in
  let user_prompt := test_mode_user_prompt query context_str in
  try_except
    (response ← llm_generate sv user_prompt;
     parsed ← json_loads sv (resp_content response);
     result ← as_dict parsed;
     Return (dict [
       ("incident_id", to_json incident_id);
       ("status", to_json "test_complete");
       ("priority", default (to_json "P3") (result !! "priority"));
       ("incident_type",
          default (to_json "Unknown") (result !! "incident_type"));
       ("recommended_assets",
          default (JArr []) (result !! "recommended_assets"));
       ("critical_instructions",
          default (to_json "") (result !! "critical_instructions"));
       ("reasoning", default (to_json "") (result !! "reasoning"));
       ("confidence", default (to_json (7 # 10)%Q) (result !! "confidence"));
       ("requires_human_approval",
          to_json (in_strings (result !! "priority") ["P1"; "P2"]));
       ("tokens_consumed", to_json (default 0%Z (resp_total_tokens response)));
       ("model_used", to_json (default "unknown" (resp_model response)))
     ]))
    (fun e => _error_response sv incident_id e (time_time sv 2)).

(** [initial_state["retrieved_..."] = retrieval_context.get(...)] *)
Definition add_retrieved_context (retrieval_context : Context)
    (state : IncidentState) : IncidentState :=
  {| incident_id := incident_id state;
     query := query state;
     channel := channel state;
     user_role := user_role state;
     text_input := text_input state;
     audio_transcript := audio_transcript state;
     image_embeddings := image_embeddings state;
     location := location state;
     retrieved_docs := Some (docs retrieval_context);
     retrieved_images := Some (images retrieval_context);
     retrieved_sops := Some (sops retrieval_context);
     retrieved_landmarks := Some (landmarks retrieval_context);
     current_agent := current_agent state;
     agent_history := agent_history state;
     iteration_count := iteration_count state;
     max_iterations := max_iterations state;
     intent := intent state;
     initial_assessment := initial_assessment state;
     priority := priority state;
     incident_type := incident_type state;
     recommended_assets := recommended_assets state;
     resolved_location := resolved_location state;
     address := address state;
     nearby_landmarks := nearby_landmarks state;
     recommended_sops := recommended_sops state;
     critical_instructions := critical_instructions state;
     contraindications := contraindications state;
     visual_analysis := visual_analysis state;
     visual_confirmation := visual_confirmation state;
     quality_score := quality_score state;
     gaps_detected := gaps_detected state;
     grounding_issues := grounding_issues state;
     reflection_complete := reflection_complete state;
     grounded_claims := grounded_claims state;
     confidence := confidence state;
     ambiguities := ambiguities state;
     next_agent := next_agent state;
     requires_human_approval := requires_human_approval state;
     requires_more_info := requires_more_info state;
     loop_back_to := loop_back_to state;
     final_recommendation := final_recommendation state;
     processing_complete := processing_complete state;
     total_processing_time_ms := total_processing_time_ms state;
     total_tokens_consumed := total_tokens_consumed state;
     errors := errors state |}.

(** Prod mode: the full workflow; an exception of the run is not caught
    here. *)
Definition _process_prod_mode (sv : Services) (incident_id query : string)
    (text_input channel user_role : string)
    (location : option (gmap string Q)) (audio_transcript : option string)
    (image_embeddings : option (list (list Q)))
    (retrieval_context : Context) : outcome pydict :=
  let initial_state :=
    create_initial_state incident_id query text_input channel user_role
      location audio_transcript image_embeddings in
  let initial_state := add_retrieved_context retrieval_context initial_state in
  final_state ← (run sv initial_state).2;
  Return (dict [
    ("incident_id", to_json incident_id);
    ("status", to_json "workflow_complete");
    ("priority", to_json (default "P3" (priority final_state)));
    ("incident_type", to_json (default "Unknown" (incident_type final_state)));
    ("recommended_assets",
       to_json (default [] (recommended_assets final_state)));
    ("location", to_json (resolved_location final_state));
    ("address", to_json (address final_state));
    ("critical_instructions",
       to_json (default "" (critical_instructions final_state)));
    ("recommended_sops", to_json (default [] (recommended_sops final_state)));
    ("quality_score", to_json (default (7 # 10)%Q (quality_score final_state)));
    ("gaps_detected", to_json (default [] (gaps_detected final_state)));
    ("grounded_claims_count",
       to_json (length (default [] (grounded_claims final_state))));
    ("agent_history", to_json (default [] (agent_history final_state)));
    ("requires_human_approval",
       to_json (default true (requires_human_approval final_state)));
    ("tokens_consumed",
       to_json (default 0%Z (total_tokens_consumed final_state)));
    ("final_recommendation", to_json (final_recommendation final_state))
  ]).

(** [x or y] *)
Definition py_or (x : option string) (y : string) : string :=
  match x with
  | Some s => if truthy s then s else y
  | None => y
  end.

(** The body of the [try] block of [process_incident], up to the result of
    the mode that was selected. *)
Definition process_fresh (sv : Services) (self : Orchestrator)
    (incident_id : string) (req : Request) : outcome pydict :=
  let retrieval_context :=
    _retrieve_context sv (req_query req) (req_location req)
      (req_image_embeddings req) in
  if bool_decide (mode self = "test") then
    Return (_process_test_mode sv incident_id (req_query req)
              retrieval_context)
  else
    _process_prod_mode sv incident_id (req_query req)
      (py_or (req_text_input req) (req_query req))
      (req_channel req) (req_user_role req) (req_location req)
      (req_audio_transcript req) (req_image_embeddings req)
      retrieval_context.

(** [self._processed_incidents[incident_id] = result] *)
Definition store (incident_id : string) (result : pydict)
    (self : Orchestrator) : Orchestrator :=
  {| mode := mode self;
     _processed_incidents :=
       <[incident_id := result]> (_processed_incidents self) |}.

(** [process_incident]: the returned dict and the orchestrator after the
    call. *)
Definition process_incident (sv : Services) (self : Orchestrator)
    (incident_id : string) (req : Request) (force_reprocess : bool)
    : pydict * Orchestrator :=
  let start_time := time_time sv 0 in
  match (if negb force_reprocess
         then _processed_incidents self !! incident_id else None) with
  | Some cached => (cached, self)
  | None =>
      match process_fresh sv self incident_id req with
      | Return result =>
          let result :=
            <["processing_time_ms" :=
                to_json (elapsed_ms (time_time sv 1) start_time)]> result in
          let result := <["mode" := to_json (mode self)]> result in
          (result, store incident_id result self)
      | Raise e => (_error_response sv incident_id e start_time, self)
      end
  end.

(** [clear_cache] *)
Definition clear_cache (incident_id : option string) (self : Orchestrator)
    : Orchestrator :=
  {| mode := mode self;
     _processed_incidents :=
       if truthy incident_id
       then delete (default "" incident_id) (_processed_incidents self)
       else ∅ |}.

(** * The workflow as a transition system *)

(** One node execution of the graph of [build_graph]: from the node [name]
    on [state], to the node (or [END]) that runs next and the record it
    receives.  [step_Step] shows it to be [step (build_graph sv)]. *)
Inductive Step (sv : Services)
    : string → IncidentState → string → IncidentState → Prop :=
| Step_supervisor state output :
    agent_process sv "supervisor" (build_agent_input state) = Return output →
    Step sv "supervisor" state
      (_route_after_supervisor (merge_supervisor state output))
      (merge_supervisor state output)
| Step_triage state output :
    agent_process sv "triage" (build_agent_input state) = Return output →
    Step sv "triage" state "protocol" (merge_triage state output)
| Step_geo state output :
    agent_process sv "geo" (build_agent_input state) = Return output →
    Step sv "geo" state
      (_route_after_geo (merge_geo state output)) (merge_geo state output)
| Step_protocol state output :
    agent_process sv "protocol" (build_agent_input state) = Return output →
    Step sv "protocol" state "reflector" (merge_protocol state output)
| Step_vision state output :
    agent_process sv "vision" (build_agent_input state) = Return output →
    Step sv "vision" state
      (_route_after_vision (merge_vision state output))
      (merge_vision state output)
| Step_reflector state output :
    agent_process sv "reflector" (build_agent_input state) = Return output →
    Step sv "reflector" state
      (_route_after_reflector (merge_reflector state output)).1
      (merge_reflector state output)
| Step_hitl state :
    Step sv "hitl" state END (_hitl_node state).

(** A run from [name] on [state]: its events and how it ended. *)
Inductive Run (sv : Services)
    : string → IncidentState → list Event → outcome IncidentState
      → Prop :=
| Run_end name state state' :
    Step sv name state END state' →
    Run sv name state
      [{| ev_node := name; ev_before := state; ev_after := state' |}]
      (Return state')
| Run_next name state next state' evs r :
    Step sv name state next state' →
    next ≠ END →
    Run sv next state' evs r →
    Run sv name state
      ({| ev_node := name; ev_before := state; ev_after := state' |} :: evs) r
| Run_raise name state e :
    step (build_graph sv) name state = Raise e →
    Run sv name state [] (Raise e)
| Run_limit name state :
    Run sv name state [] (Raise GraphRecursionError).

Definition node_names : list string :=
  ["supervisor"; "triage"; "geo"; "protocol"; "vision"; "reflector"; "hitl"].

(** ** Measures on traces *)

(** The number of executions of [name] among the events. *)
Definition executions (name : string) (evs : list Event) : nat :=
  length (filter (fun ev => ev_node ev = name) evs).

(** The number of entries [name] of a history. *)
Definition occurrences (name : string) (history : list string) : nat :=
  length (filter (fun entry => entry = name) history).

(** ** Concrete services, for the examples *)

Definition no_result : AgentResult :=
  {| res_intent := None; res_initial_assessment := None;
     res_priority := None; res_incident_type := None;
     res_recommended_assets := None; res_resolved_location := None;
     res_address := None; res_nearby_landmarks := None;
     res_recommended_sops := None; res_critical_instructions := None;
     res_contraindications := None; res_image_analysis := None;
     res_visual_confirmation := None; res_quality_score := None;
     res_gaps_detected := None; res_grounding_issues := None |}.

Definition supervisor_result (intent_ : string) : AgentResult :=
  {| res_intent := Some intent_; res_initial_assessment := None;
     res_priority := None; res_incident_type := None;
     res_recommended_assets := None; res_resolved_location := None;
     res_address := None; res_nearby_landmarks := None;
     res_recommended_sops := None; res_critical_instructions := None;
     res_contraindications := None; res_image_analysis := None;
     res_visual_confirmation := None; res_quality_score := None;
     res_gaps_detected := None; res_grounding_issues := None |}.

Definition triage_result (priority_ : string) (assets : list pydict)
    : AgentResult :=
  {| res_intent := None; res_initial_assessment := None;
     res_priority := Some priority_; res_incident_type := None;
     res_recommended_assets := Some assets; res_resolved_location := None;
     res_address := None; res_nearby_landmarks := None;
     res_recommended_sops := None; res_critical_instructions := None;
     res_contraindications := None; res_image_analysis := None;
     res_visual_confirmation := None; res_quality_score := None;
     res_gaps_detected := None; res_grounding_issues := None |}.

Definition reflector_result (score : Q) : AgentResult :=
  {| res_intent := None; res_initial_assessment := None;
     res_priority := None; res_incident_type := None;
     res_recommended_assets := None; res_resolved_location := None;
     res_address := None; res_nearby_landmarks := None;
     res_recommended_sops := None; res_critical_instructions := None;
     res_contraindications := None; res_image_analysis := None;
     res_visual_confirmation := None; res_quality_score := Some score;
     res_gaps_detected := None; res_grounding_issues := None |}.

Definition output_of (result : AgentResult) (next : option string)
    (approval more_info : bool) (ambiguities_ : list AmbiguityFlag)
    : AgentOutput :=
  {| out_result := result; out_next_agent := next;
     out_requires_human_approval := approval;
     out_requires_more_info := more_info;
     out_processing_time_ms := 10; out_tokens_consumed := 100;
     out_grounded_claims := []; out_ambiguities := ambiguities_ |}.

(** Services whose searches and completion are down, around given agents. *)
Definition services_with
    (agents : string → AgentInput → outcome AgentOutput) : Services :=
  {| embed_text := fun _ => Raise "embedding service down";
     hybrid_search := fun _ _ _ => Raise "search service down";
     llm_generate := fun _ => Raise "completion service down";
     json_loads := fun _ => Raise "Expecting value";
     agent_process := agents;
     time_time := fun k => inject_Z (Z.of_nat k);
     recursion_limit := 25 |}.

(** Scenario B: the supervisor sends the report to triage, the reflector
    scores 0.3 and asks for triage again on every pass. *)
Definition agents_scenario_B (name : string) (_ : AgentInput)
    : outcome AgentOutput :=
  if bool_decide (name = "supervisor") then
    Return (output_of (supervisor_result "medical") (Some "triage")
              false false [])
  else if bool_decide (name = "reflector") then
    Return (output_of (reflector_result (3 # 10)%Q) (Some "triage")
              false true [])
  else Return (output_of no_result None false false []).

(** Triage flags the report for approval; the reflector, satisfied, does
    not. *)
Definition agents_flag_reset (name : string) (_ : AgentInput)
    : outcome AgentOutput :=
  if bool_decide (name = "supervisor") then
    Return (output_of (supervisor_result "medical") (Some "triage")
              false false [])
  else if bool_decide (name = "triage") then
    Return (output_of (triage_result "P1" []) (Some "protocol")
              true false [])
  else if bool_decide (name = "reflector") then
    Return (output_of (reflector_result (9 # 10)%Q) None false false [])
  else Return (output_of no_result None false false []).

Definition ambulance : pydict :=
  dict [("type", to_json "ALS_Ambulance"); ("quantity", to_json 1%Z)].
Definition fire_engine : pydict :=
  dict [("type", to_json "Fire_Engine"); ("quantity", to_json 2%Z)].

Definition flag_location : AmbiguityFlag :=
  {| af_field := "location"; af_description := "two streets of that name";
     af_candidates := ["Main St N"; "Main St S"] |}.
Definition flag_type : AmbiguityFlag :=
  {| af_field := "incident_type"; af_description := "fire or smoke only";
     af_candidates := ["Fire"; "Smoke"] |}.

(** One loop-back to triage; triage recommends an ambulance on its first
    pass and a fire engine on its second. *)
Definition agents_revise_assets (name : string) (input : AgentInput)
    : outcome AgentOutput :=
  let second_pass := bool_decide ("reflector" ∈ in_agent_history input) in
  if bool_decide (name = "supervisor") then
    Return (output_of (supervisor_result "medical") (Some "triage")
              false false [])
  else if bool_decide (name = "triage") then
    Return (output_of
              (triage_result "P2"
                 (if second_pass then [fire_engine] else [ambulance]))
              (Some "protocol") false false [])
  else if bool_decide (name = "reflector") then
    if second_pass
    then Return (output_of (reflector_result (9 # 10)%Q) None false false [])
    else Return (output_of (reflector_result (3 # 10)%Q) (Some "triage")
                   false true [])
  else Return (output_of no_result None false false []).

(** The supervisor cannot tell what the report is about. *)
Definition agents_unclear (name : string) (_ : AgentInput)
    : outcome AgentOutput :=
  if bool_decide (name = "supervisor") then
    Return (output_of (supervisor_result "unclear") None false false [])
  else Return (output_of no_result None false false []).

(** The supervisor's completion call times out. *)
Definition agents_down (name : string) (_ : AgentInput)
    : outcome AgentOutput :=
  if bool_decide (name = "supervisor") then Raise "supervisor timed out"
  else Return (output_of no_result None false false []).

Definition fresh_state : IncidentState :=
  create_initial_state "INC-1" "person collapsed, not breathing"
    "person collapsed, not breathing" "web" "dispatcher" None None None.

Definition request_1 : Request :=
  {| req_query := "person collapsed, not breathing";
     req_text_input := None; req_channel := "web";
     req_user_role := "dispatcher"; req_location := None;
     req_audio_transcript := None; req_image_embeddings := None |}.

Definition orchestrator_prod : Orchestrator :=
  {| mode := "prod"; _processed_incidents := ∅ |}.

(** ** Properties of runs the specification states *)

(** Once an event leaves [requires_human_approval] true, every later event
    of the trace leaves it true. *)
Definition approval_monotonic (evs : list Event) : Prop :=
  ∀ i j e1 e2, (i ≤ j)%nat →
    evs !! i = Some e1 → evs !! j = Some e2 →
    requires_human_approval (ev_after e1) = Some true →
    requires_human_approval (ev_after e2) = Some true.

(** The run from [state] completes, with at most [bound] executions of
    the reflector and exactly one of the checkpoint. *)
Definition reaches_checkpoint_within (sv : Services) (state : IncidentState)
    (bound : nat) : Prop :=
  ∃ evs final,
    run sv state = (evs, Return final)
    ∧ (executions "reflector" evs ≤ bound)%nat
    ∧ executions "hitl" evs = 1%nat.

(** The agent [name] never raises. *)
Definition agent_returns (sv : Services) (name : string) : Prop :=
  ∀ input, ∃ output, agent_process sv name input = Return output.

(** On every pass the reflector scores [score] and asks to loop back to
    [target]. *)
Definition reflector_always (sv : Services) (score : Q) (target : string)
    : Prop :=
  ∀ input, ∃ output,
    agent_process sv "reflector" input = Return output
    ∧ res_quality_score (out_result output) = Some score
    ∧ out_next_agent output = Some target
    ∧ out_requires_more_info output = true.

(** The supervisor classifies every report with an intent that its router
    sends to triage, and does not ask for approval. *)
Definition supervisor_sends_to_triage (sv : Services) : Prop :=
  ∀ input, ∃ output intent_,
    agent_process sv "supervisor" input = Return output
    ∧ res_intent (out_result output) = Some intent_
    ∧ (intent_ ∉ ["unclear"; "location_unclear"; "visual_needed"])
    ∧ out_requires_human_approval output = false.

(** Scenario B as the specification words it, with [triage_entries]
    entries "triage" in the final history. *)
Definition scenario_B_outcome (sv : Services) (state : IncidentState)
    (triage_entries : nat) : Prop :=
  ∃ evs final,
    run sv state = (evs, Return final)
    ∧ iteration_count final = Some 5%Z
    ∧ (∃ ev, last evs = Some ev ∧ ev_node ev = "hitl")
    ∧ quality_score final = Some (3 # 10)%Q
    ∧ occurrences "triage" (default [] (agent_history final))
      = triage_entries.

(** ** Predicates on the orchestrator *)

(** What a search contributes to the context: its hits, or nothing when it
    raised. *)
Definition found_or_empty (r : outcome (list Doc)) : list Doc :=
  match r with
  | Return found => found
  | Raise _ => []
  end.

Definition empty_context : Context :=
  {| docs := []; sops := []; landmarks := []; images := [] |}.

(** Every similarity search raises. *)
Definition searches_fail (sv : Services) : Prop :=
  ∀ collection vector top_k, ∃ e,
    hybrid_search sv collection vector top_k = Raise e.

(** The keys every recommendation carries, whichever path produced it. *)
Definition recommendation_keys : list string :=
  ["incident_id"; "status"; "priority"; "incident_type";
   "recommended_assets"; "critical_instructions";
   "requires_human_approval"; "processing_time_ms"].

Definition is_recommendation (result : pydict) : Prop :=
  ∀ key, key ∈ recommendation_keys → is_Some (result !! key).

(** The call leaves the result it returns in the cache, under its
    identifier. *)
Definition stores_result (sv : Services) (self : Orchestrator)
    (incident_id : string) (req : Request) (force_reprocess : bool) : Prop :=
  let '(result, self') :=
    process_incident sv self incident_id req force_reprocess in
  _processed_incidents self' !! incident_id = Some result.

(** A second call for the same identifier, not forced, returns the result
    of the first; [sv1] and [sv2] are the services as they answer during
    the first and the second call. *)
Definition replay_returns_first (sv1 sv2 : Services) (self : Orchestrator)
    (incident_id : string) (req : Request) : Prop :=
  let '(first, self') := process_incident sv1 self incident_id req false in
  (process_incident sv2 self' incident_id req false).1 = first.

(** A completion service that answers every prompt with [content], parsed
    by [json_loads] to [parsed]. *)
Definition services_completing (content : string) (parsed : json)
    : Services :=
  {| embed_text := fun _ => Raise "embedding service down";
     hybrid_search := fun _ _ _ => Raise "search service down";
     llm_generate := fun _ =>
       Return {| resp_content := content; resp_total_tokens := Some 321%Z;
                 resp_model := Some "large" |};
     json_loads := fun s =>
       if bool_decide (s = content) then Return parsed
       else Raise "Expecting value";
     agent_process := agents_unclear;
     time_time := fun k => inject_Z (Z.of_nat k);
     recursion_limit := 25 |}.

(** The embedding service answers; every search is down. *)
Definition services_search_down : Services :=
  {| embed_text := fun _ => Return [[(1 # 2)%Q; (1 # 3)%Q]];
     hybrid_search := fun _ _ _ => Raise "search service down";
     llm_generate := fun _ => Raise "completion service down";
     json_loads := fun _ => Raise "Expecting value";
     agent_process := agents_unclear;
     time_time := fun k => inject_Z (Z.of_nat k);
     recursion_limit := 25 |}.

Definition completion_P1 : json :=
  JObj (dict [("priority", to_json "P1");
              ("incident_type", to_json "Medical_CardiacArrest")]).

(** ** Predicates on events *)

(** The event only appends to the lists the specification calls
    append-only. *)
Definition append_only (ev : Event) : Prop :=
  let extended {A} (field : IncidentState → option (list A)) :=
    default [] (field (ev_before ev))
      `prefix_of` default [] (field (ev_after ev)) in
  extended recommended_assets
  ∧ extended retrieved_docs ∧ extended retrieved_images
  ∧ extended retrieved_sops ∧ extended retrieved_landmarks
  ∧ extended agent_history
  ∧ extended grounded_claims
  ∧ extended ambiguities.

(** A final recommendation is assembled only in runs whose history has a
    "triage" entry. *)
Definition recommendation_after_triage (sv : Services) (state : IncidentState)
    : Prop :=
  ∀ evs final,
    run sv state = (evs, Return final) →
    is_Some (final_recommendation final) →
    "triage" ∈ default [] (agent_history final).

(** The runs that reach the checkpoint without triage. *)
Definition early_exits : list (list string) :=
  [["supervisor"; "hitl"];
   ["supervisor"; "geo"; "hitl"];
   ["supervisor"; "vision"; "hitl"]].


(** * Further measures on runs *)

(** What the agent of an event reported as its processing time and its
    token consumption; the checkpoint calls no agent. *)
Definition agent_cost (sv : Services) (ev : Event) : Z * Z :=
  if bool_decide (ev_node ev = "hitl") then (0, 0)%Z
  else
    match agent_process sv (ev_node ev) (build_agent_input (ev_before ev)) with
    | Return output =>
        (out_processing_time_ms output, out_tokens_consumed output)
    | Raise _ => (0, 0)%Z
    end.

Definition total (l : list Z) : Z := foldr Z.add 0%Z l.

(** [input] with one more entry in its history. *)
Definition with_history_entry (entry : string) (input : AgentInput)
    : AgentInput :=
  {| in_incident_id := in_incident_id input;
     in_query := in_query input;
     in_channel := in_channel input;
     in_user_role := in_user_role input;
     in_text_input := in_text_input input;
     in_audio_transcript := in_audio_transcript input;
     in_image_embeddings := in_image_embeddings input;
     in_location := in_location input;
     in_retrieved_docs := in_retrieved_docs input;
     in_retrieved_images := in_retrieved_images input;
     in_retrieved_sops := in_retrieved_sops input;
     in_retrieved_landmarks := in_retrieved_landmarks input;
     in_agent_history := in_agent_history input ++ [entry];
     in_previous_outputs := in_previous_outputs input |}.

(** The report and the fields no node writes. *)
Definition report_fields (s : IncidentState) :=
  (incident_id s, query s, channel s, user_role s, text_input s,
   audio_transcript s, image_embeddings s, location s, current_agent s,
   confidence s, errors s).

(** The fields triage, the protocol agent and the reflector write. *)
Definition assessment_fields (s : IncidentState) :=
  (priority s, incident_type s, recommended_assets s, recommended_sops s,
   critical_instructions s, quality_score s, gaps_detected s).

(** The record [process_incident] starts the workflow on, outside test
    mode: [create_initial_state] on the arguments, then the retrieved
    context. *)
Definition initial_state_of (sv : Services) (incident_id : string)
    (req : Request) : IncidentState :=
  add_retrieved_context
    (_retrieve_context sv (req_query req) (req_location req)
       (req_image_embeddings req))
    (create_initial_state incident_id (req_query req)
       (py_or (req_text_input req) (req_query req))
       (req_channel req) (req_user_role req) (req_location req)
       (req_audio_transcript req) (req_image_embeddings req)).

(** The entries a workflow result and its [final_recommendation] share. *)
Definition shared_keys : list string :=
  ["incident_id"; "priority"; "incident_type"; "recommended_assets";
   "location"; "address"; "critical_instructions"; "recommended_sops";
   "quality_score"; "gaps_detected"; "grounded_claims_count"].

(** * The callers in [api/routes/chat.py] *)

(** Python truthiness of a decoded JSON value. *)
#[global] Instance json_truthy : Truthy json :=
  fun j =>
    match j with
    | JNull => false
    | JBool b => b
    | JNum q => negb (Qeq_bool q 0)
    | JStr s => truthy s
    | JArr l => truthy l
    | JObj o => truthy o
    end.

(** [x or y] on the results of two [dict.get]: [None] is an absent key. *)
Definition get_or (x y : option json) : option json :=
  if truthy x then x else y.

(** [Orchestrator.__init__]: the mode of the settings and an empty cache. *)
Definition Orchestrator_init (AGENT_MODE : string) : Orchestrator :=
  {| mode := AGENT_MODE; _processed_incidents := ∅ |}.

(** The call of [send_message]: a new orchestrator for every message,
    the identifier made of the first eight characters of the session's, and
    the defaults of [process_incident] for the other arguments. *)
Definition send_message_result (sv : Services) (AGENT_MODE : string)
    (session_id full_query role : string) : pydict :=
  let orchestrator := Orchestrator_init AGENT_MODE in
  (process_incident sv orchestrator
     ("CHAT-" +:+ String.substring 0 8 session_id)
     {| req_query := full_query; req_text_input := None;
        req_channel := "web"; req_user_role := role; req_location := None;
        req_audio_transcript := None; req_image_embeddings := None |}
     false).1.

(** [value == s] for a string literal [s]. *)
Definition is_string (value : option json) (s : string) : bool :=
  match value with
  | Some (JStr s') => bool_decide (s' = s)
  | _ => false
  end.

Definition _is_conversation_complete (result : pydict) : bool :=
  let priority := result !! "priority" in
  let incident_type := result !! "incident_type" in
  let location :=
    get_or (result !! "resolved_location") (result !! "location") in
  let has_location :=
    match location with
    | Some (JObj location) =>
        truthy (location !! "lat") && truthy (location !! "lon")
    | _ => false
    end in
  let has_priority :=
    truthy priority && negb (is_string priority "Pending") in
  let has_type :=
    truthy incident_type
    && negb (in_strings incident_type
               ["Unknown"; "Pending"; "Multimodal_Pending";
                "ADMIN_InformationRequest"]) in
  has_location && has_priority && has_type.

(** ** Concrete services, for the examples *)

Definition position : pydict :=
  dict [("lat", to_json (1297 # 100)%Q); ("lon", to_json (7759 # 100)%Q)].

Definition geo_result (resolved : pydict) : AgentResult :=
  {| res_intent := None; res_initial_assessment := None;
     res_priority := None; res_incident_type := None;
     res_recommended_assets := None; res_resolved_location := Some resolved;
     res_address := Some "MG Road"; res_nearby_landmarks := None;
     res_recommended_sops := None; res_critical_instructions := None;
     res_contraindications := None; res_image_analysis := None;
     res_visual_confirmation := None; res_quality_score := None;
     res_gaps_detected := None; res_grounding_issues := None |}.

Definition typed_triage_result (priority_ type_ : string) : AgentResult :=
  {| res_intent := None; res_initial_assessment := None;
     res_priority := Some priority_; res_incident_type := Some type_;
     res_recommended_assets := Some [ambulance];
     res_resolved_location := None;
     res_address := None; res_nearby_landmarks := None;
     res_recommended_sops := None; res_critical_instructions := None;
     res_contraindications := None; res_image_analysis := None;
     res_visual_confirmation := None; res_quality_score := None;
     res_gaps_detected := None; res_grounding_issues := None |}.

(** The supervisor asks for the location first; the locator resolves it,
    triage classifies the report and the reflector is satisfied. *)
Definition agents_located (name : string) (_ : AgentInput)
    : outcome AgentOutput :=
  if bool_decide (name = "supervisor") then
    Return (output_of (supervisor_result "location_unclear") (Some "geo")
              false false [])
  else if bool_decide (name = "geo") then
    Return (output_of (geo_result position) (Some "triage") false false [])
  else if bool_decide (name = "triage") then
    Return (output_of (typed_triage_result "P1" "Medical_Cardiac")
              (Some "protocol") true false [])
  else if bool_decide (name = "reflector") then
    Return (output_of (reflector_result (9 # 10)%Q) None false false [])
  else Return (output_of no_result None false false []).

(** ** Services with a part replaced *)

Definition with_agents
    (agents : string → AgentInput → outcome AgentOutput) (sv : Services)
    : Services :=
  {| embed_text := embed_text sv; hybrid_search := hybrid_search sv;
     llm_generate := llm_generate sv; json_loads := json_loads sv;
     agent_process := agents; time_time := time_time sv;
     recursion_limit := recursion_limit sv |}.

(** The services under another limit of the graph library. *)
Definition with_limit (limit : nat) (sv : Services) : Services :=
  {| embed_text := embed_text sv; hybrid_search := hybrid_search sv;
     llm_generate := llm_generate sv; json_loads := json_loads sv;
     agent_process := agent_process sv; time_time := time_time sv;
     recursion_limit := limit |}.


(** * Lemmas on the nodes and routers *)

Lemma get_agent_known sv name :
  name ∈ ["supervisor"; "triage"; "geo"; "protocol"; "vision";
          "reflector"] →
  _get_agent sv name = Return (agent_process sv name).
Proof.
  intros H. unfold _get_agent. by rewrite bool_decide_eq_true_2.
Qed.

Lemma route_after_supervisor_range state :
  _route_after_supervisor state ∈ ["hitl"; "geo"; "vision"; "triage"].
Proof.
  unfold _route_after_supervisor.
  repeat case_match; set_solver.
Qed.

Lemma route_after_geo_range state :
  _route_after_geo state ∈ ["hitl"; "triage"].
Proof. unfold _route_after_geo. case_match; set_solver. Qed.

Lemma route_after_vision_range state :
  _route_after_vision state ∈ ["hitl"; "triage"].
Proof. unfold _route_after_vision. case_match; set_solver. Qed.

Lemma route_after_reflector_range state :
  (_route_after_reflector state).1 ∈ ["hitl"; "supervisor"; "triage"; "geo"].
Proof.
  unfold _route_after_reflector.
  destruct (bool_decide _); [set_solver |].
  destruct (Qle_bool _ _); [set_solver |].
  destruct (loop_back_to state) as [target|]; [| set_solver].
  destruct (truthy target && _) eqn:H; [| set_solver].
  apply andb_true_iff in H as [_ H]. apply bool_decide_eq_true in H.
  simpl. by apply elem_of_cons; right.
Qed.

Ltac solve_elem :=
  repeat first [apply list_elem_of_here | apply list_elem_of_further].

Ltac split_names H :=
  repeat (apply elem_of_cons in H as [H | H]; [subst |]);
  try (apply elem_of_nil in H; destruct H).

Lemma run_supervisor_eq sv state :
  _run_supervisor sv state =
  output ← agent_process sv "supervisor" (build_agent_input state);
  Return (merge_supervisor state output).
Proof. unfold _run_supervisor. by rewrite get_agent_known by set_solver. Qed.

Lemma run_triage_eq sv state :
  _run_triage sv state =
  output ← agent_process sv "triage" (build_agent_input state);
  Return (merge_triage state output).
Proof. unfold _run_triage. by rewrite get_agent_known by set_solver. Qed.

Lemma run_geo_eq sv state :
  _run_geo sv state =
  output ← agent_process sv "geo" (build_agent_input state);
  Return (merge_geo state output).
Proof. unfold _run_geo. by rewrite get_agent_known by set_solver. Qed.

Lemma run_protocol_eq sv state :
  _run_protocol sv state =
  output ← agent_process sv "protocol" (build_agent_input state);
  Return (merge_protocol state output).
Proof. unfold _run_protocol. by rewrite get_agent_known by set_solver. Qed.

Lemma run_vision_eq sv state :
  _run_vision sv state =
  output ← agent_process sv "vision" (build_agent_input state);
  Return (merge_vision state output).
Proof. unfold _run_vision. by rewrite get_agent_known by set_solver. Qed.

Lemma run_reflector_eq sv state :
  _run_reflector sv state =
  output ← agent_process sv "reflector" (build_agent_input state);
  Return (merge_reflector state output).
Proof. unfold _run_reflector. by rewrite get_agent_known by set_solver. Qed.

(** The path maps of the conditional edges cover what the routers return. *)
Lemma follow_edge_supervisor sv state :
  follow_edge (build_graph sv) "supervisor" state =
  Return (_route_after_supervisor state, state).
Proof.
  pose proof (route_after_supervisor_range state) as Hr.
  unfold follow_edge.
  replace (assoc "supervisor" (g_edges (build_graph sv)))
    with (Some (Conditional (reading _route_after_supervisor)
                  [("triage", "triage"); ("geo", "geo"); ("vision", "vision");
                   ("hitl", "hitl")])) by reflexivity.
  unfold reading.
  split_names Hr; rewrite Hr; reflexivity.
Qed.

Lemma follow_edge_geo sv state :
  follow_edge (build_graph sv) "geo" state =
  Return (_route_after_geo state, state).
Proof.
  pose proof (route_after_geo_range state) as Hr.
  unfold follow_edge.
  replace (assoc "geo" (g_edges (build_graph sv)))
    with (Some (Conditional (reading _route_after_geo)
                  [("triage", "triage"); ("hitl", "hitl")])) by reflexivity.
  unfold reading.
  split_names Hr; rewrite Hr; reflexivity.
Qed.

Lemma follow_edge_vision sv state :
  follow_edge (build_graph sv) "vision" state =
  Return (_route_after_vision state, state).
Proof.
  pose proof (route_after_vision_range state) as Hr.
  unfold follow_edge.
  replace (assoc "vision" (g_edges (build_graph sv)))
    with (Some (Conditional (reading _route_after_vision)
                  [("triage", "triage"); ("hitl", "hitl")])) by reflexivity.
  unfold reading.
  split_names Hr; rewrite Hr; reflexivity.
Qed.

Lemma follow_edge_reflector sv state :
  follow_edge (build_graph sv) "reflector" state =
  Return ((_route_after_reflector state).1, state).
Proof.
  pose proof (route_after_reflector_range state) as Hr.
  unfold follow_edge.
  replace (assoc "reflector" (g_edges (build_graph sv)))
    with (Some (Conditional _route_after_reflector
                  [("supervisor", "supervisor"); ("triage", "triage");
                   ("geo", "geo"); ("hitl", "hitl")])) by reflexivity.
  destruct (_route_after_reflector state) as [key st]. simpl in Hr.
  split_names Hr; reflexivity.
Qed.

Lemma step_known sv name state x :
  step (build_graph sv) name state = Return x → name ∈ node_names.
Proof.
  unfold step, node_names. cbn [build_graph g_nodes assoc]. intros H.
  repeat (case_bool_decide; [subst; solve_elem |]). discriminate H.
Qed.

Lemma step_supervisor sv state :
  step (build_graph sv) "supervisor" state =
  output ← agent_process sv "supervisor" (build_agent_input state);
  Return (_route_after_supervisor (merge_supervisor state output),
          merge_supervisor state output).
Proof.
  unfold step.
  replace (assoc "supervisor" (g_nodes (build_graph sv)))
    with (Some (_run_supervisor sv)) by reflexivity.
  rewrite run_supervisor_eq.
  destruct (agent_process _ _ _); [| done]. apply follow_edge_supervisor.
Qed.

Lemma step_triage sv state :
  step (build_graph sv) "triage" state =
  output ← agent_process sv "triage" (build_agent_input state);
  Return ("protocol", merge_triage state output).
Proof.
  unfold step.
  replace (assoc "triage" (g_nodes (build_graph sv)))
    with (Some (_run_triage sv)) by reflexivity.
  rewrite run_triage_eq. by destruct (agent_process _ _ _).
Qed.

Lemma step_geo sv state :
  step (build_graph sv) "geo" state =
  output ← agent_process sv "geo" (build_agent_input state);
  Return (_route_after_geo (merge_geo state output), merge_geo state output).
Proof.
  unfold step.
  replace (assoc "geo" (g_nodes (build_graph sv)))
    with (Some (_run_geo sv)) by reflexivity.
  rewrite run_geo_eq.
  destruct (agent_process _ _ _); [| done]. apply follow_edge_geo.
Qed.

Lemma step_protocol sv state :
  step (build_graph sv) "protocol" state =
  output ← agent_process sv "protocol" (build_agent_input state);
  Return ("reflector", merge_protocol state output).
Proof.
  unfold step.
  replace (assoc "protocol" (g_nodes (build_graph sv)))
    with (Some (_run_protocol sv)) by reflexivity.
  rewrite run_protocol_eq. by destruct (agent_process _ _ _).
Qed.

Lemma step_vision sv state :
  step (build_graph sv) "vision" state =
  output ← agent_process sv "vision" (build_agent_input state);
  Return (_route_after_vision (merge_vision state output),
          merge_vision state output).
Proof.
  unfold step.
  replace (assoc "vision" (g_nodes (build_graph sv)))
    with (Some (_run_vision sv)) by reflexivity.
  rewrite run_vision_eq.
  destruct (agent_process _ _ _); [| done]. apply follow_edge_vision.
Qed.

Lemma step_reflector sv state :
  step (build_graph sv) "reflector" state =
  output ← agent_process sv "reflector" (build_agent_input state);
  Return ((_route_after_reflector (merge_reflector state output)).1,
          merge_reflector state output).
Proof.
  unfold step.
  replace (assoc "reflector" (g_nodes (build_graph sv)))
    with (Some (_run_reflector sv)) by reflexivity.
  rewrite run_reflector_eq.
  destruct (agent_process _ _ _); [| done]. apply follow_edge_reflector.
Qed.

Lemma step_hitl sv state :
  step (build_graph sv) "hitl" state = Return (END, _hitl_node state).
Proof. reflexivity. Qed.

Ltac bind_inv H :=
  match type of H with
  | context [agent_process ?s ?n ?i] =>
      let Hout := fresh "Hout" in
      destruct (agent_process s n i) as [?output|] eqn:Hout;
      simpl in H; [| discriminate]
  end.

Lemma step_Step sv name state next state' :
  step (build_graph sv) name state = Return (next, state') ↔
  Step sv name state next state'.
Proof.
  split.
  - intros H. pose proof (step_known _ _ _ _ H) as Hn. unfold node_names in Hn.
    split_names Hn;
      [ rewrite step_supervisor in H | rewrite step_triage in H
      | rewrite step_geo in H | rewrite step_protocol in H
      | rewrite step_vision in H | rewrite step_reflector in H
      | rewrite step_hitl in H ];
      try bind_inv H; injection H as <- <-; by constructor.
  - intros HS. destruct HS;
      rewrite ?step_supervisor, ?step_triage, ?step_geo, ?step_protocol,
        ?step_vision, ?step_reflector, ?step_hitl;
      try rewrite H; reflexivity.
Qed.

(** * Runs: soundness of the trace *)

Lemma invoke_Run sv limit name state evs r :
  invoke (build_graph sv) limit name state = (evs, r) →
  Run sv name state evs r.
Proof.
  revert name state evs r.
  induction limit as [| limit IH]; intros name state evs r H.
  { injection H as <- <-. apply Run_limit. }
  cbn [invoke] in H.
  destruct (step (build_graph sv) name state) as [[next state'] | e] eqn:Hs.
  - apply step_Step in Hs.
    case_bool_decide as Hend.
    + subst next. injection H as <- <-. by apply Run_end.
    + destruct (invoke _ limit next state') as [evs' r'] eqn:Hi.
      injection H as <- <-.
      eapply Run_next; eauto.
  - injection H as <- <-. by apply Run_raise.
Qed.

Lemma run_Run sv state evs r :
  run sv state = (evs, r) → Run sv "supervisor" state evs r.
Proof. apply invoke_Run. Qed.

Lemma Step_from_hitl sv state next state' :
  Step sv "hitl" state next state' → next = END ∧ state' = _hitl_node state.
Proof. by inversion 1. Qed.

Lemma Step_to_END sv name state state' :
  Step sv name state END state' → name = "hitl".
Proof.
  intros HS. remember END as next eqn:Hn.
  destruct HS as [s o _ | s o _ | s o _ | s o _ | s o _ | s o _ | s];
    try done.
  - pose proof (route_after_supervisor_range (merge_supervisor s o)) as H'.
    rewrite Hn in H'. unfold END in H'. by split_names H'.
  - pose proof (route_after_geo_range (merge_geo s o)) as H'.
    rewrite Hn in H'. unfold END in H'. by split_names H'.
  - pose proof (route_after_vision_range (merge_vision s o)) as H'.
    rewrite Hn in H'. unfold END in H'. by split_names H'.
  - pose proof (route_after_reflector_range (merge_reflector s o)) as H'.
    rewrite Hn in H'. unfold END in H'. by split_names H'.
Qed.

(** No node but the checkpoint writes [final_recommendation]. *)
Lemma Step_final_recommendation sv name state next state' :
  Step sv name state next state' →
  name ≠ "hitl" →
  final_recommendation state' = final_recommendation state.
Proof.
  destruct 1; intros Hne; done.
Qed.

(** What every event of a run satisfies: the checkpoint ran last or the
    final recommendation was left alone. *)
Lemma Run_checkpoint sv name state evs r :
  Run sv name state evs r →
  ∀ i ev, evs !! i = Some ev →
    if bool_decide (ev_node ev = "hitl")
    then ev_after ev = _hitl_node (ev_before ev)
         ∧ S i = length evs ∧ r = Return (ev_after ev)
    else final_recommendation (ev_after ev)
         = final_recommendation (ev_before ev).
Proof.
  induction 1 as [name state state' HS
                 | name state next state' evs r HS Hne _ IH
                 | name state e _
                 | name state]; intros i ev Hi.
  - destruct i; [| done]. injection Hi as <-. simpl.
    apply Step_to_END in HS as Hn. subst name.
    apply Step_from_hitl in HS as [_ ->]. by rewrite bool_decide_eq_true_2.
  - destruct i as [| i].
    + injection Hi as <-. simpl. case_bool_decide as Hn.
      * subst name. apply Step_from_hitl in HS as [? _]. done.
      * eapply Step_final_recommendation; eauto.
    + specialize (IH i ev Hi). case_bool_decide; [| done].
      destruct IH as (Ha & Hl & Hr). simpl. by rewrite <- Hl.
  - done.
  - done.
Qed.

(** A run that returns ends with the checkpoint. *)
Lemma Run_return_hitl sv name state evs final :
  Run sv name state evs (Return final) →
  ∃ evs' before,
    evs = evs' ++ [{| ev_node := "hitl"; ev_before := before;
                      ev_after := final |}]
    ∧ final = _hitl_node before.
Proof.
  remember (Return final) as r eqn:Hr.
  induction 1 as [name state state' HS
                 | name state next state' evs r HS Hne _ IH
                 | name state e _
                 | name state].
  - injection Hr as <-. apply Step_to_END in HS as Hn. subst name.
    apply Step_from_hitl in HS as [_ ->]. by exists [], state.
  - destruct (IH Hr) as (evs' & before & -> & ->).
    by eexists (_ :: evs'), before.
  - done.
  - done.
Qed.

(** A report the supervisor does not pass on goes straight to the
    checkpoint. *)
Lemma run_straight_to_checkpoint sv state output :
  agent_process sv "supervisor" (build_agent_input state) = Return output →
  _route_after_supervisor (merge_supervisor state output) = "hitl" →
  (2 ≤ recursion_limit sv)%nat →
  run sv state
  = ([{| ev_node := "supervisor"; ev_before := state;
         ev_after := merge_supervisor state output |};
      {| ev_node := "hitl"; ev_before := merge_supervisor state output;
         ev_after := _hitl_node (merge_supervisor state output) |}],
     Return (_hitl_node (merge_supervisor state output))).
Proof.
  intros Hout Hroute Hlimit. unfold run.
  change (g_entry_point (build_graph sv)) with "supervisor".
  destruct (recursion_limit sv) as [| [| limit]]; [lia | lia |].
  cbn [invoke]. rewrite step_supervisor, Hout.
  cbn [mbind outcome_bind]. rewrite Hroute.
  rewrite bool_decide_eq_false_2 by done.
  rewrite step_hitl. by rewrite bool_decide_eq_true_2.
Qed.

(** C1.  A run that returns has executed the checkpoint node [hitl], as
    its last node, and returns the record the checkpoint produced.  The
    checkpoint, whatever the record held before, stores the final
    recommendation it assembles from the record (identifier, priority,
    type, assets, location, address, instructions, procedures, score, gaps
    and the number of grounded claims, with the defaults of the code) and
    sets [processing_complete] and [requires_human_approval] to true; no
    other node writes the final recommendation, and no node executes after
    the checkpoint.  A report the supervisor sends straight on is a run of
    these two nodes that returns the assembled record. *)
Theorem checkpoint_assembles_and_ends sv state evs r :
  run sv state = (evs, r) →
  (∀ final, r = Return final →
     ∃ evs' before,
       evs = evs' ++ [{| ev_node := "hitl"; ev_before := before;
                         ev_after := final |}])
  ∧ (∀ i ev, evs !! i = Some ev →
       if bool_decide (ev_node ev = "hitl")
       then
         let before := ev_before ev in
         final_recommendation (ev_after ev)
         = Some (dict [
             ("incident_id", to_json (incident_id before));
             ("priority", to_json (default "P3" (priority before)));
             ("incident_type",
                to_json (default "Unknown" (incident_type before)));
             ("recommended_assets",
                to_json (default [] (recommended_assets before)));
             ("location", to_json (resolved_location before));
             ("address", to_json (address before));
             ("critical_instructions",
                to_json (default "" (critical_instructions before)));
             ("recommended_sops",
                to_json (default [] (recommended_sops before)));
             ("quality_score",
                to_json (default (7 # 10)%Q (quality_score before)));
             ("gaps_detected", to_json (default [] (gaps_detected before)));
             ("grounded_claims_count",
                to_json (length (default [] (grounded_claims before))))])
         ∧ processing_complete (ev_after ev) = Some true
         ∧ requires_human_approval (ev_after ev) = Some true
         ∧ ev_after ev = _hitl_node before
         ∧ S i = length evs ∧ r = Return (ev_after ev)
       else final_recommendation (ev_after ev)
            = final_recommendation (ev_before ev))
  ∧ (∀ output,
       agent_process sv "supervisor" (build_agent_input state)
       = Return output →
       _route_after_supervisor (merge_supervisor state output) = "hitl" →
       (2 ≤ recursion_limit sv)%nat →
       evs = [{| ev_node := "supervisor"; ev_before := state;
                 ev_after := merge_supervisor state output |};
              {| ev_node := "hitl";
                 ev_before := merge_supervisor state output;
                 ev_after := _hitl_node (merge_supervisor state output) |}]
       ∧ r = Return (_hitl_node (merge_supervisor state output))).
Proof.
  intros Hrun. split; [| split].
  - intros final ->. apply run_Run in Hrun.
    destruct (Run_return_hitl _ _ _ _ _ Hrun) as (evs' & before & -> & _).
    by exists evs', before.
  - intros i ev Hi.
    pose proof (Run_checkpoint _ _ _ _ _ (run_Run _ _ _ _ Hrun) i ev Hi)
      as H.
    destruct (bool_decide (ev_node ev = "hitl")); [| exact H].
    destruct H as (Hafter & Hlast & Hr). cbv zeta.
    rewrite Hafter in Hr |- *.
    split; [reflexivity |]. split; [reflexivity |]. split; [reflexivity |].
    split; [reflexivity |]. split; [exact Hlast | exact Hr].
  - intros output Hout Hroute Hlimit.
    rewrite (run_straight_to_checkpoint _ _ _ Hout Hroute Hlimit) in Hrun.
    by injection Hrun as <- <-.
Qed.

Lemma checkpoint_assembles_and_ends_witness :
  let sv := services_with agents_flag_reset in
  ∃ evs final evs' before,
    run sv fresh_state = (evs, Return final)
    ∧ evs = evs' ++ [{| ev_node := "hitl"; ev_before := before;
                        ev_after := final |}].
Proof.
  intros sv.
  assert (returns (run sv fresh_state).2 = true) as Hok
    by (vm_compute; reflexivity).
  destruct (run sv fresh_state) as [evs [final | e]] eqn:H;
    [| discriminate Hok].
  destruct (proj1 (checkpoint_assembles_and_ends sv fresh_state evs
                     (Return final) H) final eq_refl)
    as (evs' & before & Hevs).
  by exists evs, final, evs', before.
Defined.

(** * The approval flag *)

Lemma Run_events sv name state evs r :
  Run sv name state evs r →
  ∀ ev, ev ∈ evs →
    ∃ next, Step sv (ev_node ev) (ev_before ev) next (ev_after ev).
Proof.
  induction 1 as [name state state' HS
                 | name state next state' evs r HS Hne _ IH
                 | name state e _
                 | name state]; intros ev Hin.
  - apply list_elem_of_singleton in Hin as ->. eauto.
  - apply elem_of_cons in Hin as [-> | Hin]; eauto.
  - by apply elem_of_nil in Hin.
  - by apply elem_of_nil in Hin.
Qed.

Lemma Step_approval sv name state next state' :
  Step sv name state next state' →
  if bool_decide (name ∈ ["geo"; "vision"; "protocol"])
  then requires_human_approval state' = requires_human_approval state
  else if bool_decide (name = "hitl")
  then requires_human_approval state' = Some true
  else ∃ output,
      agent_process sv name (build_agent_input state) = Return output
      ∧ requires_human_approval state'
        = Some (out_requires_human_approval output).
Proof.
  destruct 1 as [s o Ho | s o Ho | s o Ho | s o Ho | s o Ho | s o Ho | s];
    match goal with
    | |- context [bool_decide (?n ∈ ?l)] =>
        let b := eval vm_compute in (bool_decide (n ∈ l)) in
        replace (bool_decide (n ∈ l)) with b by (by vm_compute)
    end; cbn iota; try done;
    match goal with
    | |- context [bool_decide (?n = ?m)] =>
        let b := eval vm_compute in (bool_decide (n = m)) in
        replace (bool_decide (n = m)) with b by (by vm_compute)
    end; cbn iota; try done; by exists o.
Qed.

Lemma prod_result_approval sv incident_id query_ text channel_ role location_
    transcript embeddings context result :
  _process_prod_mode sv incident_id query_ text channel_ role location_
    transcript embeddings context = Return result →
  result !! "requires_human_approval" = Some (JBool true).
Proof.
  unfold _process_prod_mode.
  destruct (run sv _) as [evs [final | e]] eqn:Hrun; [| done].
  simpl. intros [= <-].
  apply run_Run, Run_return_hitl in Hrun as (_ & before & _ & ->).
  done.
Qed.

(** C2, the claim as stated, fails: triage sets the flag, and the
    reflector, two nodes later in the same run, resets it to false. *)
Lemma approval_flag_reset :
  ¬ approval_monotonic (run (services_with agents_flag_reset) fresh_state).1.
Proof.
  intros H.
  destruct ((run (services_with agents_flag_reset) fresh_state).1 !! 1%nat)
    as [e1 |] eqn:H1; [| by vm_compute in H1].
  destruct ((run (services_with agents_flag_reset) fresh_state).1 !! 3%nat)
    as [e3 |] eqn:H3; [| by vm_compute in H3].
  specialize (H 1%nat 3%nat e1 e3 ltac:(lia) H1 H3).
  vm_compute in H1. injection H1 as <-.
  vm_compute in H3. injection H3 as <-.
  by specialize (H eq_refl).
Qed.

(** C2, amended.  The flag is true in the final record of every run that
    completes, because the checkpoint sets it, and so it is true in the
    result of the full-path mode.  Before the checkpoint it is not
    monotonic: [geo], [vision] and [protocol] leave it as it is, while
    [supervisor], [triage] and [reflector] overwrite it with the flag of
    their agent's output, true or false. *)
Theorem approval_flag_final sv state evs final :
  run sv state = (evs, Return final) →
  requires_human_approval final = Some true
  ∧ (∀ ev, ev ∈ evs →
       if bool_decide (ev_node ev ∈ ["geo"; "vision"; "protocol"])
       then requires_human_approval (ev_after ev)
            = requires_human_approval (ev_before ev)
       else if bool_decide (ev_node ev = "hitl")
       then requires_human_approval (ev_after ev) = Some true
       else ∃ output,
           agent_process sv (ev_node ev) (build_agent_input (ev_before ev))
             = Return output
           ∧ requires_human_approval (ev_after ev)
             = Some (out_requires_human_approval output))
  ∧ (∀ incident_id query_ text channel_ role location_ transcript
       embeddings context result,
       _process_prod_mode sv incident_id query_ text channel_ role location_
         transcript embeddings context = Return result →
       result !! "requires_human_approval" = Some (JBool true)).
Proof.
  intros Hrun. apply run_Run in Hrun. split; [| split].
  - by apply Run_return_hitl in Hrun as (_ & before & _ & ->).
  - intros ev Hin.
    destruct (Run_events _ _ _ _ _ Hrun ev Hin) as [next HS].
    by apply Step_approval in HS.
  - intros. by eapply prod_result_approval.
Qed.

Lemma approval_flag_final_witness :
  let sv := services_with agents_flag_reset in
  ∃ evs final,
    run sv fresh_state = (evs, Return final)
    ∧ requires_human_approval final = Some true.
Proof.
  intros sv.
  assert (returns (run sv fresh_state).2 = true) as Hok
    by (vm_compute; reflexivity).
  destruct (run sv fresh_state) as [evs [final | e]] eqn:H;
    [| discriminate Hok].
  exists evs, final. split; [reflexivity |].
  exact (proj1 (approval_flag_final sv fresh_state evs final H)).
Defined.

(** * The reflection loop *)

Lemma executions_cons name ev evs :
  executions name (ev :: evs)
  = ((if bool_decide (ev_node ev = name) then 1 else 0)
     + executions name evs)%nat.
Proof.
  unfold executions. rewrite filter_cons.
  case_bool_decide; by rewrite ?decide_True, ?decide_False by done.
Qed.

Lemma Run_checkpoint_once sv name state evs r :
  Run sv name state evs r →
  match r with
  | Return final =>
      executions "hitl" evs = 1%nat
      ∧ ∃ ev, last evs = Some ev ∧ ev_node ev = "hitl"
              ∧ ev_after ev = final
  | Raise _ => executions "hitl" evs = 0%nat
  end.
Proof.
  induction 1 as [name state state' HS
                 | name state next state' evs r HS Hne Hrun IH
                 | name state e _
                 | name state].
  - apply Step_to_END in HS as ->. split; [by vm_compute |]. by eexists.
  - assert (name ≠ "hitl") as Hn
      by (intros ->; by apply Step_from_hitl in HS as [? _]).
    rewrite executions_cons. simpl ev_node.
    rewrite (bool_decide_eq_false_2 _ Hn).
    destruct r as [final | e]; [| done].
    destruct IH as (-> & ev & Hl & ? & ?). split; [done |].
    exists ev. split; [| done].
    destruct evs; [done |]. by rewrite last_cons, Hl.
  - done.
  - done.
Qed.

(** What no step writes is the same in every event of a run. *)
Lemma Run_unwritten {A} (f : IncidentState → A) sv (P : string → Prop) :
  (∀ name s next s', Step sv name s next s' → P name → f s' = f s) →
  ∀ name s evs r, Run sv name s evs r →
  (∀ ev, ev ∈ evs → P (ev_node ev)) →
  ∀ ev, ev ∈ evs → f (ev_before ev) = f s ∧ f (ev_after ev) = f s.
Proof.
  intros Hf name s evs r HR.
  induction HR as [name s s' HS | name s next s' evs r HS Hnext HR IH
                   | name s e He | name s]; intros HP ev Hev.
  - apply list_elem_of_singleton in Hev as ->. cbn.
    split; [done |]. apply (Hf _ _ _ _ HS). apply (HP _ ltac:(solve_elem)).
  - assert (f s' = f s) as Hs.
    { apply (Hf _ _ _ _ HS). apply (HP _ ltac:(solve_elem)). }
    apply elem_of_cons in Hev as [-> | Hev]; [done |].
    rewrite <- Hs. apply IH; [| done].
    intros ev' Hev'. apply HP. by apply list_elem_of_further.
  - by apply elem_of_nil in Hev.
  - by apply elem_of_nil in Hev.
Qed.

(** No node writes the counter of the loop or its bound, and what the
    router of [reflector] writes is lost. *)
Lemma Step_iteration_count sv name state next state' :
  Step sv name state next state' →
  (iteration_count state', max_iterations state')
  = (iteration_count state, max_iterations state).
Proof. by destruct 1. Qed.

Lemma Run_iteration_count sv name state evs r :
  Run sv name state evs r →
  ∀ ev, ev ∈ evs →
    iteration_count (ev_before ev) = iteration_count state
    ∧ max_iterations (ev_before ev) = max_iterations state
    ∧ iteration_count (ev_after ev) = iteration_count state
    ∧ max_iterations (ev_after ev) = max_iterations state.
Proof.
  intros HR ev Hev.
  destruct (Run_unwritten
              (fun s => (iteration_count s, max_iterations s)) sv
              (fun _ => True)
              (fun name s next s' HS _ =>
                 Step_iteration_count sv name s next s' HS)
              _ _ _ _ HR (fun _ _ => I) ev Hev) as [Hb Ha].
  injection Hb as Hb1 Hb2. injection Ha as Ha1 Ha2. done.
Qed.

Lemma div3_succ (n : nat) : ((n + 3) / 3 = S (n / 3))%nat.
Proof.
  replace (n + 3)%nat with (n + 1 * 3)%nat by lia.
  rewrite Nat.div_add by lia. lia.
Qed.

(** ** A reflector that is never satisfied *)

Section ScenarioB.
Variable sv : Services.
Hypothesis triage_returns : agent_returns sv "triage".
Hypothesis protocol_returns : agent_returns sv "protocol".
Hypothesis reflector_unsatisfied : reflector_always sv (3 # 10)%Q "triage".

Lemma step_triage_B state :
  ∃ output,
    step (build_graph sv) "triage" state
    = Return ("protocol", merge_triage state output).
Proof.
  destruct (triage_returns (build_agent_input state)) as [output H].
  exists output. by rewrite step_triage, H.
Qed.

Lemma step_protocol_B state :
  ∃ output,
    step (build_graph sv) "protocol" state
    = Return ("reflector", merge_protocol state output).
Proof.
  destruct (protocol_returns (build_agent_input state)) as [output H].
  exists output. by rewrite step_protocol, H.
Qed.

(** While the counter is below the bound the reflector sends the report
    back to triage. *)
Lemma step_reflector_B state :
  (default 0 (iteration_count state) < default 5 (max_iterations state))%Z →
  ∃ output,
    step (build_graph sv) "reflector" state
    = Return ("triage", merge_reflector state output).
Proof.
  intros Hguard.
  destruct (reflector_unsatisfied (build_agent_input state))
    as (output & H & Hq & Hnext & Hmore).
  exists output. rewrite step_reflector, H. cbn [mbind outcome_bind].
  do 2 f_equal.
  unfold _route_after_reflector.
  cbn [merge_reflector quality_score iteration_count max_iterations
       loop_back_to default id].
  rewrite Hq, Hnext, Hmore. cbn [default id].
  rewrite bool_decide_eq_false_2 by lia. reflexivity.
Qed.

(** From any node of the loop the run uses up the limit, whatever it
    is. *)
Lemma loop_never_ends (limit : nat) : ∀ state,
  (default 0 (iteration_count state) < default 5 (max_iterations state))%Z →
  (let x := invoke (build_graph sv) limit "triage" state in
   x.2 = Raise GraphRecursionError ∧ length x.1 = limit
   ∧ executions "triage" x.1 = ((limit + 2) / 3)%nat
   ∧ executions "reflector" x.1 = (limit / 3)%nat)
  ∧ (let x := invoke (build_graph sv) limit "protocol" state in
     x.2 = Raise GraphRecursionError ∧ length x.1 = limit
     ∧ executions "triage" x.1 = (limit / 3)%nat
     ∧ executions "reflector" x.1 = ((limit + 1) / 3)%nat)
  ∧ (let x := invoke (build_graph sv) limit "reflector" state in
     x.2 = Raise GraphRecursionError ∧ length x.1 = limit
     ∧ executions "triage" x.1 = ((limit + 1) / 3)%nat
     ∧ executions "reflector" x.1 = ((limit + 2) / 3)%nat).
Proof.
  induction limit as [| limit IH]; intros state Hguard; [done |].
  cbv zeta. cbn [invoke]. split; [| split].
  - destruct (step_triage_B state) as [output ->].
    rewrite bool_decide_eq_false_2 by done.
    destruct (IH (merge_triage state output) Hguard) as (_ & H & _).
    cbv zeta in H.
    destruct (invoke (build_graph sv) limit "protocol" _) as [evs r].
    destruct H as (Hr & Hlen & Ht & Hf). cbn [fst snd length] in *.
    rewrite !executions_cons, Ht, Hf. cbn [ev_node].
    rewrite bool_decide_eq_true_2, bool_decide_eq_false_2 by done.
    replace (S limit + 2)%nat with (limit + 3)%nat by lia.
    replace (S limit) with (limit + 1)%nat by lia.
    rewrite div3_succ. repeat split; first [done | lia].
  - destruct (step_protocol_B state) as [output ->].
    rewrite bool_decide_eq_false_2 by done.
    destruct (IH (merge_protocol state output) Hguard) as (_ & _ & H).
    cbv zeta in H.
    destruct (invoke (build_graph sv) limit "reflector" _) as [evs r].
    destruct H as (Hr & Hlen & Ht & Hf). cbn [fst snd length] in *.
    rewrite !executions_cons, Ht, Hf. cbn [ev_node].
    rewrite !bool_decide_eq_false_2 by done.
    replace (S limit + 1)%nat with (limit + 2)%nat by lia.
    replace (S limit) with (limit + 1)%nat by lia.
    repeat split; first [done | lia].
  - destruct (step_reflector_B state Hguard) as [output ->].
    rewrite bool_decide_eq_false_2 by done.
    destruct (IH (merge_reflector state output) Hguard) as (H & _ & _).
    cbv zeta in H.
    destruct (invoke (build_graph sv) limit "triage" _) as [evs r].
    destruct H as (Hr & Hlen & Ht & Hf). cbn [fst snd length] in *.
    rewrite !executions_cons, Ht, Hf. cbn [ev_node].
    rewrite bool_decide_eq_false_2, bool_decide_eq_true_2 by done.
    replace (S limit + 2)%nat with (limit + 3)%nat by lia.
    rewrite div3_succ.
    replace (S limit + 1)%nat with (limit + 2)%nat by lia.
    repeat split; first [done | lia].
Qed.

(** The whole run: the supervisor, then the loop. *)
Lemma run_never_ends state :
  supervisor_sends_to_triage sv →
  (default 0 (iteration_count state) < default 5 (max_iterations state))%Z →
  (run sv state).2 = Raise GraphRecursionError
  ∧ length (run sv state).1 = recursion_limit sv
  ∧ executions "hitl" (run sv state).1 = 0%nat
  ∧ executions "triage" (run sv state).1 = ((recursion_limit sv + 1) / 3)%nat
  ∧ executions "reflector" (run sv state).1
    = ((recursion_limit sv - 1) / 3)%nat.
Proof.
  intros Hsup Hguard.
  assert ((run sv state).2 = Raise GraphRecursionError
          ∧ length (run sv state).1 = recursion_limit sv
          ∧ executions "triage" (run sv state).1
            = ((recursion_limit sv + 1) / 3)%nat
          ∧ executions "reflector" (run sv state).1
            = ((recursion_limit sv - 1) / 3)%nat) as (Hr & Hlen & Ht & Hf).
  { unfold run.
    change (g_entry_point (build_graph sv)) with "supervisor".
    destruct (recursion_limit sv) as [| limit]; [by repeat split |].
    cbn [invoke].
    destruct (Hsup (build_agent_input state))
      as (output & intent_ & Hout & Hintent & Hni & Happroval).
    rewrite step_supervisor, Hout. cbn [mbind outcome_bind].
    assert (_route_after_supervisor (merge_supervisor state output)
            = "triage") as ->.
    { unfold _route_after_supervisor.
      cbn [merge_supervisor intent requires_human_approval default id].
      rewrite Hintent, Happroval. cbn [default id].
      rewrite !bool_decide_eq_false_2; [done | | |]; intros ->; apply Hni;
        solve_elem. }
    rewrite bool_decide_eq_false_2 by done.
    destruct (loop_never_ends limit (merge_supervisor state output) Hguard)
      as (H & _ & _).
    cbv zeta in H.
    destruct (invoke (build_graph sv) limit "triage" _) as [evs r].
    destruct H as (Hr & Hlen & Ht & Hf). cbn [fst snd length] in *.
    rewrite !executions_cons, Ht, Hf. cbn [ev_node].
    rewrite !bool_decide_eq_false_2 by done.
    replace (S limit + 1)%nat with (limit + 2)%nat by lia.
    replace (S limit - 1)%nat with limit by lia.
    repeat split; first [done | lia]. }
  split; [exact Hr |]. split; [exact Hlen |]. split; [| by split].
  destruct (run sv state) as [evs r] eqn:Hrun. cbn [snd] in Hr. subst r.
  apply run_Run, Run_checkpoint_once in Hrun. exact Hrun.
Qed.
End ScenarioB.

Lemma scenario_B_agents limit :
  let sv := with_limit limit (services_with agents_scenario_B) in
  supervisor_sends_to_triage sv
  ∧ agent_returns sv "triage"
  ∧ agent_returns sv "protocol"
  ∧ reflector_always sv (3 # 10)%Q "triage".
Proof.
  cbv zeta. split; [| split; [| split]].
  - intros input. eexists _, "medical". repeat split; try reflexivity.
    intros H. by split_names H.
  - intros input. by eexists.
  - intros input. by eexists.
  - intros input. by eexists.
Qed.

(** The nodes of scenario B under a limit of 25, in the order they
    run. *)
Example scenario_B_trace :
  ev_node <$> (run (services_with agents_scenario_B) fresh_state).1
  = ["supervisor";
     "triage"; "protocol"; "reflector"; "triage"; "protocol"; "reflector";
     "triage"; "protocol"; "reflector"; "triage"; "protocol"; "reflector";
     "triage"; "protocol"; "reflector"; "triage"; "protocol"; "reflector";
     "triage"; "protocol"; "reflector"; "triage"; "protocol"; "reflector"].
Proof. vm_compute. reflexivity. Qed.

(** C3.  The guard of [_route_after_reflector] compares a counter that
    stays where it started: the router's increment is lost and no node
    writes the counter.  With a reflector that is never satisfied the run
    from a fresh record ([max_iterations] = 5) never reaches the
    checkpoint: whatever the limit of the library, it uses the limit up,
    passing the reflector every third node, and ends in
    [GraphRecursionError]; under a limit of 25 that is eight passes, more
    than [max_iterations]. *)
Theorem reflection_loop_not_bounded (limit : nat) :
  let sv := with_limit limit (services_with agents_scenario_B) in
  (run sv fresh_state).2 = Raise GraphRecursionError
  ∧ length (run sv fresh_state).1 = limit
  ∧ executions "hitl" (run sv fresh_state).1 = 0%nat
  ∧ executions "reflector" (run sv fresh_state).1 = ((limit - 1) / 3)%nat
  ∧ (∀ ev, ev ∈ (run sv fresh_state).1 →
       iteration_count (ev_after ev) = Some 0%Z
       ∧ max_iterations (ev_after ev) = Some 5%Z)
  ∧ ∀ bound, ¬ reaches_checkpoint_within sv fresh_state bound.
Proof.
  intros sv.
  destruct (scenario_B_agents limit) as (Hsup & Htri & Hpro & Hrefl).
  destruct (run_never_ends sv Htri Hpro Hrefl fresh_state Hsup)
    as (Hr & Hlen & Hhitl & _ & Hpasses); [done |].
  split; [exact Hr |]. split; [exact Hlen |]. split; [exact Hhitl |].
  split; [exact Hpasses |]. split.
  - intros ev Hev.
    destruct (run sv fresh_state) as [evs r] eqn:Hrun.
    apply run_Run in Hrun.
    by destruct (Run_iteration_count _ _ _ _ _ Hrun ev Hev)
      as (_ & _ & -> & ->).
  - intros bound (evs & final & Hrun & _). by rewrite Hrun in Hr.
Qed.

(** C4.  In scenario B (the reflector scores 0.3 and asks for triage on
    every pass, the supervisor sends the report to triage, triage and
    protocol do not raise, the count starts at 0 and [max_iterations] is
    5) the run does not terminate at the checkpoint with a count of 5:
    the count is 0 after every node, the checkpoint is never executed, and
    the run ends in [GraphRecursionError] when the library's limit is used
    up, triage having run every third node until then. *)
Theorem scenario_B_never_reaches_checkpoint sv state :
  supervisor_sends_to_triage sv →
  agent_returns sv "triage" →
  agent_returns sv "protocol" →
  reflector_always sv (3 # 10)%Q "triage" →
  iteration_count state = Some 0%Z →
  max_iterations state = Some 5%Z →
  (run sv state).2 = Raise GraphRecursionError
  ∧ length (run sv state).1 = recursion_limit sv
  ∧ executions "hitl" (run sv state).1 = 0%nat
  ∧ executions "triage" (run sv state).1 = ((recursion_limit sv + 1) / 3)%nat
  ∧ (∀ ev, ev ∈ (run sv state).1 → iteration_count (ev_after ev) = Some 0%Z)
  ∧ ∀ triage_entries, ¬ scenario_B_outcome sv state triage_entries.
Proof.
  intros Hsup Htri Hpro Hrefl Hcount Hmax.
  destruct (run_never_ends sv Htri Hpro Hrefl state Hsup)
    as (Hr & Hlen & Hhitl & Htriage & _).
  { rewrite Hcount, Hmax. done. }
  split; [exact Hr |]. split; [exact Hlen |]. split; [exact Hhitl |].
  split; [exact Htriage |]. split.
  - intros ev Hev.
    destruct (run sv state) as [evs r] eqn:Hrun.
    apply run_Run in Hrun.
    destruct (Run_iteration_count _ _ _ _ _ Hrun ev Hev) as (_ & _ & -> & _).
    exact Hcount.
  - intros n (evs & final & Hrun & _). by rewrite Hrun in Hr.
Qed.

Lemma scenario_B_never_reaches_checkpoint_witness :
  let sv := services_with agents_scenario_B in
  (run sv fresh_state).2 = Raise GraphRecursionError
  ∧ length (run sv fresh_state).1 = 25%nat
  ∧ executions "triage" (run sv fresh_state).1 = 8%nat.
Proof.
  intros sv.
  destruct (scenario_B_agents 25) as (Hsup & Htri & Hpro & Hrefl).
  destruct (scenario_B_never_reaches_checkpoint sv fresh_state
              Hsup Htri Hpro Hrefl eq_refl eq_refl)
    as (Hr & Hlen & _ & Htriage & _).
  split; [exact Hr |]. split; [exact Hlen | exact Htriage].
Defined.

(** * Context retrieval *)

Lemma retrieve_context_embedded sv query_ location_ embeddings
    query_embedding rest :
  embed_text sv query_ = Return (query_embedding :: rest) →
  _retrieve_context sv query_ location_ embeddings =
  {| docs := found_or_empty
               (hybrid_search sv "incident_memory" query_embedding 5);
     sops := found_or_empty
               (hybrid_search sv "protocols_sops" query_embedding 5);
     landmarks :=
       match location_ with
       | None => found_or_empty
                   (hybrid_search sv "landmark_index" query_embedding 5)
       | Some _ => []
       end;
     images :=
       match embeddings with
       | Some (image_embedding :: _) =>
           found_or_empty
             (hybrid_search sv "visual_evidence" image_embedding 5)
       | _ => []
       end |}.
Proof.
  intros He. unfold _retrieve_context. rewrite He. simpl.
  destruct (hybrid_search sv "incident_memory" _ _);
    destruct (hybrid_search sv "protocols_sops" _ _);
    destruct location_;
    try destruct (hybrid_search sv "landmark_index" _ _);
    destruct embeddings as [[| image_embedding ?] |]; simpl;
    try destruct (hybrid_search sv "visual_evidence" _ _); reflexivity.
Qed.

Lemma retrieve_context_not_embedded sv query_ location_ embeddings :
  (∀ query_embedding rest,
     embed_text sv query_ ≠ Return (query_embedding :: rest)) →
  _retrieve_context sv query_ location_ embeddings = empty_context.
Proof.
  intros He. unfold _retrieve_context.
  destruct (embed_text sv query_) as [[| v rest] | e] eqn:H; try done.
  by destruct (He v rest).
Qed.

Lemma retrieve_context_searches_fail sv query_ location_ embeddings :
  searches_fail sv →
  _retrieve_context sv query_ location_ embeddings = empty_context.
Proof.
  intros Hfail.
  destruct (embed_text sv query_) as [[| v rest] | e] eqn:He.
  - apply retrieve_context_not_embedded. congruence.
  - rewrite (retrieve_context_embedded _ _ _ _ _ _ He).
    unfold empty_context. f_equal.
    + by destruct (Hfail "incident_memory" v 5%Z) as [? ->].
    + by destruct (Hfail "protocols_sops" v 5%Z) as [? ->].
    + destruct location_; [done |].
      by destruct (Hfail "landmark_index" v 5%Z) as [? ->].
    + destruct embeddings as [[| w ?] |]; try done.
      by destruct (Hfail "visual_evidence" w 5%Z) as [? ->].
  - apply retrieve_context_not_embedded. congruence.
Qed.

Ltac dict_lookup :=
  unfold dict; cbn [list_to_map foldr fst snd uncurry];
  repeat (rewrite lookup_insert_ne by done);
  rewrite ?lookup_insert_eq.

Lemma error_response_is_recommendation sv incident_id e start_time :
  is_recommendation (_error_response sv incident_id e start_time).
Proof.
  intros key Hk. unfold recommendation_keys in Hk.
  split_names Hk; unfold _error_response; dict_lookup; eapply mk_is_Some;
    reflexivity.
Qed.

Lemma process_incident_is_recommendation sv self incident_id req :
  is_recommendation (process_incident sv self incident_id req true).1.
Proof.
  unfold process_incident. cbn [negb].
  destruct (process_fresh sv self incident_id req) as [result | e] eqn:Hf;
    cbn [fst]; [| apply error_response_is_recommendation].
  intros key Hk.
  destruct (decide (key = "mode")) as [-> | Hm];
    [rewrite lookup_insert_eq; by eexists |].
  rewrite lookup_insert_ne by done.
  destruct (decide (key = "processing_time_ms")) as [-> | Ht];
    [rewrite lookup_insert_eq; by eexists |].
  rewrite lookup_insert_ne by done.
  unfold process_fresh in Hf. case_bool_decide.
  - injection Hf as <-. unfold _process_test_mode.
    destruct (llm_generate sv _) as [response |];
      [| exact (error_response_is_recommendation _ _ _ _ key Hk)].
    cbn [mbind outcome_bind try_except].
    destruct (json_loads sv _) as [parsed |];
      [| exact (error_response_is_recommendation _ _ _ _ key Hk)].
    cbn [mbind outcome_bind try_except].
    destruct parsed as [| | | | | parsed];
      cbn [mbind outcome_bind try_except as_dict];
      [exact (error_response_is_recommendation _ _ _ _ key Hk) .. |].
    unfold recommendation_keys in Hk.
    split_names Hk; try (by destruct Ht); dict_lookup; eapply mk_is_Some;
      reflexivity.
  - unfold _process_prod_mode in Hf.
    destruct (run sv _).2 as [final |]; [| discriminate Hf].
    cbn [mbind outcome_bind] in Hf. injection Hf as <-.
    unfold recommendation_keys in Hk.
    split_names Hk; try (by destruct Ht); dict_lookup; eapply mk_is_Some;
      reflexivity.
Qed.

(** C7.  In [_retrieve_context] each collection's list is the hits of its
    own search, or empty when that search raised, whatever the other
    searches did; when every search raises all four lists are empty, and
    [process_incident] still returns a recommendation, computed from the
    empty context. *)
Theorem retrieval_degrades_per_collection sv self incident_id req
    query_embedding rest :
  embed_text sv (req_query req) = Return (query_embedding :: rest) →
  let context :=
    _retrieve_context sv (req_query req) (req_location req)
      (req_image_embeddings req) in
  docs context
    = found_or_empty (hybrid_search sv "incident_memory" query_embedding 5)
  ∧ sops context
    = found_or_empty (hybrid_search sv "protocols_sops" query_embedding 5)
  ∧ landmarks context
    = match req_location req with
      | None => found_or_empty
                  (hybrid_search sv "landmark_index" query_embedding 5)
      | Some _ => []
      end
  ∧ images context
    = match req_image_embeddings req with
      | Some (image_embedding :: _) =>
          found_or_empty
            (hybrid_search sv "visual_evidence" image_embedding 5)
      | _ => []
      end
  ∧ (searches_fail sv →
     context = empty_context
     ∧ is_recommendation (process_incident sv self incident_id req true).1
     ∧ process_fresh sv self incident_id req
       = if bool_decide (mode self = "test")
         then Return (_process_test_mode sv incident_id (req_query req)
                        empty_context)
         else _process_prod_mode sv incident_id (req_query req)
                (py_or (req_text_input req) (req_query req))
                (req_channel req) (req_user_role req) (req_location req)
                (req_audio_transcript req) (req_image_embeddings req)
                empty_context).
Proof.
  intros He context. subst context.
  rewrite (retrieve_context_embedded _ _ _ _ _ _ He).
  cbn [docs sops landmarks images].
  repeat split; try done.
  - rewrite <- (retrieve_context_embedded _ _ _ _ _ _ He).
    by apply retrieve_context_searches_fail.
  - apply process_incident_is_recommendation.
  - unfold process_fresh. by rewrite retrieve_context_searches_fail.
Qed.

Lemma retrieval_degrades_per_collection_witness :
  let sv := services_search_down in
  embed_text sv (req_query request_1) = Return ([(1 # 2)%Q; (1 # 3)%Q] :: [])
  ∧ searches_fail sv
  ∧ _retrieve_context sv (req_query request_1) (req_location request_1)
      (req_image_embeddings request_1) = empty_context.
Proof.
  intros sv. split; [reflexivity |].
  assert (searches_fail sv) as Hfail by (intros ? ? ?; by eexists).
  split; [exact Hfail |].
  destruct (retrieval_degrades_per_collection sv orchestrator_prod "INC-1"
              request_1 _ _ eq_refl) as (_ & _ & _ & _ & H).
  exact (proj1 (H Hfail)).
Defined.

(** * The fast path *)

Lemma in_strings_P1_P2 (value : option json) :
  in_strings value ["P1"; "P2"] = true
  ↔ value = Some (JStr "P1") ∨ value = Some (JStr "P2").
Proof.
  unfold in_strings. split.
  - destruct value as [[| | | s | |] |]; try done.
    intros H. apply bool_decide_eq_true in H.
    split_names H; auto.
  - intros [-> | ->]; reflexivity.
Qed.

Lemma process_test_mode_parsed sv incident_id query_ context response parsed :
  llm_generate sv
    (test_mode_user_prompt query_ (_format_context_for_prompt context))
    = Return response →
  json_loads sv (resp_content response) = Return (JObj parsed) →
  _process_test_mode sv incident_id query_ context
  = dict [
      ("incident_id", to_json incident_id);
      ("status", to_json "test_complete");
      ("priority", default (to_json "P3") (parsed !! "priority"));
      ("incident_type",
         default (to_json "Unknown") (parsed !! "incident_type"));
      ("recommended_assets",
         default (JArr []) (parsed !! "recommended_assets"));
      ("critical_instructions",
         default (to_json "") (parsed !! "critical_instructions"));
      ("reasoning", default (to_json "") (parsed !! "reasoning"));
      ("confidence", default (to_json (7 # 10)%Q) (parsed !! "confidence"));
      ("requires_human_approval",
         to_json (in_strings (parsed !! "priority") ["P1"; "P2"]));
      ("tokens_consumed", to_json (default 0%Z (resp_total_tokens response)));
      ("model_used", to_json (default "unknown" (resp_model response)))
    ].
Proof.
  intros Hllm Hjson. unfold _process_test_mode.
  cbv zeta. rewrite Hllm. cbn [mbind outcome_bind]. rewrite Hjson.
  reflexivity.
Qed.

Lemma process_incident_test_mode sv self incident_id req :
  mode self = "test" →
  (process_incident sv self incident_id req true).1
  = <["mode" := to_json (mode self)]>
      (<["processing_time_ms" :=
           to_json (elapsed_ms (time_time sv 1) (time_time sv 0))]>
         (_process_test_mode sv incident_id (req_query req)
            (_retrieve_context sv (req_query req) (req_location req)
               (req_image_embeddings req)))).
Proof.
  intros Hmode. unfold process_incident, process_fresh. cbn [negb].
  by rewrite bool_decide_eq_true_2.
Qed.

(** C10.  In test mode, when the completion parses to a JSON object, the
    returned recommendation has [requires_human_approval] true exactly when
    the parsed priority is "P1" or "P2"; with priority "P3", "P4" or "P5"
    (or none) it is returned with the flag false, by [_process_test_mode]
    and by [process_incident] around it. *)
Theorem test_mode_approval_iff_P1_P2 sv incident_id query_ context response
    parsed :
  llm_generate sv
    (test_mode_user_prompt query_ (_format_context_for_prompt context))
    = Return response →
  json_loads sv (resp_content response) = Return (JObj parsed) →
  let result := _process_test_mode sv incident_id query_ context in
  result !! "status" = Some (JStr "test_complete")
  ∧ result !! "priority" = Some (default (JStr "P3") (parsed !! "priority"))
  ∧ (∃ flag, result !! "requires_human_approval" = Some (JBool flag)
       ∧ (flag = true ↔ parsed !! "priority" = Some (JStr "P1")
                        ∨ parsed !! "priority" = Some (JStr "P2")))
  ∧ (∀ p, p ∈ ["P3"; "P4"; "P5"] →
       parsed !! "priority" = Some (JStr p) →
       result !! "requires_human_approval" = Some (JBool false))
  ∧ (∀ self req,
       mode self = "test" →
       req_query req = query_ →
       _retrieve_context sv (req_query req) (req_location req)
         (req_image_embeddings req) = context →
       (process_incident sv self incident_id req true).1
         !! "requires_human_approval"
       = result !! "requires_human_approval").
Proof.
  intros Hllm Hjson result. subst result.
  rewrite (process_test_mode_parsed _ _ _ _ _ _ Hllm Hjson).
  split; [by dict_lookup |]. split; [by dict_lookup |].
  split; [| split].
  - eexists. split; [by dict_lookup |]. apply in_strings_P1_P2.
  - intros p Hp Hpri. dict_lookup. rewrite Hpri.
    split_names Hp; reflexivity.
  - intros self req Hmode Hq Hctx.
    rewrite process_incident_test_mode by done.
    rewrite !lookup_insert_ne by done.
    rewrite Hctx, Hq.
    by rewrite (process_test_mode_parsed _ _ _ _ _ _ Hllm Hjson).
Qed.

Lemma test_mode_approval_iff_P1_P2_witness :
  let sv := services_completing "{...}" completion_P1 in
  let response := {| resp_content := "{...}";
                     resp_total_tokens := Some 321%Z;
                     resp_model := Some "large" |} in
  llm_generate sv
    (test_mode_user_prompt "chest pain"
       (_format_context_for_prompt empty_context))
    = Return response
  ∧ json_loads sv (resp_content response) = Return completion_P1
  ∧ _process_test_mode sv "INC-1" "chest pain" empty_context
      !! "status" = Some (JStr "test_complete").
Proof.
  intros sv response. split; [reflexivity |]. split; [reflexivity |].
  exact (proj1 (test_mode_approval_iff_P1_P2 sv "INC-1" "chest pain"
                  empty_context response _ eq_refl eq_refl)).
Defined.

(** * The idempotency cache *)

(** Outside test mode [process_fresh] returns when the workflow does, and
    raises what the workflow raises. *)
Lemma process_fresh_workflow sv self incident_id req :
  mode self ≠ "test" →
  match (run sv (initial_state_of sv incident_id req)).2 with
  | Return _ => ∃ fresh, process_fresh sv self incident_id req = Return fresh
  | Raise e => process_fresh sv self incident_id req = Raise e
  end.
Proof.
  intros Hmode. unfold process_fresh, _process_prod_mode.
  rewrite bool_decide_eq_false_2 by done.
  fold (initial_state_of sv incident_id req).
  destruct (run sv (initial_state_of sv incident_id req)).2 as [final | e];
    cbn [mbind outcome_bind]; [by eexists | done].
Qed.

Lemma process_fresh_test_mode sv self incident_id req :
  mode self = "test" →
  ∃ fresh, process_fresh sv self incident_id req = Return fresh.
Proof.
  intros Hmode. unfold process_fresh.
  rewrite bool_decide_eq_true_2 by done. by eexists.
Qed.

(** [process_fresh] reads the mode of the orchestrator, not its cache. *)
Lemma process_fresh_cache sv self self' incident_id req :
  mode self' = mode self →
  process_fresh sv self' incident_id req
  = process_fresh sv self incident_id req.
Proof. intros H. unfold process_fresh. by rewrite H. Qed.

Lemma process_incident_cached sv self incident_id req cached :
  _processed_incidents self !! incident_id = Some cached →
  process_incident sv self incident_id req false = (cached, self).
Proof. intros H. unfold process_incident. cbn [negb]. by rewrite H. Qed.

Lemma process_incident_down :
  process_incident (services_with agents_down) orchestrator_prod "INC-1"
    request_1 false
  = (_error_response (services_with agents_down) "INC-1"
       "supervisor timed out" 0%Q,
     orchestrator_prod).
Proof.
  unfold process_incident.
  cbn [negb orchestrator_prod _processed_incidents]. rewrite lookup_empty.
  assert (process_fresh (services_with agents_down) orchestrator_prod "INC-1"
            request_1 = Raise "supervisor timed out") as ->
    by (vm_compute; reflexivity).
  reflexivity.
Qed.

Lemma process_incident_computed sv self incident_id req force_reprocess fresh :
  (if negb force_reprocess
   then _processed_incidents self !! incident_id else None) = None →
  process_fresh sv self incident_id req = Return fresh →
  let result :=
    <["mode" := to_json (mode self)]>
      (<["processing_time_ms" :=
           to_json (elapsed_ms (time_time sv 1) (time_time sv 0))]> fresh) in
  process_incident sv self incident_id req force_reprocess
  = (result, store incident_id result self).
Proof. intros Hmiss Hf. unfold process_incident. by rewrite Hmiss, Hf. Qed.

(** C6, the claim as stated, fails: when an agent of the full workflow
    raises, [process_incident] returns the fallback from its own handler
    and the cache stays empty. *)
Lemma fallback_not_stored :
  ¬ stores_result (services_with agents_down) orchestrator_prod "INC-1"
      request_1 false.
Proof.
  unfold stores_result. rewrite process_incident_down.
  cbn [_processed_incidents orchestrator_prod]. by rewrite lookup_empty.
Qed.

(** C6, amended.  A call leaves the result it returns in the cache under
    its identifier, other entries and the mode untouched, whenever the
    [try] block completes: on a cache hit (the result is the entry), in
    test mode even when [_process_test_mode] fell back to the error
    response, and outside test mode when the workflow returned.  When the
    workflow raises, the call returns the fallback of [process_incident]'s
    own handler, made of the exception's text, and leaves the orchestrator
    exactly as it was: the fallback is not stored. *)
Theorem result_stored_unless_handler sv self incident_id req force_reprocess
    result self' :
  process_incident sv self incident_id req force_reprocess = (result, self') →
  let hit :=
    if negb force_reprocess
    then _processed_incidents self !! incident_id else None in
  let workflow := (run sv (initial_state_of sv incident_id req)).2 in
  let stored :=
    _processed_incidents self' !! incident_id = Some result
    ∧ mode self' = mode self
    ∧ ∀ other, other ≠ incident_id →
        _processed_incidents self' !! other
        = _processed_incidents self !! other in
  (∀ cached, hit = Some cached → result = cached ∧ self' = self ∧ stored)
  ∧ (hit = None → mode self = "test" → stored)
  ∧ (hit = None → mode self ≠ "test" →
     ∀ final, workflow = Return final → stored)
  ∧ (hit = None → mode self ≠ "test" →
     ∀ e, workflow = Raise e →
       result = _error_response sv incident_id e (time_time sv 0)
       ∧ self' = self
       ∧ (force_reprocess = false →
          _processed_incidents self' !! incident_id = None)).
Proof.
  intros Hcall. cbv zeta.
  assert (∀ fresh, process_fresh sv self incident_id req = Return fresh →
            (if negb force_reprocess
             then _processed_incidents self !! incident_id else None) = None →
            _processed_incidents self' !! incident_id = Some result
            ∧ mode self' = mode self
            ∧ ∀ other, other ≠ incident_id →
                _processed_incidents self' !! other
                = _processed_incidents self !! other) as Hstored.
  { intros fresh Hf Hmiss.
    rewrite (process_incident_computed _ _ _ _ _ _ Hmiss Hf) in Hcall.
    cbv zeta in Hcall. injection Hcall as <- <-.
    cbn [store _processed_incidents mode].
    split; [by rewrite lookup_insert_eq |]. split; [done |].
    intros other Hne. by rewrite lookup_insert_ne. }
  split; [| split; [| split]].
  - intros cached Hhit. destruct force_reprocess; [discriminate Hhit |].
    cbn [negb] in Hhit.
    rewrite (process_incident_cached _ _ _ _ _ Hhit) in Hcall.
    injection Hcall as <- <-. by repeat split.
  - intros Hmiss Hmode.
    destruct (process_fresh_test_mode sv self incident_id req Hmode)
      as [fresh Hf].
    by apply (Hstored fresh).
  - intros Hmiss Hmode final Hfinal.
    pose proof (process_fresh_workflow sv self incident_id req Hmode) as Hf.
    rewrite Hfinal in Hf. destruct Hf as [fresh Hf].
    by apply (Hstored fresh).
  - intros Hmiss Hmode e He.
    pose proof (process_fresh_workflow sv self incident_id req Hmode) as Hf.
    rewrite He in Hf.
    unfold process_incident in Hcall. rewrite Hmiss, Hf in Hcall.
    injection Hcall as <- <-. split; [done |]. split; [done |].
    intros ->. exact Hmiss.
Qed.

Lemma result_stored_unless_handler_witness :
  let sv := services_with agents_down in
  (run sv (initial_state_of sv "INC-1" request_1)).2
    = Raise "supervisor timed out"
  ∧ process_incident sv orchestrator_prod "INC-1" request_1 false
    = (_error_response sv "INC-1" "supervisor timed out" (time_time sv 0),
       orchestrator_prod)
  ∧ _processed_incidents orchestrator_prod !! "INC-1" = None.
Proof.
  intros sv.
  assert ((run sv (initial_state_of sv "INC-1" request_1)).2
          = Raise "supervisor timed out") as Hraise
    by (vm_compute; reflexivity).
  split; [exact Hraise |].
  destruct (proj2 (proj2 (proj2
              (result_stored_unless_handler sv orchestrator_prod "INC-1"
                 request_1 false _ _ process_incident_down)))
              (lookup_empty _) ltac:(discriminate) _ Hraise)
    as (Hresult & _ & Hnone).
  split; [exact process_incident_down | exact (Hnone eq_refl)].
Defined.

(** The handler is also where a run cut off by the graph library ends: in
    scenario B the caller receives the fallback made of the library's
    exception, and nothing is stored. *)
Example scenario_B_falls_back :
  let sv := services_with agents_scenario_B in
  process_incident sv orchestrator_prod "INC-1" request_1 false
  = (_error_response sv "INC-1" GraphRecursionError (time_time sv 0),
     orchestrator_prod).
Proof.
  intros sv.
  pose proof (process_fresh_workflow sv orchestrator_prod "INC-1" request_1
                ltac:(done)) as Hf.
  destruct (scenario_B_agents 25) as (Hsup & Htri & Hpro & Hrefl).
  destruct (run_never_ends sv Htri Hpro Hrefl
              (initial_state_of sv "INC-1" request_1) Hsup) as (Hr & _);
    [done |].
  rewrite Hr in Hf. unfold process_incident. cbn [negb].
  change (_processed_incidents orchestrator_prod !! "INC-1")
    with (@None pydict).
  by rewrite Hf.
Qed.

(** C5, the claim as stated, fails: the first call ended in the handler
    and stored nothing, so the second call computes again, and returns what
    the services answer then. *)
Lemma fallback_not_replayed :
  ¬ replay_returns_first (services_with agents_down)
      (services_with agents_unclear) orchestrator_prod "INC-1" request_1.
Proof.
  unfold replay_returns_first. rewrite process_incident_down.
  intros H. apply (f_equal (lookup "status")) in H.
  vm_compute in H. discriminate H.
Qed.

(** C5, amended.  When the first call left its result in the cache (every
    call does, unless it ended in the handler of [process_incident]),
    every later call for the identifier with
    [force_reprocess = false] returns exactly that result and leaves the
    orchestrator unchanged, whatever the services would answer and
    whatever the other arguments are.  With [force_reprocess = true] the
    cache is not consulted: the call returns what it returns on an
    orchestrator whose cache was cleared. *)
Theorem replay_of_stored_result sv self incident_id req force_reprocess
    first self' :
  process_incident sv self incident_id req force_reprocess = (first, self') →
  _processed_incidents self' !! incident_id = Some first →
  (∀ sv2 req2,
     process_incident sv2 self' incident_id req2 false = (first, self'))
  ∧ (∀ sv2 req2,
       (process_incident sv2 self' incident_id req2 true).1
       = (process_incident sv2 (clear_cache None self') incident_id req2
            false).1).
Proof.
  intros _ Hstored. split.
  - intros sv2 req2. by apply process_incident_cached.
  - intros sv2 req2. unfold process_incident.
    cbn [negb clear_cache _processed_incidents truthy option_truthy].
    rewrite lookup_empty.
    rewrite (process_fresh_cache sv2 self' (clear_cache None self')) by done.
    by destruct (process_fresh sv2 self' incident_id req2).
Qed.

Lemma replay_of_stored_result_witness :
  let sv := services_with agents_unclear in
  ∃ first self',
    process_incident sv orchestrator_prod "INC-1" request_1 false
      = (first, self')
    ∧ _processed_incidents self' !! "INC-1" = Some first
    ∧ process_incident (services_with agents_down) self' "INC-1" request_1
        false = (first, self').
Proof.
  intros sv.
  assert (returns (process_fresh sv orchestrator_prod "INC-1" request_1)
          = true) as Hok by (vm_compute; reflexivity).
  destruct (process_fresh sv orchestrator_prod "INC-1" request_1)
    as [fresh | e] eqn:Hf; [| discriminate Hok].
  pose proof (process_incident_computed sv orchestrator_prod "INC-1"
                request_1 false fresh (lookup_empty _) Hf) as H1.
  cbv zeta in H1. eexists _, _. split; [exact H1 |].
  assert (_processed_incidents
            (store "INC-1"
               (<["mode" := to_json (mode orchestrator_prod)]>
                  (<["processing_time_ms" :=
                       to_json (elapsed_ms (time_time sv 1) (time_time sv 0))]>
                     fresh)) orchestrator_prod) !! "INC-1"
          = Some (<["mode" := to_json (mode orchestrator_prod)]>
                    (<["processing_time_ms" :=
                         to_json (elapsed_ms (time_time sv 1)
                                    (time_time sv 0))]> fresh))) as H2
    by apply lookup_insert_eq.
  split; [exact H2 |].
  exact (proj1 (replay_of_stored_result sv orchestrator_prod "INC-1"
                  request_1 false _ _ H1 H2)
           (services_with agents_down) request_1).
Defined.

(** * The lists of the record *)

(** What one step does to the lists. *)
Lemma Step_lists sv name state next state' :
  Step sv name state next state' →
  retrieved_docs state' = retrieved_docs state
  ∧ retrieved_images state' = retrieved_images state
  ∧ retrieved_sops state' = retrieved_sops state
  ∧ retrieved_landmarks state' = retrieved_landmarks state
  ∧ agent_history state'
    = (if bool_decide (name = "hitl") then agent_history state
       else Some (default [] (agent_history state) ++ [name]))
  ∧ default [] (grounded_claims state)
      `prefix_of` default [] (grounded_claims state')
  ∧ (name ≠ "supervisor" →
     default [] (ambiguities state)
       `prefix_of` default [] (ambiguities state'))
  ∧ (if bool_decide (name = "triage")
     then ∃ output,
         agent_process sv "triage" (build_agent_input state) = Return output
         ∧ recommended_assets state'
           = Some (default [] (res_recommended_assets (out_result output)))
     else recommended_assets state' = recommended_assets state).
Proof.
  destruct 1 as [s o Ho | s o Ho | s o Ho | s o Ho | s o Ho | s o Ho | s].
  - repeat split; try done.
  - repeat split; try done.
    + cbn. destruct (truthy _); [by apply prefix_app_r | done].
    + by exists o.
  - repeat split; try done.
    intros _. cbn. destruct (truthy _); [by apply prefix_app_r | done].
  - repeat split; try done.
    cbn. destruct (truthy _); [by apply prefix_app_r | done].
  - repeat split; try done.
  - repeat split; try done.
  - repeat split; try done.
Qed.

(** The supervisor replaces the ambiguities recorded so far where [geo]
    extends them. *)
Example supervisor_replaces_ambiguities :
  let located :=
    merge_geo fresh_state
      (output_of no_result None false false [flag_location]) in
  let again :=
    output_of (supervisor_result "medical") None false false [flag_type] in
  ambiguities located = Some [model_dump flag_location]
  ∧ ambiguities (merge_supervisor located again)
    = Some [model_dump flag_type]
  ∧ ambiguities (merge_geo located again)
    = Some [model_dump flag_location; model_dump flag_type].
Proof. repeat split; reflexivity. Qed.

Lemma prefix_of_singletons {A} (x y : A) : [x] `prefix_of` [y] → x = y.
Proof. intros [k H]. by injection H. Qed.

(** C8, the claim as stated, fails: on a loop-back triage replaces the
    assets it recommended on its first pass. *)
Lemma assets_replaced_on_loop_back :
  ¬ (∀ ev,
       ev ∈ (run (services_with agents_revise_assets) fresh_state).1 →
       append_only ev).
Proof.
  intros H.
  set (evs := (run (services_with agents_revise_assets) fresh_state).1) in H.
  assert ((fun ev => (recommended_assets (ev_before ev),
                      recommended_assets (ev_after ev))) <$> evs !! 4%nat
          = Some (Some [ambulance], Some [fire_engine])) as H4
    by (vm_compute; reflexivity).
  destruct (evs !! 4%nat) as [ev |] eqn:Hev; [| discriminate H4].
  injection H4 as Hb Ha.
  destruct (H ev) as [Hassets _]; [by eapply list_elem_of_lookup_2 |].
  rewrite Hb, Ha in Hassets. apply prefix_of_singletons in Hassets.
  apply (f_equal (lookup "type")) in Hassets. vm_compute in Hassets.
  discriminate Hassets.
Qed.

(** C8, amended.  Every node execution leaves the four retrieved-evidence
    lists as they are, appends its own name to [agent_history] (the
    checkpoint appends nothing) and only appends to [grounded_claims];
    every node except [supervisor] only appends to [ambiguities].
    [recommended_assets] is not append-only: [triage] replaces it with the
    list of its agent's output, and no other node writes it. *)
Theorem lists_append_only_except_assets sv state evs r :
  run sv state = (evs, r) →
  ∀ ev, ev ∈ evs →
    retrieved_docs (ev_after ev) = retrieved_docs (ev_before ev)
    ∧ retrieved_images (ev_after ev) = retrieved_images (ev_before ev)
    ∧ retrieved_sops (ev_after ev) = retrieved_sops (ev_before ev)
    ∧ retrieved_landmarks (ev_after ev) = retrieved_landmarks (ev_before ev)
    ∧ agent_history (ev_after ev)
      = (if bool_decide (ev_node ev = "hitl")
         then agent_history (ev_before ev)
         else Some (default [] (agent_history (ev_before ev))
                    ++ [ev_node ev]))
    ∧ default [] (agent_history (ev_before ev))
        `prefix_of` default [] (agent_history (ev_after ev))
    ∧ default [] (grounded_claims (ev_before ev))
        `prefix_of` default [] (grounded_claims (ev_after ev))
    ∧ (ev_node ev ≠ "supervisor" →
       default [] (ambiguities (ev_before ev))
         `prefix_of` default [] (ambiguities (ev_after ev)))
    ∧ (if bool_decide (ev_node ev = "triage")
       then ∃ output,
           agent_process sv "triage" (build_agent_input (ev_before ev))
             = Return output
           ∧ recommended_assets (ev_after ev)
             = Some (default [] (res_recommended_assets (out_result output)))
       else recommended_assets (ev_after ev)
            = recommended_assets (ev_before ev)).
Proof.
  intros Hrun ev Hin. apply run_Run in Hrun.
  destruct (Run_events _ _ _ _ _ Hrun ev Hin) as [next HS].
  apply Step_lists in HS as (H1 & H2 & H3 & H4 & H5 & H6 & H7 & H8).
  repeat (split; [done |]). split; [| done].
  rewrite H5. destruct (bool_decide (ev_node ev = "hitl")); [reflexivity |].
  by apply prefix_app_r.
Qed.

Lemma lists_append_only_except_assets_witness :
  let sv := services_with agents_revise_assets in
  ∃ evs r ev,
    run sv fresh_state = (evs, r)
    ∧ ev ∈ evs
    ∧ retrieved_docs (ev_after ev) = retrieved_docs (ev_before ev).
Proof.
  intros sv.
  assert (bool_decide (is_Some ((run sv fresh_state).1 !! 0%nat)) = true)
    as Hok by (vm_compute; reflexivity).
  apply bool_decide_eq_true in Hok as [ev Hev].
  destruct (run sv fresh_state) as [evs r] eqn:H.
  apply list_elem_of_lookup_2 in Hev.
  exists evs, r, ev. split; [reflexivity |]. split; [exact Hev |].
  exact (proj1 (lists_append_only_except_assets sv fresh_state evs r H ev Hev)).
Defined.

(** * Triage before the checkpoint *)

Lemma executions_nodes name evs :
  executions name evs = occurrences name (ev_node <$> evs).
Proof.
  unfold occurrences. induction evs as [| ev evs IH]; [done |].
  rewrite executions_cons, fmap_cons, filter_cons.
  case_bool_decide; rewrite ?decide_True, ?decide_False by done; simpl;
    by rewrite IH.
Qed.

Lemma Run_from_hitl sv state evs final :
  Run sv "hitl" state evs (Return final) → ev_node <$> evs = ["hitl"].
Proof.
  inversion 1 as [? ? ? HS | ? ? ? ? ? ? HS Hne | |]; subst.
  - done.
  - by apply Step_from_hitl in HS as [? _].
Qed.

(** A run that returns executed the node it started from. *)
Lemma Run_head sv name state evs final :
  Run sv name state evs (Return final) →
  ∃ ev evs', evs = ev :: evs' ∧ ev_node ev = name.
Proof. inversion 1; subst; by eexists _, _. Qed.

Lemma Step_supervisor_next sv state next state' :
  Step sv "supervisor" state next state' →
  next ∈ ["hitl"; "geo"; "vision"; "triage"].
Proof. inversion 1; subst. apply route_after_supervisor_range. Qed.

Lemma Step_geo_next sv state next state' :
  Step sv "geo" state next state' → next ∈ ["hitl"; "triage"].
Proof. inversion 1; subst. apply route_after_geo_range. Qed.

Lemma Step_vision_next sv state next state' :
  Step sv "vision" state next state' → next ∈ ["hitl"; "triage"].
Proof. inversion 1; subst. apply route_after_vision_range. Qed.

Lemma Run_from_triage sv state evs final :
  Run sv "triage" state evs (Return final) →
  executions "triage" evs ≠ 0%nat.
Proof.
  intros (ev & evs' & -> & Hn)%Run_head.
  rewrite executions_cons, Hn. by rewrite bool_decide_eq_true_2.
Qed.

(** From [geo] or [vision] a run that returns goes to the checkpoint or
    through triage. *)
Lemma Run_from_locator sv name state evs final :
  name = "geo" ∨ name = "vision" →
  Run sv name state evs (Return final) →
  executions "triage" evs = 0%nat →
  ev_node <$> evs = [name; "hitl"].
Proof.
  intros Hname Hrun Hno.
  inversion Hrun as [? ? ? HS | ? ? next state' evs' ? HS Hne Hrest | |];
    subst.
  - apply Step_to_END in HS. destruct Hname; congruence.
  - assert (next ∈ ["hitl"; "triage"]) as Hnext
      by (destruct Hname; subst;
          [by eapply Step_geo_next | by eapply Step_vision_next]).
    split_names Hnext.
    + apply Run_from_hitl in Hrest. by rewrite fmap_cons, Hrest.
    + apply Run_from_triage in Hrest.
      rewrite executions_cons in Hno. lia.
Qed.

Lemma Run_without_triage sv state evs final :
  Run sv "supervisor" state evs (Return final) →
  executions "triage" evs = 0%nat →
  ev_node <$> evs ∈ early_exits.
Proof.
  intros Hrun Hno. unfold early_exits.
  inversion Hrun as [? ? ? HS | ? ? next state' evs' ? HS Hne Hrest | |];
    subst.
  - by apply Step_to_END in HS.
  - rewrite executions_cons in Hno.
    apply Step_supervisor_next in HS as Hnext. split_names Hnext.
    + apply Run_from_hitl in Hrest. rewrite fmap_cons, Hrest. solve_elem.
    + apply Run_from_locator in Hrest; [| by left | lia].
      rewrite fmap_cons, Hrest. solve_elem.
    + apply Run_from_locator in Hrest; [| by right | lia].
      rewrite fmap_cons, Hrest. solve_elem.
    + apply Run_from_triage in Hrest. lia.
Qed.

(** The history of a run that returns: the nodes it executed, the
    checkpoint apart. *)
Lemma Run_history sv name state evs r :
  Run sv name state evs r →
  ∀ final, r = Return final →
  default [] (agent_history final)
  = default [] (agent_history state)
    ++ filter (fun node => node ≠ "hitl") (ev_node <$> evs).
Proof.
  induction 1 as [name state state' HS
                 | name state next state' evs r HS Hne _ IH
                 | name state e _
                 | name state]; intros final Hr; [| | done | done].
  - injection Hr as <-. apply Step_to_END in HS as Hn. subst name.
    apply Step_from_hitl in HS as [_ ->]. cbn.
    rewrite decide_False by auto. by rewrite app_nil_r.
  - rewrite (IH final Hr). rewrite fmap_cons. cbn [ev_node].
    assert (name ≠ "hitl") as Hn
      by (intros ->; by apply Step_from_hitl in HS as [? _]).
    apply Step_lists in HS as (_ & _ & _ & _ & Hh & _).
    rewrite bool_decide_eq_false_2 in Hh by done.
    rewrite Hh, filter_cons, decide_True by done. cbn [default from_option id].
    by rewrite <- (assoc_L (++)).
Qed.

(** What the routers decide on. *)
Lemma route_after_supervisor_hitl state :
  _route_after_supervisor state = "hitl"
  ↔ default "unclear" (intent state) = "unclear"
    ∨ truthy (requires_human_approval state) = true.
Proof.
  unfold _route_after_supervisor.
  destruct (truthy (requires_human_approval state)).
  - rewrite orb_true_r. split; [by right | done].
  - rewrite orb_false_r. case_bool_decide as Hi; [split; [by left | done] |].
    split; [| by intros [? | ?]].
    repeat case_bool_decide; discriminate.
Qed.

Lemma route_after_supervisor_geo state :
  _route_after_supervisor state = "geo"
  ↔ intent state = Some "location_unclear"
    ∧ truthy (requires_human_approval state) = false.
Proof.
  unfold _route_after_supervisor.
  destruct (truthy (requires_human_approval state)).
  - rewrite orb_true_r. split; [discriminate | by intros [_ ?]].
  - rewrite orb_false_r. destruct (intent state) as [intent_ |]; cbn.
    + repeat case_bool_decide; subst; split;
        first [discriminate | by intros [[= ->] _] | done].
    + split; [discriminate | by intros [? _]].
Qed.

Lemma route_after_supervisor_vision state :
  _route_after_supervisor state = "vision"
  ↔ intent state = Some "visual_needed"
    ∧ truthy (requires_human_approval state) = false.
Proof.
  unfold _route_after_supervisor.
  destruct (truthy (requires_human_approval state)).
  - rewrite orb_true_r. split; [discriminate | by intros [_ ?]].
  - rewrite orb_false_r. destruct (intent state) as [intent_ |]; cbn.
    + repeat case_bool_decide; subst; split;
        first [discriminate | by intros [[= ->] _] | done].
    + split; [discriminate | by intros [? _]].
Qed.

Lemma route_after_geo_hitl state :
  _route_after_geo state = "hitl"
  ↔ truthy (requires_more_info state) = true.
Proof.
  unfold _route_after_geo.
  by destruct (truthy (requires_more_info state)).
Qed.

Lemma route_after_vision_hitl state :
  _route_after_vision state = "hitl"
  ↔ truthy (requires_more_info state) = true.
Proof.
  unfold _route_after_vision.
  by destruct (truthy (requires_more_info state)).
Qed.

(** A run that returns from a node other than the checkpoint: its first
    step and the run that follows. *)
Lemma Run_step sv name state evs final :
  Run sv name state evs (Return final) →
  name ≠ "hitl" →
  ∃ next state' rest,
    Step sv name state next state'
    ∧ evs = {| ev_node := name; ev_before := state; ev_after := state' |}
            :: rest
    ∧ Run sv next state' rest (Return final).
Proof.
  intros Hrun Hname.
  inversion Hrun as [? ? ? HS | ? ? next state' rest ? HS Hne Hrest | |];
    subst.
  - by apply Step_to_END in HS.
  - by exists next, state', rest.
Qed.

(** From [geo] or [vision] the run goes to the checkpoint exactly when
    the node left [requires_more_info] set. *)
Lemma Run_locator_exit sv name state evs final :
  name = "geo" ∨ name = "vision" →
  Run sv name state evs (Return final) →
  ∃ ev1 rest,
    evs = ev1 :: rest ∧ ev_node ev1 = name
    ∧ (ev_node <$> evs = [name; "hitl"]
       ↔ truthy (requires_more_info (ev_after ev1)) = true).
Proof.
  intros Hname Hrun.
  destruct (Run_step _ _ _ _ _ Hrun) as (next & s1 & rest & HS & -> & Hrest).
  { by destruct Hname as [-> | ->]. }
  eexists _, rest. split; [reflexivity |]. split; [reflexivity |].
  cbn [ev_after fmap list_fmap ev_node].
  assert (next = "hitl" ↔ truthy (requires_more_info s1) = true) as <-.
  { destruct Hname as [-> | ->]; inversion HS; subst;
      [apply route_after_geo_hitl | apply route_after_vision_hitl]. }
  split.
  - intros [= Hrest'].
    destruct (Run_head _ _ _ _ _ Hrest) as (ev & evs' & -> & Hnode).
    cbn in Hrest'. injection Hrest' as Hev _. congruence.
  - intros ->. apply Run_from_hitl in Hrest.
    change (list_fmap Event string ev_node rest) with (ev_node <$> rest).
    by rewrite Hrest.
Qed.

(** The conditions of the early exits. *)
Lemma Run_exit_conditions sv state evs final :
  Run sv "supervisor" state evs (Return final) →
  ∃ ev0 rest,
    evs = ev0 :: rest ∧ ev_node ev0 = "supervisor"
    ∧ (ev_node <$> evs = ["supervisor"; "hitl"]
       ↔ default "unclear" (intent (ev_after ev0)) = "unclear"
         ∨ truthy (requires_human_approval (ev_after ev0)) = true)
    ∧ (ev_node <$> evs = ["supervisor"; "geo"; "hitl"]
       ↔ intent (ev_after ev0) = Some "location_unclear"
         ∧ truthy (requires_human_approval (ev_after ev0)) = false
         ∧ ∃ ev1, rest !! 0%nat = Some ev1
                  ∧ truthy (requires_more_info (ev_after ev1)) = true)
    ∧ (ev_node <$> evs = ["supervisor"; "vision"; "hitl"]
       ↔ intent (ev_after ev0) = Some "visual_needed"
         ∧ truthy (requires_human_approval (ev_after ev0)) = false
         ∧ ∃ ev1, rest !! 0%nat = Some ev1
                  ∧ truthy (requires_more_info (ev_after ev1)) = true).
Proof.
  intros Hrun.
  destruct (Run_step _ _ _ _ _ Hrun) as (next & s0 & rest & HS & -> & Hrest);
    [done |].
  eexists _, rest. split; [reflexivity |]. split; [reflexivity |].
  cbn [ev_after].
  assert (next = _route_after_supervisor s0) as Hnext
    by (inversion HS; by subst).
  rewrite <- route_after_supervisor_hitl, <- Hnext.
  assert (intent s0 = Some "location_unclear"
          ∧ truthy (requires_human_approval s0) = false ↔ next = "geo")
    as Hgeo by (rewrite Hnext; symmetry; apply route_after_supervisor_geo).
  assert (intent s0 = Some "visual_needed"
          ∧ truthy (requires_human_approval s0) = false ↔ next = "vision")
    as Hvision
    by (rewrite Hnext; symmetry; apply route_after_supervisor_vision).
  destruct (Run_head _ _ _ _ _ Hrest) as (ev1 & rest1 & Hrest1 & Hnode1).
  rewrite fmap_cons. cbn [ev_node]. rewrite Hrest1 in Hrest |- *.
  cbn [lookup list_lookup].
  split; [| split].
  - split.
    + intros [= H _]. congruence.
    + intros ->. apply Run_from_hitl in Hrest. by rewrite Hrest.
  - split.
    + intros [= H H']. assert (next = "geo") as -> by congruence.
      destruct (proj2 Hgeo eq_refl) as [Hi Ha].
      split; [exact Hi |]. split; [exact Ha |].
      destruct (Run_locator_exit sv "geo" _ _ _ (or_introl eq_refl) Hrest)
        as (ev & rest' & [= <- <-] & _ & Hiff).
      exists ev1. split; [reflexivity |]. apply Hiff.
      rewrite fmap_cons, H. f_equal. exact H'.
    + intros (Hi & Ha & ev & [= <-] & Hmore).
      pose proof (proj1 Hgeo (conj Hi Ha)) as ->.
      destruct (Run_locator_exit sv "geo" _ _ _ (or_introl eq_refl) Hrest)
        as (ev & rest' & [= <- <-] & _ & Hiff).
      f_equal. by apply Hiff.
  - split.
    + intros [= H H']. assert (next = "vision") as -> by congruence.
      destruct (proj2 Hvision eq_refl) as [Hi Ha].
      split; [exact Hi |]. split; [exact Ha |].
      destruct (Run_locator_exit sv "vision" _ _ _ (or_intror eq_refl) Hrest)
        as (ev & rest' & [= <- <-] & _ & Hiff).
      exists ev1. split; [reflexivity |]. apply Hiff.
      rewrite fmap_cons, H. f_equal. exact H'.
    + intros (Hi & Ha & ev & [= <-] & Hmore).
      pose proof (proj1 Hvision (conj Hi Ha)) as ->.
      destruct (Run_locator_exit sv "vision" _ _ _ (or_intror eq_refl) Hrest)
        as (ev & rest' & [= <- <-] & _ & Hiff).
      f_equal. by apply Hiff.
Qed.


(** C9, the claim as stated, fails: when the supervisor finds the report
    unclear the run goes from [supervisor] to the checkpoint, which
    assembles the final recommendation with no triage in the history. *)
Lemma recommendation_without_triage :
  ¬ recommendation_after_triage (services_with agents_unclear) fresh_state.
Proof.
  intros H.
  assert (returns (run (services_with agents_unclear) fresh_state).2 = true)
    as Hok by (vm_compute; reflexivity).
  destruct (run (services_with agents_unclear) fresh_state)
    as [evs [final | e]] eqn:Hrun; [| discriminate Hok].
  specialize (H evs final Hrun).
  assert ((fun x => match x.2 with
                    | Return s =>
                        (bool_decide (is_Some (final_recommendation s)),
                         agent_history s)
                    | Raise _ => (false, None)
                    end) (run (services_with agents_unclear) fresh_state)
          = (true, Some ["supervisor"])) as Hc by (vm_compute; reflexivity).
  rewrite Hrun in Hc. cbn in Hc. injection Hc as Hrec Hhist.
  apply bool_decide_eq_true in Hrec. specialize (H Hrec).
  rewrite Hhist in H. cbn in H. by split_names H.
Qed.

(** C9, amended.  In a run that returns, the final recommendation is
    assembled once, by the one execution of the checkpoint, its last node;
    no other node writes it.  The history of the run is that of the nodes
    executed before the checkpoint.  Triage is among them unless the run
    is one of the early exits, and each early exit is taken exactly on its
    condition: [supervisor] straight to the checkpoint when the record the
    supervisor leaves has intent unclear (or none) or approval required;
    [supervisor], [geo], checkpoint when the intent is location_unclear,
    approval is not required and [geo] leaves [requires_more_info] set;
    [supervisor], [vision], checkpoint likewise for visual_needed. *)
Theorem recommendation_once_after_triage_or_early_exit sv state evs final :
  run sv state = (evs, Return final) →
  executions "hitl" evs = 1%nat
  ∧ (∀ i ev, evs !! i = Some ev →
       if bool_decide (ev_node ev = "hitl")
       then final_recommendation (ev_after ev)
              = Some (hitl_recommendation (ev_before ev))
            ∧ ev_after ev = final
       else final_recommendation (ev_after ev)
            = final_recommendation (ev_before ev))
  ∧ default [] (agent_history final)
    = default [] (agent_history state)
      ++ filter (fun node => node ≠ "hitl") (ev_node <$> evs)
  ∧ (executions "triage" evs = 0%nat ↔ ev_node <$> evs ∈ early_exits)
  ∧ ∃ ev0 rest,
      evs = ev0 :: rest ∧ ev_node ev0 = "supervisor"
      ∧ (ev_node <$> evs = ["supervisor"; "hitl"]
         ↔ default "unclear" (intent (ev_after ev0)) = "unclear"
           ∨ truthy (requires_human_approval (ev_after ev0)) = true)
      ∧ (ev_node <$> evs = ["supervisor"; "geo"; "hitl"]
         ↔ intent (ev_after ev0) = Some "location_unclear"
           ∧ truthy (requires_human_approval (ev_after ev0)) = false
           ∧ ∃ ev1, rest !! 0%nat = Some ev1
                    ∧ truthy (requires_more_info (ev_after ev1)) = true)
      ∧ (ev_node <$> evs = ["supervisor"; "vision"; "hitl"]
         ↔ intent (ev_after ev0) = Some "visual_needed"
           ∧ truthy (requires_human_approval (ev_after ev0)) = false
           ∧ ∃ ev1, rest !! 0%nat = Some ev1
                    ∧ truthy (requires_more_info (ev_after ev1)) = true).
Proof.
  intros Hrun. apply run_Run in Hrun. split; [| split; [| split; [| split]]].
  - by apply Run_checkpoint_once in Hrun as [? _].
  - intros i ev Hi.
    pose proof (Run_checkpoint _ _ _ _ _ Hrun i ev Hi) as H.
    destruct (bool_decide (ev_node ev = "hitl")); [| done].
    destruct H as (Ha & _ & Hf). injection Hf as Hf.
    split; [by rewrite Ha | done].
  - by eapply Run_history.
  - split; [by eapply Run_without_triage |].
    rewrite executions_nodes. unfold early_exits. intros H.
    split_names H; by rewrite H.
  - exact (Run_exit_conditions _ _ _ _ Hrun).
Qed.

Lemma recommendation_once_after_triage_or_early_exit_witness :
  let sv := services_with agents_unclear in
  ∃ evs final,
    run sv fresh_state = (evs, Return final)
    ∧ executions "hitl" evs = 1%nat
    ∧ (executions "triage" evs = 0%nat ↔ ev_node <$> evs ∈ early_exits).
Proof.
  intros sv.
  assert (returns (run sv fresh_state).2 = true) as Hok
    by (vm_compute; reflexivity).
  destruct (run sv fresh_state) as [evs [final | e]] eqn:H;
    [| discriminate Hok].
  exists evs, final. split; [reflexivity |].
  destruct (recommendation_once_after_triage_or_early_exit sv fresh_state
              evs final H) as (H1 & _ & _ & H4 & _).
  exact (conj H1 H4).
Defined.

(** * Further properties of the workflow *)

(** ** The counter of the reflection loop *)

(** X1: no node execution changes [iteration_count] or [max_iterations]:
    the nodes do not write them and the increment the router of the
    reflector makes is lost, so every node of a run, and every call of the
    router, sees the values the run started with.  The guard against
    endless loops therefore answers at every pass what it answers at the
    first. *)
Theorem iteration_count_never_advances sv state evs r :
  run sv state = (evs, r) →
  ∀ ev, ev ∈ evs →
    iteration_count (ev_before ev) = iteration_count state
    ∧ max_iterations (ev_before ev) = max_iterations state
    ∧ iteration_count (ev_after ev) = iteration_count state
    ∧ max_iterations (ev_after ev) = max_iterations state
    ∧ (ev_node ev = "reflector" →
       bool_decide (default 5 (max_iterations (ev_after ev))
                    ≤ default 0 (iteration_count (ev_after ev)))%Z
       = bool_decide (default 5 (max_iterations state)
                      ≤ default 0 (iteration_count state))%Z).
Proof.
  intros Hrun ev Hev. apply run_Run in Hrun.
  destruct (Run_iteration_count _ _ _ _ _ Hrun ev Hev)
    as (H1 & H2 & H3 & H4).
  repeat (split; [assumption |]).
  intros _. by rewrite H3, H4.
Qed.

Lemma iteration_count_never_advances_witness :
  let sv := services_with agents_revise_assets in
  ∃ evs r ev,
    run sv fresh_state = (evs, r)
    ∧ ev ∈ evs
    ∧ ev_node ev = "triage"
    ∧ iteration_count (ev_before ev) = iteration_count fresh_state.
Proof.
  intros sv.
  assert (bool_decide
            (((fun ev => ev_node ev) <$> (run sv fresh_state).1 !! 4%nat)
             = Some "triage") = true)
    as Hok by (vm_compute; reflexivity).
  apply bool_decide_eq_true in Hok.
  destruct (run sv fresh_state) as [evs r] eqn:H.
  cbn [fst] in Hok.
  destruct (evs !! 4%nat) as [ev |] eqn:Hev; [| discriminate Hok].
  injection Hok as Hnode.
  apply list_elem_of_lookup_2 in Hev.
  exists evs, r, ev. split; [reflexivity |]. split; [exact Hev |].
  split; [exact Hnode |].
  exact (proj1 (iteration_count_never_advances sv fresh_state evs r H ev
                  Hev)).
Defined.

(** ** Processing time and tokens *)

Lemma Step_cost sv name state next state' :
  Step sv name state next state' →
  let ev := {| ev_node := name; ev_before := state; ev_after := state' |} in
  (default 0 (total_processing_time_ms state')
   = default 0 (total_processing_time_ms state) + (agent_cost sv ev).1)%Z
  ∧ (default 0 (total_tokens_consumed state')
     = default 0 (total_tokens_consumed state) + (agent_cost sv ev).2)%Z.
Proof.
  destruct 1 as [s o Ho | s o Ho | s o Ho | s o Ho | s o Ho | s o Ho | s];
    unfold agent_cost; cbn [ev_node ev_before];
    try (rewrite bool_decide_eq_false_2 by done; rewrite Ho; by cbn).
  rewrite bool_decide_eq_true_2 by done. cbn. lia.
Qed.

Lemma Run_cost sv name state evs r :
  Run sv name state evs r →
  ∀ final, r = Return final →
  (default 0 (total_processing_time_ms final)
   = default 0 (total_processing_time_ms state)
     + total ((fun ev => (agent_cost sv ev).1) <$> evs))%Z
  ∧ (default 0 (total_tokens_consumed final)
     = default 0 (total_tokens_consumed state)
       + total ((fun ev => (agent_cost sv ev).2) <$> evs))%Z.
Proof.
  induction 1 as [name s s' HS | name s next s' evs r HS Hnext HR IH
                  | name s e He | name s]; intros final Hr.
  - injection Hr as <-. destruct (Step_cost _ _ _ _ _ HS) as [H1 H2].
    cbn [fmap list_fmap total foldr]. cbn zeta in H1, H2. lia.
  - destruct (IH final Hr) as [IH1 IH2].
    destruct (Step_cost _ _ _ _ _ HS) as [H1 H2].
    cbn [fmap list_fmap total foldr]. cbn zeta in H1, H2.
    fold (total ((fun ev => (agent_cost sv ev).1) <$> evs)).
    fold (total ((fun ev => (agent_cost sv ev).2) <$> evs)).
    lia.
  - done.
  - done.
Qed.

(** X3: the totals of a run that returns are the totals it started from
    plus what the agents of its events reported, loop-backs included; the
    checkpoint adds nothing. *)
Theorem totals_add_up sv state evs final :
  run sv state = (evs, Return final) →
  (default 0 (total_processing_time_ms final)
   = default 0 (total_processing_time_ms state)
     + total ((fun ev => (agent_cost sv ev).1) <$> evs))%Z
  ∧ (default 0 (total_tokens_consumed final)
     = default 0 (total_tokens_consumed state)
       + total ((fun ev => (agent_cost sv ev).2) <$> evs))%Z.
Proof.
  intros Hrun. apply run_Run in Hrun.
  exact (Run_cost _ _ _ _ _ Hrun final eq_refl).
Qed.

Lemma totals_add_up_witness :
  let sv := services_with agents_revise_assets in
  ∃ evs final,
    run sv fresh_state = (evs, Return final)
    ∧ (default 0 (total_tokens_consumed final)
       = default 0 (total_tokens_consumed fresh_state)
         + total ((fun ev => (agent_cost sv ev).2) <$> evs))%Z.
Proof.
  intros sv.
  assert (returns (run sv fresh_state).2 = true) as Hok
    by (vm_compute; reflexivity).
  destruct (run sv fresh_state) as [evs [final | e]] eqn:H;
    [| discriminate Hok].
  exists evs, final. split; [reflexivity |].
  exact (proj2 (totals_add_up sv fresh_state evs final H)).
Defined.

(** ** What the reflector decides, and what it passes on *)

(** X4: the reflector sends a report back to [target] exactly when the
    iteration budget is not used up, the score it reports is below 0.7 (a
    missing score counts as 0.7), it asks for more information, and the
    next agent it names is [target], one of the supervisor, triage and the
    locator.  A low score without a request for more information goes to
    the checkpoint. *)
Theorem reflector_loops_back_iff state output target :
  target ≠ "hitl" →
  (_route_after_reflector (merge_reflector state output)).1 = target
  ↔ (default 0 (iteration_count state) < default 5 (max_iterations state))%Z
    ∧ (default (7 # 10) (res_quality_score (out_result output)) < 7 # 10)%Q
    ∧ out_requires_more_info output = true
    ∧ out_next_agent output = Some target
    ∧ target ∈ ["supervisor"; "triage"; "geo"].
Proof.
  intros Htarget.
  unfold _route_after_reflector.
  cbn [merge_reflector quality_score iteration_count max_iterations
       loop_back_to default id].
  case_bool_decide as Hmax.
  { cbn [fst]. split; [by intros <- | intros [? _]; lia]. }
  destruct (Qle_bool _ _) eqn:Hq.
  { cbn [fst]. split; [by intros <- |].
    intros (_ & Hlt & _). apply Qle_bool_iff in Hq.
    by apply Qlt_not_le in Hlt. }
  assert (default (7 # 10) (res_quality_score (out_result output)) < 7 # 10)%Q
    as Hlt.
  { apply Qnot_le_lt. intros Hle. apply Qle_bool_iff in Hle.
    by rewrite Hle in Hq. }
  destruct (out_requires_more_info output).
  - destruct (out_next_agent output) as [next |].
    + destruct (truthy next && _) eqn:Hnext.
      * apply andb_true_iff in Hnext as [_ Hnext].
        apply bool_decide_eq_true in Hnext.
        cbn [fst]. split.
        -- intros <-. repeat split; [lia | done | done].
        -- by intros (_ & _ & _ & [= ->] & _).
      * cbn [fst]. split; [by intros <- |].
        intros (_ & _ & _ & [= ->] & Hin).
        apply andb_false_iff in Hnext as [Hnext | Hnext].
        -- split_names Hin; subst; discriminate Hnext.
        -- by apply bool_decide_eq_false in Hnext.
    + cbn [fst]. split; [by intros <- | by intros (_ & _ & _ & ? & _)].
  - cbn [fst]. split; [by intros <- | by intros (_ & _ & ? & _)].
Qed.

Lemma reflector_loops_back_iff_witness :
  let output :=
    output_of (reflector_result (3 # 10)%Q) (Some "triage") false true [] in
  (_route_after_reflector (merge_reflector fresh_state output)).1 = "triage".
Proof.
  intros output.
  apply (reflector_loops_back_iff fresh_state output "triage"); [done |].
  split; [reflexivity |]. split; [reflexivity |]. split; [reflexivity |].
  split; [reflexivity | solve_elem].
Defined.

(** X5: the agent that runs after the reflector is told what it would have
    been told before the reflector ran, with one more entry in the history:
    the score, the gaps and the grounding issues the reflector found are no
    part of its input. *)
Theorem reflector_findings_not_passed_on sv state next state' :
  Step sv "reflector" state next state' →
  build_agent_input state'
  = with_history_entry "reflector" (build_agent_input state).
Proof.
  intros HS. remember "reflector" as name eqn:Hname.
  destruct HS as [s o _ | s o _ | s o _ | s o _ | s o _ | s o _ | s];
    try discriminate Hname.
  done.
Qed.

Lemma reflector_findings_not_passed_on_witness :
  let sv := services_with agents_scenario_B in
  let output :=
    output_of (reflector_result (3 # 10)%Q) (Some "triage") false true [] in
  build_agent_input (merge_reflector fresh_state output)
  = with_history_entry "reflector" (build_agent_input fresh_state).
Proof.
  intros sv output.
  exact (reflector_findings_not_passed_on sv fresh_state _ _
           (Step_reflector sv fresh_state output eq_refl)).
Defined.

(** ** What the nodes leave alone *)

Lemma Step_report sv name s next s' :
  Step sv name s next s' → report_fields s' = report_fields s.
Proof.
  destruct 1 as [s o _ | s o _ | s o _ | s o _ | s o _ | s o _ | s];
    reflexivity.
Qed.

(** X6: no node changes the report: in every event of a run the incident
    id, the query, the channel, the role, the text, the transcript, the
    image embeddings and the location are those the run was given.  Nor is
    [current_agent], [confidence] or [errors] ever written: [current_agent]
    stays the supervisor whichever node runs. *)
Theorem report_never_modified sv state evs r :
  run sv state = (evs, r) →
  ∀ ev, ev ∈ evs →
    incident_id (ev_after ev) = incident_id state
    ∧ query (ev_after ev) = query state
    ∧ channel (ev_after ev) = channel state
    ∧ user_role (ev_after ev) = user_role state
    ∧ text_input (ev_after ev) = text_input state
    ∧ audio_transcript (ev_after ev) = audio_transcript state
    ∧ image_embeddings (ev_after ev) = image_embeddings state
    ∧ location (ev_after ev) = location state
    ∧ current_agent (ev_after ev) = current_agent state
    ∧ confidence (ev_after ev) = confidence state
    ∧ errors (ev_after ev) = errors state.
Proof.
  intros Hrun ev Hev. apply run_Run in Hrun.
  destruct (Run_unwritten report_fields sv (fun _ => True)
              (fun name s next s' HS _ => Step_report sv name s next s' HS)
              _ _ _ _ Hrun (fun _ _ => I) ev Hev) as [_ H].
  unfold report_fields in H.
  injection H as H1 H2 H3 H4 H5 H6 H7 H8 H9 H10 H11.
  repeat split; assumption.
Qed.

Lemma report_never_modified_witness :
  let sv := services_with agents_revise_assets in
  ∃ evs r ev,
    run sv fresh_state = (evs, r)
    ∧ ev ∈ evs
    ∧ incident_id (ev_after ev) = incident_id fresh_state.
Proof.
  intros sv.
  assert (bool_decide (is_Some ((run sv fresh_state).1 !! 0%nat)) = true)
    as Hok by (vm_compute; reflexivity).
  apply bool_decide_eq_true in Hok as [ev Hev].
  destruct (run sv fresh_state) as [evs r] eqn:H.
  apply list_elem_of_lookup_2 in Hev.
  exists evs, r, ev. split; [reflexivity |]. split; [exact Hev |].
  exact (proj1 (report_never_modified sv fresh_state evs r H ev Hev)).
Defined.

Lemma Step_assessment sv name s next s' :
  Step sv name s next s' →
  name ∈ ["supervisor"; "geo"; "vision"; "hitl"] →
  assessment_fields s' = assessment_fields s.
Proof.
  destruct 1 as [s o _ | s o _ | s o _ | s o _ | s o _ | s o _ | s];
    intros Hname; try reflexivity; by split_names Hname.
Qed.

(** X7: a run that reaches the checkpoint without triage leaves the
    assessment as it found it, and the recommendation reports it: for a
    record of [create_initial_state], priority P3, type Unknown, no assets,
    and the default score 0.7. *)
Theorem recommendation_without_triage_reports_initial sv state evs final :
  run sv state = (evs, Return final) →
  executions "triage" evs = 0%nat →
  priority final = priority state
  ∧ incident_type final = incident_type state
  ∧ recommended_assets final = recommended_assets state
  ∧ quality_score final = quality_score state
  ∧ ∃ recommendation,
      final_recommendation final = Some recommendation
      ∧ recommendation !! "priority"
        = Some (to_json (default "P3" (priority state)))
      ∧ recommendation !! "incident_type"
        = Some (to_json (default "Unknown" (incident_type state)))
      ∧ recommendation !! "recommended_assets"
        = Some (to_json (default [] (recommended_assets state)))
      ∧ recommendation !! "quality_score"
        = Some (to_json (default (7 # 10)%Q (quality_score state))).
Proof.
  intros Hrun Htriage. apply run_Run in Hrun.
  pose proof (Run_without_triage _ _ _ _ Hrun Htriage) as Hexit.
  destruct (Run_return_hitl _ _ _ _ _ Hrun) as (evs' & before & Hevs & Hfinal).
  assert (∀ ev, ev ∈ evs →
            ev_node ev ∈ ["supervisor"; "geo"; "vision"; "hitl"]) as Hnodes.
  { intros ev Hev.
    apply (list_elem_of_fmap_2 ev_node) in Hev.
    revert Hev. generalize (ev_node ev). intros node Hnode.
    unfold early_exits in Hexit.
    apply elem_of_cons in Hexit as [Hexit | Hexit];
      [| apply elem_of_cons in Hexit as [Hexit | Hexit];
         [| apply list_elem_of_singleton in Hexit]];
      rewrite Hexit in Hnode; split_names Hnode; solve_elem. }
  destruct (Run_unwritten assessment_fields sv
              (fun name => name ∈ ["supervisor"; "geo"; "vision"; "hitl"])
              (Step_assessment sv) _ _ _ _ Hrun Hnodes
              {| ev_node := "hitl"; ev_before := before; ev_after := final |})
    as [Hbefore Hafter].
  { rewrite Hevs. apply elem_of_app. right. solve_elem. }
  cbn [ev_before ev_after] in Hbefore, Hafter.
  unfold assessment_fields in Hbefore, Hafter.
  injection Hafter as H1 H2 H3 _ _ H6 _.
  injection Hbefore as B1 B2 B3 _ _ B6 _.
  repeat (split; [assumption |]).
  exists (hitl_recommendation before).
  split; [by rewrite Hfinal |].
  rewrite <- B1, <- B2, <- B3, <- B6.
  unfold hitl_recommendation.
  repeat split; dict_lookup; reflexivity.
Qed.

Lemma recommendation_without_triage_reports_initial_witness :
  let sv := services_with agents_unclear in
  ∃ evs final recommendation,
    run sv fresh_state = (evs, Return final)
    ∧ final_recommendation final = Some recommendation
    ∧ recommendation !! "priority" = Some (JStr "P3").
Proof.
  intros sv.
  assert (returns (run sv fresh_state).2 = true) as Hok
    by (vm_compute; reflexivity).
  assert (executions "triage" (run sv fresh_state).1 = 0%nat) as Hno
    by (vm_compute; reflexivity).
  destruct (run sv fresh_state) as [evs [final | e]] eqn:H;
    [| discriminate Hok].
  destruct (recommendation_without_triage_reports_initial sv fresh_state
              evs final H Hno)
    as (_ & _ & _ & _ & recommendation & Hrec & Hpriority & _).
  exists evs, final, recommendation. split; [reflexivity |].
  split; [exact Hrec | exact Hpriority].
Defined.

(** * Further properties of the orchestrator *)

(** ** The shapes of a computed result *)

Lemma test_mode_cases sv incident_id query_ context :
  let result := _process_test_mode sv incident_id query_ context in
  (∃ e, result = _error_response sv incident_id e (time_time sv 2))
  ∨ (∃ response parsed,
       llm_generate sv
         (test_mode_user_prompt query_ (_format_context_for_prompt context))
       = Return response
       ∧ json_loads sv (resp_content response) = Return (JObj parsed)
       ∧ result !! "status" = Some (JStr "test_complete")
       ∧ result !! "error" = None
       ∧ result !! "location" = None
       ∧ result !! "requires_human_approval"
         = Some (JBool (in_strings (parsed !! "priority") ["P1"; "P2"]))).
Proof.
  cbv zeta.
  destruct (llm_generate sv
              (test_mode_user_prompt query_
                 (_format_context_for_prompt context)))
    as [response | e] eqn:Hllm.
  2: { left. exists e. unfold _process_test_mode. cbv zeta.
       by rewrite Hllm. }
  destruct (json_loads sv (resp_content response)) as [parsed | e] eqn:Hjson.
  2: { left. exists e. unfold _process_test_mode. cbv zeta.
       rewrite Hllm. cbn [mbind outcome_bind]. by rewrite Hjson. }
  destruct parsed as [| b | q | s | l | parsed].
  1-5: left; exists "object has no attribute 'get'";
       unfold _process_test_mode; cbv zeta;
       rewrite Hllm; cbn [mbind outcome_bind]; by rewrite Hjson.
  right. exists response, parsed.
  split; [done |]. split; [done |].
  rewrite (process_test_mode_parsed _ _ _ _ _ _ Hllm Hjson).
  repeat split; dict_lookup; reflexivity.
Qed.

Lemma error_response_lookups sv incident_id e start_time :
  let result := _error_response sv incident_id e start_time in
  result !! "status" = Some (JStr "error")
  ∧ result !! "error" = Some (JStr e)
  ∧ result !! "priority" = Some (JStr "P2")
  ∧ result !! "incident_type" = Some (JStr "Unknown_RequiresReview")
  ∧ result !! "recommended_assets"
    = Some (JArr [JObj (dict [("type", JStr "ALS_Ambulance");
                              ("quantity", JNum 1)])])
  ∧ result !! "requires_human_approval" = Some (JBool true)
  ∧ result !! "location" = None.
Proof.
  cbv zeta. unfold _error_response.
  repeat split; dict_lookup; reflexivity.
Qed.

Lemma lookup_stamped (result : pydict) (t m : json) key :
  key ≠ "mode" → key ≠ "processing_time_ms" →
  (<["mode" := m]> (<["processing_time_ms" := t]> result)) !! key
  = result !! key.
Proof. intros H1 H2. by rewrite !lookup_insert_ne. Qed.

(** X8: a result that [process_incident] computes has one of three
    statuses.  It is "error" exactly when the result has an [error] entry,
    and then it is the fallback: priority P2, type Unknown_RequiresReview,
    one ALS ambulance, approval required.  "test_complete" is only
    reported in test mode; "workflow_complete" only outside it, and then
    approval is required as well. *)
Theorem computed_result_status sv self incident_id req :
  let result := (process_incident sv self incident_id req true).1 in
  (result !! "status" = Some (JStr "error")
   ∧ is_Some (result !! "error")
   ∧ result !! "priority" = Some (JStr "P2")
   ∧ result !! "incident_type" = Some (JStr "Unknown_RequiresReview")
   ∧ result !! "recommended_assets"
     = Some (JArr [JObj (dict [("type", JStr "ALS_Ambulance");
                               ("quantity", JNum 1)])])
   ∧ result !! "requires_human_approval" = Some (JBool true))
  ∨ (result !! "status" = Some (JStr "test_complete")
     ∧ result !! "error" = None ∧ mode self = "test")
  ∨ (result !! "status" = Some (JStr "workflow_complete")
     ∧ result !! "error" = None ∧ mode self ≠ "test"
     ∧ result !! "requires_human_approval" = Some (JBool true)).
Proof.
  cbv zeta. unfold process_incident. cbn [negb].
  destruct (process_fresh sv self incident_id req) as [fresh | e] eqn:Hf;
    cbn [fst].
  2: { left.
       destruct (error_response_lookups sv incident_id e (time_time sv 0))
         as (H1 & H2 & H3 & H4 & H5 & H6 & _).
       rewrite H2. repeat split; try assumption. by eexists. }
  rewrite !lookup_stamped by done.
  unfold process_fresh in Hf. case_bool_decide as Hmode.
  - injection Hf as <-.
    destruct (test_mode_cases sv incident_id (req_query req)
                (_retrieve_context sv (req_query req) (req_location req)
                   (req_image_embeddings req)))
      as [[e ->] | (response & parsed & _ & _ & H1 & H2 & _)].
    + left.
      destruct (error_response_lookups sv incident_id e (time_time sv 2))
        as (H1 & H2 & H3 & H4 & H5 & H6 & _).
      rewrite H2. repeat split; try assumption. by eexists.
    + right. left. by repeat split.
  - right. right.
    pose proof (prod_result_approval _ _ _ _ _ _ _ _ _ _ _ Hf) as Happroval.
    unfold _process_prod_mode in Hf.
    destruct (run sv _).2 as [final |]; [| discriminate Hf].
    cbn [mbind outcome_bind] in Hf. injection Hf as <-.
    split; [dict_lookup; reflexivity |].
    split; [dict_lookup; reflexivity |].
    split; [exact Hmode | exact Happroval].
Qed.

(** ** The result of a completed workflow *)

Lemma workflow_complete_run sv self incident_id req :
  let result := (process_incident sv self incident_id req true).1 in
  result !! "status" = Some (JStr "workflow_complete") →
  ∃ evs before fresh,
    run sv (initial_state_of sv incident_id req)
    = (evs ++ [{| ev_node := "hitl"; ev_before := before;
                  ev_after := _hitl_node before |}],
       Return (_hitl_node before))
    ∧ _process_prod_mode sv incident_id (req_query req)
        (py_or (req_text_input req) (req_query req))
        (req_channel req) (req_user_role req) (req_location req)
        (req_audio_transcript req) (req_image_embeddings req)
        (_retrieve_context sv (req_query req) (req_location req)
           (req_image_embeddings req))
      = Return fresh
    ∧ ∀ key, key ≠ "mode" → key ≠ "processing_time_ms" →
        result !! key = fresh !! key.
Proof.
  cbv zeta. unfold process_incident. cbn [negb].
  destruct (process_fresh sv self incident_id req) as [fresh | e] eqn:Hf;
    cbn [fst].
  2: { intros H.
       rewrite (proj1 (error_response_lookups sv incident_id e _)) in H.
       discriminate H. }
  rewrite lookup_stamped by done.
  unfold process_fresh in Hf. case_bool_decide as Hmode.
  { injection Hf as <-.
    destruct (test_mode_cases sv incident_id (req_query req)
                (_retrieve_context sv (req_query req) (req_location req)
                   (req_image_embeddings req)))
      as [[e ->] | (response & parsed & _ & _ & H1 & _)].
    - intros H.
      rewrite (proj1 (error_response_lookups sv incident_id e _)) in H.
      discriminate H.
    - rewrite H1. discriminate. }
  intros _.
  pose proof Hf as Hrun. unfold _process_prod_mode in Hrun.
  fold (initial_state_of sv incident_id req) in Hrun.
  destruct (run sv (initial_state_of sv incident_id req))
    as [evs [final | e]] eqn:Hr; [| discriminate Hrun].
  clear Hrun.
  destruct (Run_return_hitl _ _ _ _ _ (run_Run _ _ _ _ Hr))
    as (evs' & before & -> & ->).
  exists evs', before, fresh. split; [reflexivity |]. split; [exact Hf |].
  intros key H1 H2. by apply lookup_stamped.
Qed.

Lemma Run_report sv name state evs r :
  Run sv name state evs r →
  ∀ ev, ev ∈ evs → report_fields (ev_before ev) = report_fields state.
Proof.
  intros HR ev Hev.
  exact (proj1 (Run_unwritten report_fields sv (fun _ => True)
                  (fun name s next s' HS _ => Step_report sv name s next s' HS)
                  _ _ _ _ HR (fun _ _ => I) ev Hev)).
Qed.

(** X9: the result of a completed workflow repeats its
    [final_recommendation]: the entries the two share are equal, the
    identifier included. *)
Theorem workflow_result_repeats_recommendation sv self incident_id req :
  let result := (process_incident sv self incident_id req true).1 in
  result !! "status" = Some (JStr "workflow_complete") →
  ∃ recommendation,
    result !! "final_recommendation" = Some (JObj recommendation)
    ∧ ∀ key, key ∈ shared_keys → result !! key = recommendation !! key.
Proof.
  intros result Hstatus.
  destruct (workflow_complete_run sv self incident_id req Hstatus)
    as (evs & before & fresh & Hrun & Hfresh & Hkeys).
  fold result in Hkeys.
  unfold _process_prod_mode in Hfresh.
  fold (initial_state_of sv incident_id req) in Hfresh.
  rewrite Hrun in Hfresh. cbn [snd mbind outcome_bind] in Hfresh.
  injection Hfresh as <-.
  assert (incident_id_before :
            report_fields before
            = report_fields (initial_state_of sv incident_id req)).
  { apply run_Run in Hrun.
    apply (Run_report _ _ _ _ _ Hrun
             {| ev_node := "hitl"; ev_before := before;
                ev_after := _hitl_node before |}).
    apply elem_of_app. right. solve_elem. }
  apply (f_equal (fun fields => fields.1.1.1.1.1.1.1.1.1.1))
    in incident_id_before.
  cbn [fst report_fields] in incident_id_before.
  exists (hitl_recommendation before). split.
  - rewrite Hkeys by done. dict_lookup. reflexivity.
  - intros key Hkey. unfold shared_keys in Hkey.
    split_names Hkey; rewrite Hkeys by done; unfold hitl_recommendation;
      dict_lookup; try reflexivity.
    by rewrite incident_id_before.
Qed.

Lemma workflow_result_repeats_recommendation_witness :
  let sv := services_with agents_revise_assets in
  let result :=
    (process_incident sv orchestrator_prod "INC-1" request_1 true).1 in
  ∃ recommendation,
    result !! "final_recommendation" = Some (JObj recommendation)
    ∧ result !! "priority" = recommendation !! "priority".
Proof.
  intros sv result.
  assert (result !! "status" = Some (JStr "workflow_complete")) as Hstatus
    by (vm_compute; reflexivity).
  destruct (workflow_result_repeats_recommendation sv orchestrator_prod
              "INC-1" request_1 Hstatus) as (recommendation & H1 & H2).
  exists recommendation. split; [exact H1 |].
  apply H2. unfold shared_keys. solve_elem.
Defined.

(** X10: the [agent_history] of a completed workflow's result lists the
    agents that ran, in the order they ran and as often as they ran, and
    its [tokens_consumed] is the sum of what they reported. *)
Theorem workflow_result_reports_run sv self incident_id req :
  let result := (process_incident sv self incident_id req true).1 in
  result !! "status" = Some (JStr "workflow_complete") →
  ∃ evs final,
    run sv (initial_state_of sv incident_id req) = (evs, Return final)
    ∧ result !! "agent_history"
      = Some (to_json (filter (fun node => node ≠ "hitl") (ev_node <$> evs)))
    ∧ result !! "tokens_consumed"
      = Some (to_json (total ((fun ev => (agent_cost sv ev).2) <$> evs))).
Proof.
  intros result Hstatus.
  destruct (workflow_complete_run sv self incident_id req Hstatus)
    as (evs & before & fresh & Hrun & Hfresh & Hkeys).
  fold result in Hkeys.
  unfold _process_prod_mode in Hfresh.
  fold (initial_state_of sv incident_id req) in Hfresh.
  rewrite Hrun in Hfresh. cbn [snd mbind outcome_bind] in Hfresh.
  injection Hfresh as <-.
  eexists _, _. split; [exact Hrun |].
  pose proof (run_Run _ _ _ _ Hrun) as HR.
  pose proof (Run_history _ _ _ _ _ HR _ eq_refl) as Hhistory.
  pose proof (proj2 (Run_cost _ _ _ _ _ HR _ eq_refl)) as Htokens.
  change (default [] (agent_history (initial_state_of sv incident_id req)))
    with (@nil string) in Hhistory.
  change (default 0%Z
            (total_tokens_consumed (initial_state_of sv incident_id req)))
    with 0%Z in Htokens.
  rewrite app_nil_l in Hhistory. rewrite Z.add_0_l in Htokens.
  split; rewrite Hkeys by done; dict_lookup.
  - exact (f_equal (fun history : list string => Some (to_json history))
             Hhistory).
  - exact (f_equal (fun tokens : Z => Some (to_json tokens)) Htokens).
Qed.

Lemma workflow_result_reports_run_witness :
  let sv := services_with agents_revise_assets in
  let result :=
    (process_incident sv orchestrator_prod "INC-1" request_1 true).1 in
  ∃ evs final,
    run sv (initial_state_of sv "INC-1" request_1) = (evs, Return final)
    ∧ result !! "agent_history"
      = Some (to_json (filter (fun node => node ≠ "hitl") (ev_node <$> evs))).
Proof.
  intros sv result.
  assert (result !! "status" = Some (JStr "workflow_complete")) as Hstatus
    by (vm_compute; reflexivity).
  destruct (workflow_result_reports_run sv orchestrator_prod
              "INC-1" request_1 Hstatus) as (evs & final & H1 & H2 & _).
  exists evs, final. split; [exact H1 | exact H2].
Defined.

(** ** Clearing the cache *)

(** X11: after [clear_cache] for an identifier the next call for it
    computes, as a forced call does, and the calls for every other
    identifier go as before.  The empty identifier is the exception:
    clearing it clears every entry, so every next call computes. *)
Theorem clear_cache_recomputes sv self incident_id req :
  let cleared := clear_cache (Some incident_id) self in
  mode cleared = mode self
  ∧ (process_incident sv cleared incident_id req false).1
    = (process_incident sv self incident_id req true).1
  ∧ ∀ other req' force_reprocess, other ≠ incident_id →
      (process_incident sv cleared other req' force_reprocess).1
      = (process_incident sv self other req'
           (force_reprocess || bool_decide (incident_id = ""))).1.
Proof.
  intros cleared. split; [reflexivity |].
  assert (∀ other req',
            process_fresh sv cleared other req'
            = process_fresh sv self other req') as Hfresh
    by (intros; by apply process_fresh_cache).
  split.
  - unfold process_incident. cbn [negb]. rewrite Hfresh.
    assert (_processed_incidents cleared !! incident_id = None) as ->.
    { unfold cleared, clear_cache. cbn [_processed_incidents].
      destruct (truthy (Some incident_id));
        [apply lookup_delete_eq | apply lookup_empty]. }
    by destruct (process_fresh sv self incident_id req).
  - intros other req' force Hother.
    unfold process_incident. rewrite Hfresh.
    assert ((if negb force
             then _processed_incidents cleared !! other else None)
            = (if negb (force || bool_decide (incident_id = ""))
               then _processed_incidents self !! other else None)) as ->.
    { unfold cleared, clear_cache.
      cbn [_processed_incidents truthy option_truthy default].
      destruct incident_id as [| a s].
      - change (truthy "") with false.
        rewrite bool_decide_eq_true_2 by done.
        rewrite orb_true_r. cbn [negb]. rewrite lookup_empty.
        by destruct (negb force).
      - change (truthy (String a s)) with true. cbn [id].
        rewrite bool_decide_eq_false_2 by done.
        rewrite orb_false_r. by rewrite lookup_delete_ne. }
    destruct (if negb (force || bool_decide (incident_id = ""))
              then _processed_incidents self !! other else None);
      [reflexivity |].
    by destruct (process_fresh sv self other req').
Qed.

Lemma clear_cache_recomputes_witness :
  let sv := services_with agents_unclear in
  let cleared := clear_cache (Some "INC-1") orchestrator_prod in
  (process_incident sv cleared "INC-2" request_1 false).1
  = (process_incident sv orchestrator_prod "INC-2" request_1
       (false || bool_decide ("INC-1" = ""))).1.
Proof.
  intros sv cleared.
  apply (proj2 (proj2 (clear_cache_recomputes sv orchestrator_prod "INC-1"
                         request_1))).
  discriminate.
Defined.

(** ** The context shown to the model in test mode *)

Lemma truthy_take {A} (l : list A) : truthy (take 3 l) = truthy l.
Proof. by destruct l. Qed.

(** X12: the context string is built from the first three procedures and
    the first three similar incidents only: landmarks, images and the
    fourth and fifth hits of a search never reach the prompt.  It is the
    sentence "No relevant context found." exactly when neither search
    found anything. *)
Theorem context_for_prompt_uses_first_three context :
  _format_context_for_prompt context
  = _format_context_for_prompt
      {| docs := take 3 (docs context); sops := take 3 (sops context);
         landmarks := []; images := [] |}
  ∧ (_format_context_for_prompt context = "No relevant context found."
     ↔ sops context = [] ∧ docs context = []).
Proof.
  split.
  - unfold _format_context_for_prompt. cbn [docs sops].
    by rewrite !truthy_take, !take_take.
  - unfold _format_context_for_prompt.
    destruct (sops context) as [| sop sops_]; destruct (docs context)
      as [| doc docs_]; cbn [truthy list_truthy app String.concat].
    + done.
    + split; [intros H; discriminate H | by intros [_ ?]].
    + split; [intros H; discriminate H | by intros [? _]].
    + split; [intros H; discriminate H | by intros [? _]].
Qed.

Lemma length_append (a b : string) :
  String.length (a +:+ b) = (String.length a + String.length b)%nat.
Proof.
  induction a as [| c a IH]; [done |].
  change (String c a +:+ b) with (String c (a +:+ b)).
  cbn [String.length]. by rewrite IH.
Qed.

Lemma length_substring (n m : nat) (s : string) :
  (String.length (String.substring n m s) ≤ m)%nat.
Proof.
  revert n m. induction s as [| c s IH]; intros [| n] [| m]; cbn;
    try lia.
  - specialize (IH 0%nat m). lia.
  - apply (IH n 0%nat).
  - apply (IH n (S m)).
Qed.

Lemma snippet_length (doc : Doc) : (String.length (snippet doc) ≤ 205)%nat.
Proof.
  unfold snippet. rewrite !length_append.
  pose proof (length_substring 0 200
                (default (default "" (doc_payload_content doc))
                   (doc_content doc))).
  cbn [String.length]. lia.
Qed.

Lemma snippets_length (l : list Doc) :
  (String.length (String.concat newline (snippet <$> take 3 l)) ≤ 617)%nat.
Proof.
  destruct l as [| a [| b [| c l]]];
    rewrite ?take_0;
    cbn [take fmap list_fmap String.concat];
    rewrite ?take_0; cbn [fmap list_fmap];
    rewrite ?length_append;
    try pose proof (snippet_length a);
    try pose proof (snippet_length b);
    try pose proof (snippet_length c);
    cbn [String.length newline]; lia.
Qed.

(** X13: each hit contributes at most 205 characters to the prompt, and
    the context string at most 1270, however many hits the searches
    return and however long they are. *)
Theorem context_for_prompt_bounded context :
  (∀ doc, String.length (snippet doc) ≤ 205)%nat
  ∧ (String.length (_format_context_for_prompt context) ≤ 1270)%nat.
Proof.
  split; [exact snippet_length |].
  unfold _format_context_for_prompt.
  pose proof (snippets_length (sops context)) as Hsops.
  pose proof (snippets_length (docs context)) as Hdocs.
  destruct (truthy (sops context)); destruct (truthy (docs context));
    cbn [app truthy list_truthy String.concat];
    rewrite ?length_append; cbn [String.length newline String.append];
    lia.
Qed.

(** ** When the query cannot be embedded *)

(** X14: when [embed_text] raises, or returns no vector, no search is
    made, the image search included although it does not use the query's
    vector: the context is empty, the workflow starts on four empty lists
    and the model of test mode is told that no context was found. *)
Theorem no_embedding_no_context sv incident_id req :
  (∃ e, embed_text sv (req_query req) = Raise e)
  ∨ embed_text sv (req_query req) = Return [] →
  let context :=
    _retrieve_context sv (req_query req) (req_location req)
      (req_image_embeddings req) in
  context = empty_context
  ∧ _format_context_for_prompt context = "No relevant context found."
  ∧ retrieved_docs (initial_state_of sv incident_id req) = Some []
  ∧ retrieved_sops (initial_state_of sv incident_id req) = Some []
  ∧ retrieved_landmarks (initial_state_of sv incident_id req) = Some []
  ∧ retrieved_images (initial_state_of sv incident_id req) = Some [].
Proof.
  intros Hembed. cbv zeta.
  assert (_retrieve_context sv (req_query req) (req_location req)
            (req_image_embeddings req) = empty_context) as Hcontext.
  { apply retrieve_context_not_embedded. intros v rest Hv.
    destruct Hembed as [[e He] | He]; rewrite He in Hv; discriminate Hv. }
  unfold initial_state_of. rewrite Hcontext. by repeat split.
Qed.

Lemma no_embedding_no_context_witness :
  let sv := services_with agents_unclear in
  _retrieve_context sv (req_query request_1) (req_location request_1)
    (req_image_embeddings request_1) = empty_context.
Proof.
  intros sv.
  exact (proj1 (no_embedding_no_context sv "INC-1" request_1
                  (or_introl (ex_intro _ "embedding service down" eq_refl)))).
Defined.

(** * The chat route *)

Lemma executions_none name evs :
  executions name evs = 0%nat → ∀ ev, ev ∈ evs → ev_node ev ≠ name.
Proof.
  induction evs as [| ev' evs IH]; intros H ev Hev;
    [by apply elem_of_nil in Hev |].
  rewrite executions_cons in H.
  apply elem_of_cons in Hev as [-> | Hev].
  - case_bool_decide; [lia | done].
  - apply IH; [lia | done].
Qed.

Lemma Step_not_geo sv name s next s' :
  Step sv name s next s' → name ≠ "geo" →
  resolved_location s' = resolved_location s.
Proof.
  destruct 1 as [s o _ | s o _ | s o _ | s o _ | s o _ | s o _ | s];
    intros Hname; try reflexivity; done.
Qed.

Lemma Step_not_triage sv name s next s' :
  Step sv name s next s' → name ≠ "triage" →
  incident_type s' = incident_type s.
Proof.
  destruct 1 as [s o _ | s o _ | s o _ | s o _ | s o _ | s o _ | s];
    intros Hname; try reflexivity; done.
Qed.

Lemma Run_final_unwritten {A} (f : IncidentState → A) sv (writer : string) :
  (∀ name s next s', Step sv name s next s' → name ≠ writer → f s' = f s) →
  ∀ name s evs final, Run sv name s evs (Return final) →
  executions writer evs = 0%nat → f final = f s.
Proof.
  intros Hf name s evs final HR Hnone.
  pose proof (Run_checkpoint_once _ _ _ _ _ HR) as (_ & ev & Hlast & _ & <-).
  apply (Run_unwritten f sv (fun name => name ≠ writer) Hf _ _ _ _ HR).
  - by apply executions_none.
  - apply last_Some in Hlast as [evs' ->]. apply elem_of_app. right.
    solve_elem.
Qed.

(** Where a computed result carries a location: nowhere, unless it is the
    result of a completed workflow. *)
Lemma computed_result_location sv self incident_id req :
  let result := (process_incident sv self incident_id req true).1 in
  result !! "resolved_location" = None
  ∧ (result !! "location" = None
     ∨ (mode self ≠ "test"
        ∧ result !! "status" = Some (JStr "workflow_complete"))).
Proof.
  cbv zeta. unfold process_incident. cbn [negb].
  destruct (process_fresh sv self incident_id req) as [fresh | e] eqn:Hf;
    cbn [fst].
  2: { split; [| left]; unfold _error_response; dict_lookup; reflexivity. }
  rewrite !lookup_stamped by done.
  unfold process_fresh in Hf. case_bool_decide as Hmode.
  - injection Hf as <-.
    destruct (test_mode_cases sv incident_id (req_query req)
                (_retrieve_context sv (req_query req) (req_location req)
                   (req_image_embeddings req)))
      as [[e He] | (response & parsed & Hllm & Hjson & _)].
    + rewrite He.
      split; [| left]; unfold _error_response; dict_lookup; reflexivity.
    + rewrite (process_test_mode_parsed _ _ _ _ _ _ Hllm Hjson).
      split; [| left]; dict_lookup; reflexivity.
  - unfold _process_prod_mode in Hf.
    destruct (run sv _).2 as [final |]; [| discriminate Hf].
    cbn [mbind outcome_bind] in Hf. injection Hf as <-.
    split; [dict_lookup; reflexivity |].
    right. split; [exact Hmode | dict_lookup; reflexivity].
Qed.

(** X16: the chat route takes a conversation for complete, and then saves
    and announces a dispatch, only for the result of a completed workflow
    in which both the locator and triage ran: never in test mode, never
    for a fallback, and never when the located latitude or longitude is
    zero or missing. *)
Theorem conversation_complete_needs_locator_and_triage sv AGENT_MODE
    session_id full_query role :
  let result := send_message_result sv AGENT_MODE session_id full_query role in
  _is_conversation_complete result = true →
  AGENT_MODE ≠ "test"
  ∧ result !! "status" = Some (JStr "workflow_complete")
  ∧ (∃ located,
       result !! "location" = Some (JObj located)
       ∧ truthy (located !! "lat") = true
       ∧ truthy (located !! "lon") = true)
  ∧ ∃ evs final,
      run sv
        (initial_state_of sv ("CHAT-" +:+ String.substring 0 8 session_id)
           {| req_query := full_query; req_text_input := None;
              req_channel := "web"; req_user_role := role;
              req_location := None; req_audio_transcript := None;
              req_image_embeddings := None |})
      = (evs, Return final)
      ∧ (0 < executions "geo" evs)%nat
      ∧ (0 < executions "triage" evs)%nat.
Proof.
  intros result Hcomplete.
  set (incident := "CHAT-" +:+ String.substring 0 8 session_id) in *.
  set (req := {| req_query := full_query; req_text_input := None;
                 req_channel := "web"; req_user_role := role;
                 req_location := None; req_audio_transcript := None;
                 req_image_embeddings := None |}) in *.
  assert (result
          = (process_incident sv (Orchestrator_init AGENT_MODE) incident req
               true).1) as Hresult.
  { unfold result, send_message_result. fold incident. fold req.
    unfold process_incident.
    cbn [negb Orchestrator_init _processed_incidents].
    by rewrite lookup_empty. }
  unfold _is_conversation_complete in Hcomplete. cbv zeta in Hcomplete.
  apply andb_true_iff in Hcomplete as [Hcomplete Htype].
  apply andb_true_iff in Hcomplete as [Hlocation _].
  apply andb_true_iff in Htype as [_ Htype].
  apply negb_true_iff in Htype.
  pose proof (computed_result_location sv (Orchestrator_init AGENT_MODE)
                incident req) as Hshape.
  cbv zeta in Hshape. rewrite <- Hresult in Hshape.
  destruct Hshape as [Hnone Hshape].
  rewrite Hnone in Hlocation.
  change (get_or None (result !! "location")) with (result !! "location")
    in Hlocation.
  destruct Hshape as [Hnoloc | [Hmode Hstatus]].
  { rewrite Hnoloc in Hlocation. discriminate Hlocation. }
  pose proof Hstatus as Hrun. rewrite Hresult in Hrun.
  apply workflow_complete_run in Hrun
    as (evs & before & fresh & Hrun & Hfresh & Hkeys).
  rewrite <- Hresult in Hkeys.
  unfold _process_prod_mode in Hfresh.
  fold (initial_state_of sv incident req) in Hfresh.
  rewrite Hrun in Hfresh. cbn [snd mbind outcome_bind] in Hfresh.
  injection Hfresh as <-.
  assert (result !! "location"
          = Some (to_json (resolved_location (_hitl_node before)))) as Hloc
    by (rewrite Hkeys by done; dict_lookup; reflexivity).
  assert (result !! "incident_type"
          = Some (to_json (default "Unknown"
                             (incident_type (_hitl_node before))))) as Hty
    by (rewrite Hkeys by done; dict_lookup; reflexivity).
  pose proof (run_Run _ _ _ _ Hrun) as HR.
  split; [exact Hmode |]. split; [exact Hstatus |].
  split.
  { rewrite Hloc in Hlocation |- *.
    destruct (resolved_location (_hitl_node before)) as [located |];
      [| discriminate Hlocation].
    exists located. split; [reflexivity |].
    by apply andb_true_iff in Hlocation. }
  eexists _, _. split; [exact Hrun |]. split.
  - destruct (executions "geo" _) eqn:Hgeo; [| lia].
    pose proof (Run_final_unwritten resolved_location sv "geo"
                  (Step_not_geo sv) _ _ _ _ HR Hgeo) as Hsame.
    rewrite Hloc, Hsame in Hlocation. discriminate Hlocation.
  - destruct (executions "triage" _) eqn:Htriage; [| lia].
    pose proof (Run_final_unwritten incident_type sv "triage"
                  (Step_not_triage sv) _ _ _ _ HR Htriage) as Hsame.
    rewrite Hty, Hsame in Htype. discriminate Htype.
Qed.

Lemma conversation_complete_needs_locator_and_triage_witness :
  let sv := services_with agents_located in
  let result :=
    send_message_result sv "prod" "0f8fad5b-d9cb" "user: fire at MG Road"
      "public" in
  _is_conversation_complete result = true
  ∧ result !! "status" = Some (JStr "workflow_complete").
Proof.
  intros sv result.
  assert (_is_conversation_complete result = true) as Hcomplete
    by (vm_compute; reflexivity).
  split; [exact Hcomplete |].
  exact (proj1 (proj2 (conversation_complete_needs_locator_and_triage sv
                         "prod" "0f8fad5b-d9cb" "user: fire at MG Road"
                         "public" Hcomplete))).
Defined.

(** * Test mode *)

(** X17: test mode calls no agent: the result of [process_incident] in
    test mode, and the cache it leaves, are the same whatever the agents
    would do. *)
Theorem test_mode_calls_no_agent sv self incident_id req force_reprocess
    agents :
  mode self = "test" →
  process_incident (with_agents agents sv) self incident_id req
    force_reprocess
  = process_incident sv self incident_id req force_reprocess.
Proof.
  intros Hmode. unfold process_incident, process_fresh.
  by rewrite !bool_decide_eq_true_2.
Qed.

Lemma test_mode_calls_no_agent_witness :
  let sv := services_completing "{}" completion_P1 in
  process_incident (with_agents agents_down sv) (Orchestrator_init "test")
    "INC-1" request_1 false
  = process_incident sv (Orchestrator_init "test") "INC-1" request_1 false.
Proof.
  intros sv.
  exact (test_mode_calls_no_agent sv (Orchestrator_init "test") "INC-1"
           request_1 false agents_down eq_refl).
Defined.

(** X18: the supervisor's first input of a workflow already carries a
    triage entry among the previous outputs, made of the defaults of
    [create_initial_state], and nothing else: the history is empty and no
    other agent has an entry. *)
Theorem first_input_has_default_triage sv incident_id req :
  let input := build_agent_input (initial_state_of sv incident_id req) in
  in_agent_history input = []
  ∧ in_previous_outputs input
    = {[ "triage" :=
           JObj (dict [("priority", JStr "P3");
                       ("incident_type", JStr "Unknown");
                       ("recommended_assets", JArr [])]) ]}.
Proof. split; reflexivity. Qed.
